(** * Exchequer backend (server.js): payment-event reconciliation

    A shallow embedding of the Express server of the repository: the five
    routes that talk to the payment provider (Stripe) and to the record
    store (Firestore), and the three webhook handlers.  The provider and
    the store are external collaborators; what they answer during one
    request is collected in an environment record [Env], and every call
    that leaves the process is appended to a trace.  Requests are served
    one at a time: an [await] is the next step of a sequential run. *)

From Stdlib Require Import Floats.PrimFloat Strings.Ascii.
From stdpp Require Import base option strings pretty list gmap sorting.

Local Open Scope string_scope.
Local Open Scope list_scope.

(** ** JavaScript values *)

(** The values that occur in payloads, request bodies and documents.
    Numbers are IEEE doubles, as in JavaScript; [VTime] is a Firestore
    timestamp. *)
Inductive Value :=
  | VUndef
  | VNull
  | VStr (s : string)
  | VNum (x : float)
  | VTime (t : Z).

(** A plain JavaScript object with the fields the code reads or writes. *)
Abbreviation Obj := (gmap string Value).

(** [o.k]: a missing property reads as [undefined]. *)
Definition prop (o : Obj) (k : string) : Value := default VUndef (o !! k).

(** ToBoolean, for [a || b]. *)
Definition truthy (v : Value) : bool :=
  match v with
  | VUndef | VNull => false
  | VStr s => negb (String.eqb s "")
  | VNum x => negb (PrimFloat.eqb x 0 || negb (PrimFloat.eqb x x))
  | VTime _ => true
  end.

Definition js_or (a b : Value) : Value := if truthy a then a else b.

(** [v === 'lit'] *)
Definition strict_eq_str (v : Value) (lit : string) : bool :=
  match v with
  | VStr s => String.eqb s lit
  | _ => false
  end.

(** [cents / 100] *)
Definition div100 (cents : float) : float := (cents / 100)%float.

(** ** The record store (Firestore) *)

(** *** Document paths *)

(** [.doc(documentPath)] takes a slash-separated path, relative to the
    collection it is called on.  The client accepts a non-empty string
    without [//], drops the empty segments that a leading or a trailing
    slash leaves, and requires the rest to point to a document: counted
    from a collection, an odd number of segments.  So [a] and [a/b/c] name
    documents and [a/b] does not. *)
Definition is_slash (c : Ascii.ascii) : bool := Ascii.eqb c "/"%char.

Fixpoint has_double_slash (path : string) : bool :=
  match path with
  | String c rest =>
      match rest with
      | String c' _ => (is_slash c && is_slash c') || has_double_slash rest
      | EmptyString => false
      end
  | EmptyString => false
  end.

(** [path.split('/')]; [cur] is the segment being read. *)
Fixpoint split_slash (cur : string) (path : string) : list string :=
  match path with
  | EmptyString => [cur]
  | String c rest =>
      if is_slash c then cur :: split_slash "" rest
      else split_slash (cur +:+ String c "") rest
  end.

Definition segments (path : string) : list string :=
  filter (λ segment, segment ≠ "") (split_slash "" path).

(** The document that [path] names under a collection, written without
    the slashes that do not count; [None] when the client throws. *)
Definition doc_path (path : string) : option string :=
  if decide (path = "") then None
  else if has_double_slash path then None
  else if Nat.odd (length (segments path)) then Some (String.concat "/" (segments path))
  else None.

(** An id in the form in which [doc_path] returns it. *)
Definition names_document (id : string) : Prop := doc_path id = Some id.

(** An id of one segment: a non-empty string without a slash. *)
Fixpoint no_slash (id : string) : bool :=
  match id with
  | EmptyString => true
  | String c rest => negb (is_slash c) && no_slash rest
  end.

Definition plain_id (id : string) : Prop := id ≠ "" ∧ no_slash id = true.

(** *** Collections and documents *)

(** Every collection the server touches sits under
    [artifacts/{organizationId}/users/{memberId}/{collection}]; a
    collection maps the paths of the documents under it to the documents.
    Documents are found only where [.doc] can point. *)
Definition CollPath : Type := string * string * string.

Abbreviation Store := (gmap CollPath (gmap string Obj)).

Definition coll_at (s : Store) (p : CollPath) : gmap string Obj :=
  default ∅ (s !! p).

(** [p.doc(id)], with the paths as the client keeps them. *)
Definition reference (p : CollPath) (id : string) : Prop :=
  names_document p.1.1 ∧ names_document p.1.2 ∧ names_document id.

Global Instance reference_dec p id : Decision (reference p id).
Proof. unfold reference, names_document. apply _. Defined.

Definition doc_at (s : Store) (p : CollPath) (id : string) : option Obj :=
  if decide (reference p id) then coll_at s p !! id else None.

(** [set] and [add] throw, before anything is sent, when a field of the
    data is [undefined]: the client is created without
    [ignoreUndefinedProperties]. *)
Global Instance is_undefined_dec (v : Value) : Decision (v = VUndef).
Proof. destruct v; first [by left | by right]. Defined.

Definition defined (data : Obj) : Prop := map_Forall (λ _ v, v ≠ VUndef) data.

(** [ref.set(data, {merge: true})]: the written fields replace the stored
    ones, the other stored fields stay. *)
Definition set_merge (p : CollPath) (id : string) (data : Obj) (s : Store) : Store :=
  <[p := <[id := data ∪ default ∅ (doc_at s p id)]> (coll_at s p)]> s.

(** [coll.add(data)]: a new document under an id the collection does not
    use yet. *)
Definition auto_id (c : gmap string Obj) : string := fresh (dom c).

Definition add_doc (p : CollPath) (data : Obj) (s : Store) : Store :=
  <[p := <[auto_id (coll_at s p) := data]> (coll_at s p)]> s.

(** [coll.orderBy(field, 'desc').get()].  Documents without the field are
    not returned, nor are the documents of collections further down,
    whose paths have several segments.  Values are ordered by type first
    (null, number, timestamp, string); timestamps are then ordered by
    time.  The order inside the other types is not modelled: the server
    only ever orders by [createdAt], which it writes as a server
    timestamp. *)
Definition order_key (v : Value) : Z * Z :=
  match v with
  | VUndef => (0, 0)
  | VNull => (1, 0)
  | VNum _ => (2, 0)
  | VTime t => (3, t)
  | VStr _ => (4, 0)
  end%Z.

Definition key_le (a b : Z * Z) : Prop :=
  (a.1 < b.1 ∨ (a.1 = b.1 ∧ a.2 ≤ b.2))%Z.

Definition desc_by (field : string) (a b : string * Obj) : Prop :=
  key_le (order_key (prop b.2 field)) (order_key (prop a.2 field)).

Global Instance key_le_dec a b : Decision (key_le a b).
Proof. unfold key_le. apply _. Defined.

Global Instance desc_by_dec field a b : Decision (desc_by field a b).
Proof. unfold desc_by. apply _. Defined.

Definition has_field (field : string) (d : string * Obj) : Prop :=
  is_Some (d.2 !! field).

Global Instance has_field_dec field d : Decision (has_field field d).
Proof. unfold has_field. apply _. Defined.

(** A document of the collection itself. *)
Definition own_document (d : string * Obj) : Prop := plain_id d.1.

Global Instance own_document_dec d : Decision (own_document d).
Proof. unfold own_document, plain_id. apply _. Defined.

Definition order_desc (field : string) (c : gmap string Obj) : list (string * Obj) :=
  merge_sort (desc_by field)
    (filter (has_field field) (filter own_document (map_to_list c))).

(** ** Provider objects (Stripe) *)

(** [event.data.object], and the result of [paymentIntents.retrieve]: the
    fields the handlers read.  [so_metadata] is [None] when the object has
    no metadata object; [so_last_payment_error] holds the error's message
    when there is an error object; [so_refunds] holds the ids of
    [refunds.data] when that list is there. *)
Record StripeObject := {
  so_id : Value;
  so_amount : float;
  so_description : Value;
  so_latest_charge : Value;
  so_metadata : option Obj;
  so_last_payment_error : option Value;
  so_payment_intent : Value;
  so_amount_refunded : float;
  so_refunds : option (list Value)
}.

Record Event := { ev_type : string; ev_object : StripeObject }.

Record Customer := { customer_id : Value }.

(** What the server reads of a created intent and of a created transfer:
    strings, all of them. *)
Record CreatedIntent := {
  ci_id : string;
  ci_client_secret : string;
  ci_status : string
}.

Record Transfer := { transfer_id : string }.

Record IntentParams := {
  ip_amount : Value;
  ip_currency : Value;
  ip_customer : Value;
  ip_description : Value;
  ip_metadata : Obj;
  ip_automatic_payment_methods : bool
}.

Record TransferParams := {
  tp_amount : Value;
  tp_currency : Value;
  tp_destination : Value;
  tp_description : Value;
  tp_metadata : Obj
}.

(** ** Effects *)

Inductive StripeCall :=
  | WebhooksConstructEvent
  | CustomersList (email : Value)
  | CustomersCreate (email name : Value) (metadata : Obj)
  | PaymentIntentsCreate (params : IntentParams)
  | PaymentIntentsRetrieve (id : Value)
  | TransfersCreate (params : TransferParams).

(** What a request does that is visible outside the store.  A log line
    is recorded by the constant text it starts with; the values
    interpolated into it and further arguments are left out.  [Enter f]
    marks the entry into the reconciliation handler [f]. *)
Inductive Effect :=
  | ConsoleLog (msg : string)
  | ConsoleError (msg : string)
  | Stripe (c : StripeCall)
  | Enter (handler : string).

Inductive Error :=
  | TypeError (msg : string)
  | Rejected (msg : string).

Definition error_message (e : Error) : string :=
  match e with TypeError m | Rejected m => m end.

(** ** The environment of one request *)

(** Everything the code obtains from outside [server.js] while it serves
    one request: configuration, the clock, the answers of the provider,
    whether the n-th record-store call of the request rejects, and the
    library functions (express-validator, JavaScript built-ins) that are
    used but not defined in the repository.  A provider answer [inl msg]
    is a thrown error with that message.  The clock is read once per
    request: [today] is [new Date().toISOString().split('T')[0]], [now_iso]
    is [new Date().toISOString()], [Date_now] is the number [Date.now()]
    and [server_time] is what [FieldValue.serverTimestamp()] becomes. *)
Record Env := {
  db_configured : bool;
  STRIPE_SECRET_KEY : Value;
  STRIPE_WEBHOOK_SECRET : Value;
  today : string;
  now_iso : string;
  Date_now : N;
  server_time : Z;
  store_fails : nat → bool;
  constructEvent : string → Value → Value → string + Event;
  customers_list : Value → string + list Customer;
  customers_create : Value → Value → Obj → string + Customer;
  paymentIntents_create : IntentParams → string + CreatedIntent;
  paymentIntents_retrieve : Value → string + StripeObject;
  transfers_create : TransferParams → string + Transfer;
  isInt_min50 : Value → bool;
  isIn_usd : Value → bool;
  notEmpty : Value → bool;
  isFloat_min001 : Value → bool;
  isURL : Value → bool;
  parseFloat : Value → float;
  ToNumber : Value → float;
  ToString : Value → string;
  Math_round : float → float
}.

(** [Date.now().toString()], and [Date.now()] appended to a string: the
    decimal numeral. *)
Definition date_now (env : Env) : string := pretty (Date_now env).

(** ** State and exceptions *)

(** The store persists across requests; [ops] counts the record-store
    calls of the current request and [trace] collects its effects. *)
Record State := {
  store : Store;
  ops : nat;
  trace : list Effect
}.

Inductive Outcome (A : Type) :=
  | Return (a : A)
  | Throw (e : Error).
Arguments Return {A} a.
Arguments Throw {A} e.

Definition M (A : Type) : Type := State → Outcome A * State.

Global Instance M_ret : MRet M := λ A a st, (Return a, st).

Global Instance M_bind : MBind M := λ A B k m st,
  match m st with
  | (Return a, st') => k a st'
  | (Throw e, st') => (Throw e, st')
  end.

Definition throw {A} (e : Error) : M A := λ st, (Throw e, st).

(** [try { m } catch (error) { h error }] *)
Definition try_catch {A} (m : M A) (h : Error → M A) : M A := λ st,
  match m st with
  | (Return a, st') => (Return a, st')
  | (Throw e, st') => h e st'
  end.

Definition emit (e : Effect) : M unit := λ st,
  (Return (), {| store := store st; ops := ops st; trace := trace st ++ [e] |}).

(** A call of the provider SDK: recorded, then answered by the
    environment. *)
Definition stripe {A} (c : StripeCall) (answer : string + A) : M A :=
  emit (Stripe c);;
  match answer with
  | inl msg => throw (Rejected msg)
  | inr a => mret a
  end.

(** *** Record-store calls *)

(** [.doc(v)]: throws unless [v] is a string that names a document.  The
    messages are the client's, without their quotation marks. *)
Definition doc_id (v : Value) : M string :=
  match v with
  | VStr path =>
      match doc_path path with
      | Some id => mret id
      | None =>
          throw (Rejected "Value for argument documentPath is not a valid document path")
      end
  | _ => throw (Rejected "Value for argument documentPath is not a valid resource path")
  end.

(** [db.collection('artifacts').doc(org).collection('users').doc(member).collection(name)];
    [db] is [null] when the store is not configured. *)
Definition users_coll (env : Env) (org member : Value) (name : string) : M CollPath :=
  if db_configured env then
    o ← doc_id org;
    m ← doc_id member;
    mret (o, m, name)
  else throw (TypeError "Cannot read properties of null (reading 'collection')").

(** One awaited call to the store: it rejects, leaving the store as it
    was, when the environment says so. *)
Definition store_call {A} (env : Env) (f : Store → A * Store) : M A := λ st,
  let st' s := {| store := s; ops := S (ops st); trace := trace st |} in
  if store_fails env (ops st) then (Throw (Rejected "record store call failed"), st' (store st))
  else let '(a, s) := f (store st) in (Return a, st' s).

Definition ref_get (env : Env) (p : CollPath) (id : string) : M (option Obj) :=
  store_call env (λ s, (doc_at s p id, s)).

(** The data of a write is validated first, in the call itself. *)
Definition validated (data : Obj) : M unit :=
  if decide (defined data) then mret ()
  else throw (Rejected "Cannot use undefined as a Firestore value").

Definition ref_set_merge (env : Env) (p : CollPath) (id : string) (data : Obj) : M unit :=
  validated data;;
  store_call env (λ s, ((), set_merge p id data s)).

Definition coll_add (env : Env) (p : CollPath) (data : Obj) : M string :=
  validated data;;
  store_call env (λ s, (auto_id (coll_at s p), add_doc p data s)).

Definition coll_orderBy_desc_get (env : Env) (p : CollPath) (field : string)
    : M (list (string * Obj)) :=
  store_call env (λ s, (order_desc field (coll_at s p), s)).

(** ** Responses *)

Inductive Body :=
  | Text (s : string)
  | JsonReceived
  | JsonError (error : string)
  | JsonErrorMessage (error message : string)
  | JsonValidation (details : list string)
  | JsonIntent (clientSecret paymentIntentId : string)
  | JsonExpense (expenseId paymentIntentId clientSecret : string) (demo : bool) (message : string)
  | JsonTransfer (transferId : string) (message : string)
  | JsonPayments (payments : list Obj).

Record Response := { status : nat; body : Body }.

(** [res.status(code).json(b)]; [res.json(b)] is [respond 200 b]. *)
Definition respond (code : nat) (b : Body) : Response :=
  {| status := code; body := b |}.

(** An object literal. *)
Definition object (fields : list (string * Value)) : Obj := list_to_map fields.

(** [const { ... } = o]: destructuring [undefined] throws. *)
Definition destructure (o : option Obj) : M Obj :=
  match o with
  | Some m => mret m
  | None => throw (TypeError "Cannot destructure property of undefined")
  end.

(** ** The webhook handlers *)

(** The metadata is destructured before the [try]; the two writes are
    inside it. *)
Definition handlePaymentSuccess (env : Env) (paymentIntent : StripeObject) : M unit :=
  emit (Enter "handlePaymentSuccess");;
  metadata ← destructure (so_metadata paymentIntent);
  let memberId := prop metadata "memberId" in
  let organizationId := prop metadata "organizationId" in
  let paymentType := prop metadata "paymentType" in
  let memberName := prop metadata "memberName" in
  try_catch
    (dues ← users_coll env organizationId memberId "dues";
     duesRef ← doc_id memberId;
     ref_set_merge env dues duesRef (object [
       ("memberName", memberName);
       ("amount", VNum (div100 (so_amount paymentIntent)));
       ("status", VStr "Paid");
       ("dueDate", VStr (today env));
       ("paidDate", VStr (today env));
       ("paymentIntentId", so_id paymentIntent);
       ("stripeChargeId", so_latest_charge paymentIntent)]);;
     (if strict_eq_str paymentType "donation" then
        donations ← users_coll env organizationId memberId "donations";
        coll_add env donations (object [
          ("campaignName", so_description paymentIntent);
          ("donorName", memberName);
          ("amount", VNum (div100 (so_amount paymentIntent)));
          ("date", VStr (today env));
          ("paymentIntentId", so_id paymentIntent)]);;
        mret ()
      else mret ());;
     emit (ConsoleLog "Payment succeeded"))
    (λ error, emit (ConsoleError "Error updating payment success:")).

(** As above, with one write. *)
Definition handlePaymentFailure (env : Env) (paymentIntent : StripeObject) : M unit :=
  emit (Enter "handlePaymentFailure");;
  metadata ← destructure (so_metadata paymentIntent);
  let memberId := prop metadata "memberId" in
  let organizationId := prop metadata "organizationId" in
  let memberName := prop metadata "memberName" in
  try_catch
    (dues ← users_coll env organizationId memberId "dues";
     duesRef ← doc_id memberId;
     ref_set_merge env dues duesRef (object [
       ("memberName", memberName);
       ("amount", VNum (div100 (so_amount paymentIntent)));
       ("status", VStr "Failed");
       ("dueDate", VStr (today env));
       ("paymentIntentId", so_id paymentIntent);
       ("failureReason",
        js_or (default VUndef (so_last_payment_error paymentIntent)) (VStr "Payment failed"))]);;
     emit (ConsoleLog "Payment failed"))
    (λ error, emit (ConsoleError "Error updating payment failure:")).

(** [charge.refunds.data[0].id] *)
Definition first_refund_id (refunds : option (list Value)) : M Value :=
  match refunds with
  | Some (id :: _) => mret id
  | _ => throw (TypeError "Cannot read properties of undefined")
  end.

(** Everything, the retrieval of the payment intent and the
    destructuring of its metadata included, is inside the [try]. *)
Definition handleRefund (env : Env) (charge : StripeObject) : M unit :=
  emit (Enter "handleRefund");;
  try_catch
    (paymentIntent ← stripe (PaymentIntentsRetrieve (so_payment_intent charge))
                       (paymentIntents_retrieve env (so_payment_intent charge));
     metadata ← destructure (so_metadata paymentIntent);
     let memberId := prop metadata "memberId" in
     let organizationId := prop metadata "organizationId" in
     let memberName := prop metadata "memberName" in
     dues ← users_coll env organizationId memberId "dues";
     duesRef ← doc_id memberId;
     refundId ← first_refund_id (so_refunds charge);
     ref_set_merge env dues duesRef (object [
       ("memberName", memberName);
       ("amount", VNum (div100 (so_amount_refunded charge)));
       ("status", VStr "Refunded");
       ("refundDate", VStr (today env));
       ("refundId", refundId)]);;
     emit (ConsoleLog "Refund processed"))
    (λ error, emit (ConsoleError "Error updating refund:")).

(** ** POST /api/webhooks/stripe *)

(** [switch (event.type)] *)
Definition dispatch (env : Env) (event : Event) : M unit :=
  if String.eqb (ev_type event) "payment_intent.succeeded" then
    handlePaymentSuccess env (ev_object event)
  else if String.eqb (ev_type event) "payment_intent.payment_failed" then
    handlePaymentFailure env (ev_object event)
  else if String.eqb (ev_type event) "charge.refunded" then
    handleRefund env (ev_object event)
  else emit (ConsoleLog "Unhandled event type").

(** [raw] is [req.body] and [sig] the [stripe-signature] header. *)
Definition webhook (env : Env) (raw : string) (sig : Value) : M Response :=
  emit (Stripe WebhooksConstructEvent);;
  match constructEvent env raw sig (STRIPE_WEBHOOK_SECRET env) with
  | inl msg =>
      emit (ConsoleError "Webhook signature verification failed:");;
      mret (respond 400 (Text ("Webhook Error: " +:+ msg)))
  | inr event =>
      try_catch
        (dispatch env event;;
         mret (respond 200 JsonReceived))
        (λ error,
           emit (ConsoleError "Error processing webhook:");;
           mret (respond 500 (JsonError "Webhook processing failed")))
  end.

(** ** Validation chains (express-validator) *)

(** One validator of a chain: its message, when the check fails. *)
Definition check (ok : bool) (msg : string) : list string :=
  if ok then [] else [msg].

(** [errors.isEmpty()] *)
Definition isEmpty (errors : list string) : bool :=
  match errors with [] => true | _ => false end.

(** A validator of a chain runs on the field's value as a string; a
    field that is not there is the empty string, which none of the
    validators used here accepts. *)
Definition supplied (ok : Value → bool) (v : Value) : bool :=
  match v with VUndef => false | _ => ok v end.

(** [body(f).optional().isURL()]: skipped when the field is undefined. *)
Definition optional_isURL (env : Env) (v : Value) : bool :=
  match v with VUndef => true | _ => isURL env v end.

Definition validatePaymentIntent (env : Env) (b : Obj) : list string :=
  check (supplied (isInt_min50 env) (prop b "amount")) "Amount must be at least 50 cents" ++
  check (supplied (isIn_usd env) (prop b "currency")) "Currency must be USD" ++
  check (supplied (notEmpty env) (prop b "memberId")) "Member ID is required" ++
  check (supplied (notEmpty env) (prop b "organizationId")) "Organization ID is required" ++
  check (supplied (notEmpty env) (prop b "description")) "Description is required".

Definition validateExpenseReimbursement (env : Env) (b : Obj) : list string :=
  check (supplied (isFloat_min001 env) (prop b "amount")) "Amount must be greater than 0" ++
  check (supplied (notEmpty env) (prop b "memberId")) "Member ID is required" ++
  check (supplied (notEmpty env) (prop b "organizationId")) "Organization ID is required" ++
  check (supplied (notEmpty env) (prop b "description")) "Description is required" ++
  check (optional_isURL env (prop b "receiptUrl")) "Receipt URL must be valid".

(** The chain written in place in the expense submission route. *)
Definition validateExpenseSubmit (env : Env) (b : Obj) : list string :=
  check (supplied (notEmpty env) (prop b "submitterName")) "Submitter name is required" ++
  check (supplied (isFloat_min001 env) (prop b "amount")) "Amount must be greater than 0" ++
  check (supplied (notEmpty env) (prop b "category")) "Category is required" ++
  check (supplied (notEmpty env) (prop b "description")) "Description is required" ++
  check (supplied (notEmpty env) (prop b "memberId")) "Member ID is required" ++
  check (supplied (notEmpty env) (prop b "organizationId")) "Organization ID is required".

(** ** Customer resolution *)

(** The look-up-then-create block that the three issuing routes share
    word for word. *)
Definition resolve_customer (env : Env) (memberData : Obj) (memberId organizationId : Value)
    : M Customer :=
  existingCustomers ← stripe (CustomersList (prop memberData "email"))
                         (customers_list env (prop memberData "email"));
  match existingCustomers with
  | c :: _ => mret c
  | [] =>
      let metadata := object [("memberId", memberId); ("organizationId", organizationId)] in
      stripe (CustomersCreate (prop memberData "email") (prop memberData "name") metadata)
        (customers_create env (prop memberData "email") (prop memberData "name") metadata)
  end.

(** ** POST /api/payments/create-payment-intent *)

(** [b] is [req.body]; [issue] is the part of the handler that follows the
    member look-up, which returns early with 404. *)
Definition create_payment_intent (env : Env) (b : Obj) : M Response :=
  try_catch
    (let errors := validatePaymentIntent env b in
     if negb (isEmpty errors) then mret (respond 400 (JsonValidation errors)) else
     let amount := prop b "amount" in
     let currency := prop b "currency" in
     let memberId := prop b "memberId" in
     let organizationId := prop b "organizationId" in
     let description := prop b "description" in
     let issue (memberData : Obj) : M Response :=
       customer ← resolve_customer env memberData memberId organizationId;
       let params := {|
         ip_amount := amount;
         ip_currency := currency;
         ip_customer := customer_id customer;
         ip_description := description;
         ip_metadata := object [
           ("memberId", memberId);
           ("organizationId", organizationId);
           ("paymentType", VStr "dues");
           ("memberName", prop memberData "name")];
         ip_automatic_payment_methods := true |} in
       paymentIntent ← stripe (PaymentIntentsCreate params) (paymentIntents_create env params);
       (if db_configured env then
          intents ← users_coll env organizationId memberId "payment_intents";
          coll_add env intents (object [
            ("paymentIntentId", VStr (ci_id paymentIntent));
            ("amount", amount);
            ("currency", currency);
            ("status", VStr (ci_status paymentIntent));
            ("description", description);
            ("createdAt", VTime (server_time env));
            ("memberId", memberId);
            ("memberName", prop memberData "name")]);;
          mret ()
        else mret ());;
       mret (respond 200 (JsonIntent (ci_client_secret paymentIntent) (ci_id paymentIntent))) in
     if db_configured env then
       members ← users_coll env organizationId memberId "members";
       memberRef ← doc_id memberId;
       memberDoc ← ref_get env members memberRef;
       match memberDoc with
       | None => mret (respond 404 (JsonError "Member not found"))
       | Some memberData => issue memberData
       end
     else
       emit (ConsoleLog "Running in demo mode - using default member data");;
       issue (object [("name", VStr "Demo Member"); ("email", VStr "demo@example.com")]))
    (λ error,
       emit (ConsoleError "Error creating payment intent:");;
       mret (respond 500 (JsonErrorMessage "Failed to create payment intent" (error_message error)))).

(** ** POST /api/expenses/submit *)

(** The mock response of the three demo branches. *)
Definition demo_expense (env : Env) (message : string) : Response :=
  respond 200 (JsonExpense
    (date_now env)
    ("pi_mock_expense_" +:+ date_now env)
    ("pi_mock_secret_" +:+ date_now env)
    true message).

(** [stripe] itself is an object, hence truthy, in the second test. *)
Definition expenses_submit (env : Env) (b : Obj) : M Response :=
  try_catch
    (let errors := validateExpenseSubmit env b in
     if negb (isEmpty errors) then mret (respond 400 (JsonValidation errors)) else
     let submitterName := prop b "submitterName" in
     let amount := prop b "amount" in
     let category := prop b "category" in
     let description := prop b "description" in
     let memberId := prop b "memberId" in
     let organizationId := prop b "organizationId" in
     let receiptUrl := prop b "receiptUrl" in
     let expenseData := object [
       ("submitterName", submitterName);
       ("amount", VNum (parseFloat env amount));
       ("category", category);
       ("description", description);
       ("date", VStr (today env));
       ("status", VStr "Pending");
       ("receiptUrl", js_or receiptUrl (VStr ""));
       ("submittedAt", VStr (now_iso env));
       ("memberId", memberId);
       ("organizationId", organizationId)] in
     (if db_configured env then
        expenses ← users_coll env organizationId memberId "expenses";
        coll_add env expenses expenseData;;
        mret ()
      else mret ());;
     let demoMember := object [("name", submitterName); ("email", VStr "demo@example.com")] in
     memberData ←
       (if db_configured env then
          members ← users_coll env organizationId memberId "members";
          memberRef ← doc_id memberId;
          memberDoc ← ref_get env members memberRef;
          mret (default demoMember memberDoc)
        else mret demoMember);
     if negb (truthy (STRIPE_SECRET_KEY env))
        || strict_eq_str (STRIPE_SECRET_KEY env) "sk_test_your_stripe_secret_key_here" then
       emit (ConsoleLog "Running in demo mode - returning mock payment intent for expense");;
       mret (demo_expense env "Expense submitted successfully! (Demo mode - no payment required)")
     else if negb true || negb (truthy (STRIPE_SECRET_KEY env)) then
       emit (ConsoleLog "Stripe not properly configured - returning demo response");;
       mret (demo_expense env "Expense submitted successfully! (Demo mode - no payment required)")
     else
       try_catch
         (customer ← resolve_customer env memberData memberId organizationId;
          let params := {|
            ip_amount := VNum (Math_round env (parseFloat env amount * 100));
            ip_currency := VStr "usd";
            ip_customer := customer_id customer;
            ip_description := VStr ("Expense: " +:+ ToString env description);
            ip_metadata := object [
              ("memberId", memberId);
              ("organizationId", organizationId);
              ("paymentType", VStr "expense");
              ("memberName", prop memberData "name");
              ("category", category);
              ("expenseId", VStr (date_now env))];
            ip_automatic_payment_methods := true |} in
          paymentIntent ← stripe (PaymentIntentsCreate params) (paymentIntents_create env params);
          mret (respond 200 (JsonExpense (date_now env) (ci_id paymentIntent)
                  (ci_client_secret paymentIntent) false
                  "Expense submitted successfully. Payment required to complete submission.")))
         (λ stripeError,
            emit (ConsoleError "Stripe error:");;
            mret (demo_expense env "Expense submitted successfully! (Demo mode - Stripe error handled)")))
    (λ error,
       emit (ConsoleError "Error submitting expense:");;
       mret (respond 500 (JsonErrorMessage "Failed to submit expense" (error_message error)))).

(** ** POST /api/expenses/process-reimbursement *)

(** Unlike the two routes above, this one and the history query use [db]
    without testing it. *)
Definition process_reimbursement (env : Env) (b : Obj) : M Response :=
  try_catch
    (let errors := validateExpenseReimbursement env b in
     if negb (isEmpty errors) then mret (respond 400 (JsonValidation errors)) else
     let amount := prop b "amount" in
     let memberId := prop b "memberId" in
     let organizationId := prop b "organizationId" in
     let description := prop b "description" in
     let receiptUrl := prop b "receiptUrl" in
     members ← users_coll env organizationId memberId "members";
     memberRef ← doc_id memberId;
     memberDoc ← ref_get env members memberRef;
     match memberDoc with
     | None => mret (respond 404 (JsonError "Member not found"))
     | Some memberData =>
         customer ← resolve_customer env memberData memberId organizationId;
         let params := {|
           tp_amount := VNum (Math_round env (ToNumber env amount * 100));
           tp_currency := VStr "usd";
           tp_destination := customer_id customer;
           tp_description := VStr ("Reimbursement: " +:+ ToString env description);
           tp_metadata := object [
             ("memberId", memberId);
             ("organizationId", organizationId);
             ("memberName", prop memberData "name");
             ("expenseType", VStr "reimbursement")] |} in
         transfer ← stripe (TransfersCreate params) (transfers_create env params);
         expenses ← users_coll env organizationId memberId "expenses";
         expenseRef ← doc_id (prop b "expenseId");
         ref_set_merge env expenses expenseRef (object [
           ("status", VStr "Reimbursed");
           ("reimbursementDate", VStr (today env));
           ("transferId", VStr (transfer_id transfer));
           ("receiptUrl", js_or receiptUrl (VStr ""))]);;
         mret (respond 200 (JsonTransfer (transfer_id transfer) "Reimbursement processed successfully"))
     end)
    (λ error,
       emit (ConsoleError "Error processing reimbursement:");;
       mret (respond 500 (JsonErrorMessage "Failed to process reimbursement" (error_message error)))).

(** ** GET /api/payments/history/:organizationId/:memberId *)

(** [{ id: doc.id, ...doc.data() }]: a stored field named [id] wins. *)
Definition payment_of (doc : string * Obj) : Obj :=
  doc.2 ∪ {["id" := VStr doc.1]}.

Definition payments_history (env : Env) (organizationId memberId : string) : M Response :=
  try_catch
    (paymentsRef ← users_coll env (VStr organizationId) (VStr memberId) "payment_intents";
     snapshot ← coll_orderBy_desc_get env paymentsRef "createdAt";
     let payments := payment_of <$> snapshot in
     mret (respond 200 (JsonPayments payments)))
    (λ error,
       emit (ConsoleError "Error fetching payment history:");;
       mret (respond 500 (JsonErrorMessage "Failed to fetch payment history" (error_message error)))).

(** ** Running requests *)

(** One request served against a store: the outcome, the store it leaves
    and the effects it had. *)
Definition serve {A} (m : M A) (s : Store) : Outcome A * Store * list Effect :=
  let '(r, st) := m {| store := s; ops := 0; trace := [] |} in
  (r, store st, trace st).

(** An inbound webhook request with the environment it is served in. *)
Record Delivery := {
  dl_env : Env;
  dl_raw : string;
  dl_sig : Value
}.

(** The webhook route serving one delivery. *)
Definition deliver (d : Delivery) (s : Store) : Outcome Response * Store * list Effect :=
  serve (webhook (dl_env d) (dl_raw d) (dl_sig d)) s.

(** The store after a sequence of deliveries, oldest first. *)
Definition deliver_all (ds : list Delivery) (s : Store) : Store :=
  foldl (λ s d, (deliver d s).1.2) s ds.

(** * Vocabulary of the properties *)

(** ** What the handlers write *)

(** The object literal of the Dues upsert in [handlePaymentSuccess]. *)
Definition paid_fields (env : Env) (paymentIntent : StripeObject) (memberName : Value) : Obj :=
  object [
    ("memberName", memberName);
    ("amount", VNum (div100 (so_amount paymentIntent)));
    ("status", VStr "Paid");
    ("dueDate", VStr (today env));
    ("paidDate", VStr (today env));
    ("paymentIntentId", so_id paymentIntent);
    ("stripeChargeId", so_latest_charge paymentIntent)].


(** The object literal of the Dues upsert in [handlePaymentFailure]. *)
Definition failed_fields (env : Env) (paymentIntent : StripeObject) (memberName : Value) : Obj :=
  object [
    ("memberName", memberName);
    ("amount", VNum (div100 (so_amount paymentIntent)));
    ("status", VStr "Failed");
    ("dueDate", VStr (today env));
    ("paymentIntentId", so_id paymentIntent);
    ("failureReason",
     js_or (default VUndef (so_last_payment_error paymentIntent)) (VStr "Payment failed"))].



(** ** The document a value names *)

(** The document that [.doc(v)] points to; [None] when the call throws. *)
Definition document_of (v : Value) : option string :=
  match v with
  | VStr path => doc_path path
  | _ => None
  end.

(** ** Relations between the states of a run *)

(** [steps R m]: whatever state [m] starts in, the state it ends in is
    related to it by [R], whether it returns or throws. *)
Definition steps (R : relation State) {A} (m : M A) : Prop :=
  ∀ st, R st (m st).2.

(** The run appended effects that all satisfy [ok]. *)
Definition appends (ok : Effect → Prop) : relation State :=
  λ st st', ∃ tr, trace st' = trace st ++ tr ∧ Forall ok tr.

(** Calls that neither write nor log. *)
Definition pure {A} (m : M A) : Prop := ∀ st, (m st).2 = st.

(** A computation that stops at a throw without having written. *)
Definition blocked {A} (m : M A) (st : State) : Prop :=
  ∃ e st', m st = (Throw e, st') ∧ store st' = store st ∧ trace st' = trace st.

(** When [m] returns, the last thing it did was [e]. *)
Definition ends_with (e : Effect) {A} (m : M A) : Prop :=
  ∀ st a st', m st = (Return a, st') → last (trace st') = Some e.

(** ** Handlers and their logs *)

(** The handler an intent event is dispatched to. *)
Definition handler_of (type : string) : string :=
  if String.eqb type "payment_intent.succeeded" then "handlePaymentSuccess"
  else "handlePaymentFailure".

(** The line a handler's own catch block logs. *)
Definition handler_error_log (type : string) : option string :=
  if String.eqb type "payment_intent.succeeded" then Some "Error updating payment success:"
  else if String.eqb type "payment_intent.payment_failed" then Some "Error updating payment failure:"
  else if String.eqb type "charge.refunded" then Some "Error updating refund:"
  else None.

(** The two event types whose handlers read the payload's own metadata. *)
Definition intent_event (type : string) : bool :=
  String.eqb type "payment_intent.succeeded" || String.eqb type "payment_intent.payment_failed".

(** The inbound request passes signature verification. *)
Definition verified (d : Delivery) : Prop :=
  ∃ ev, constructEvent (dl_env d) (dl_raw d) (dl_sig d) (STRIPE_WEBHOOK_SECRET (dl_env d)) = inr ev.

(** ** Status of a record *)

(** The [status] field of a record, if the record and the field are there. *)
Definition status_of (doc : option Obj) : option Value := doc ≫= (.!! "status").

(** Paid, Failed and Refunded: the statuses the enum calls terminal. *)
Definition terminal (status : option Value) : Prop :=
  status = Some (VStr "Paid") ∨ status = Some (VStr "Failed") ∨ status = Some (VStr "Refunded").

(** Every record keeps its status or ends in a terminal one. *)
Definition forward (s s' : Store) : Prop :=
  ∀ p id, status_of (doc_at s' p id) = status_of (doc_at s p id)
          ∨ terminal (status_of (doc_at s' p id)).

(** [forward], between the stores of two states. *)
Definition store_forward : relation State := λ st st', forward (store st) (store st').

(** ** Metadata of an issued intent, order of the history *)

(** A metadata entry that reaches the provider: the key is in the object
    literal with a value other than [undefined]; an [undefined] value is
    left out of the request. *)
Definition sent (metadata : Obj) (key : string) (v : Value) : Prop :=
  metadata !! key = Some v ∧ v ≠ VUndef.

(** The metadata that lets an event be joined back to member and
    organization: the three values and some member name are sent. *)
Definition identifying (memberId organizationId paymentType : Value) (params : IntentParams)
    : Prop :=
  sent (ip_metadata params) "memberId" memberId ∧
  sent (ip_metadata params) "organizationId" organizationId ∧
  sent (ip_metadata params) "paymentType" paymentType ∧
  ∃ memberName, sent (ip_metadata params) "memberName" memberName.

(** Member, organization and payment type are sent; the literal has a
    [memberName], whose value may be [undefined]. *)
Definition carries_ids (memberId organizationId paymentType : Value) (params : IntentParams)
    : Prop :=
  sent (ip_metadata params) "memberId" memberId ∧
  sent (ip_metadata params) "organizationId" organizationId ∧
  sent (ip_metadata params) "paymentType" paymentType ∧
  is_Some (ip_metadata params !! "memberName").

(** Every [paymentIntents.create] among the effects has parameters that
    are [ok]. *)
Definition creates (ok : IntentParams → Prop) (e : Effect) : Prop :=
  match e with
  | Stripe (PaymentIntentsCreate params) => ok params
  | _ => True
  end.


(** ** Three claims as they are stated *)

(** C4 as stated: once a record's status is terminal, no sequence of
    verified events changes it. *)
Definition terminal_status_is_final : Prop :=
  ∀ ds s p id,
    Forall verified ds →
    terminal (status_of (doc_at s p id)) →
    status_of (doc_at (deliver_all ds s) p id) = status_of (doc_at s p id).

(** C5 as stated: whenever a handler logged a failure of its own, the
    endpoint acknowledged and the store is as it was. *)
Definition failed_handler_leaves_store : Prop :=
  ∀ env raw sig ev s r s' tr msg,
    constructEvent env raw sig (STRIPE_WEBHOOK_SECRET env) = inr ev →
    serve (webhook env raw sig) s = (r, s', tr) →
    handler_error_log (ev_type ev) = Some msg →
    ConsoleError msg ∈ tr →
    r = Return (respond 200 JsonReceived) ∧ s' = s.

(** C7 as stated: every intent that the dues route or the expense
    submission creates at the provider carries memberId, organizationId,
    paymentType and memberName. *)
Definition issued_intents_identified : Prop :=
  ∀ env b s params,
    (Stripe (PaymentIntentsCreate params) ∈ (serve (create_payment_intent env b) s).2 →
     identifying (prop b "memberId") (prop b "organizationId") (VStr "dues") params) ∧
    (Stripe (PaymentIntentsCreate params) ∈ (serve (expenses_submit env b) s).2 →
     identifying (prop b "memberId") (prop b "organizationId") (VStr "expense") params).

(** * Sample inputs *)

(** An environment in which the store is configured or not, fails where
    [fails] says, verification answers [verified] and
    [paymentIntents.retrieve] answers [retrieved]. *)
Definition sample_env (db : bool) (fails : nat → bool) (verified : string + Event)
    (retrieved : string + StripeObject) : Env := {|
  db_configured := db;
  STRIPE_SECRET_KEY := VStr "sk_live_1";
  STRIPE_WEBHOOK_SECRET := VStr "whsec_1";
  today := "2024-05-01";
  now_iso := "2024-05-01T10:00:00.000Z";
  Date_now := 1714557600000;
  server_time := 1714557600;
  store_fails := fails;
  constructEvent := λ _ _ _, verified;
  customers_list := λ _, inr [];
  customers_create := λ _ _ _, inr {| customer_id := VStr "cus_1" |};
  paymentIntents_create := λ _, inr {| ci_id := "pi_1"; ci_client_secret := "pi_1_secret";
                                     ci_status := "requires_payment_method" |};
  paymentIntents_retrieve := λ _, retrieved;
  transfers_create := λ _, inr {| transfer_id := "tr_1" |};
  isInt_min50 := λ _, true;
  isIn_usd := λ _, true;
  notEmpty := λ _, true;
  isFloat_min001 := λ _, true;
  isURL := λ _, true;
  parseFloat := λ v, match v with VNum x => x | _ => 0%float end;
  ToNumber := λ v, match v with VNum x => x | _ => 0%float end;
  ToString := λ v, match v with VStr s => s | _ => "" end;
  Math_round := λ x, x
|}.

(** No record-store call fails. *)
Definition never : nat → bool := λ _, false.

(** The first record-store call of the request fails. *)
Definition first_call_fails : nat → bool := λ n, Nat.eqb n 0.

(** The second record-store call of the request fails. *)
Definition second_call_fails : nat → bool := λ n, Nat.eqb n 1.

(** The metadata of the end-to-end scenario. *)
Definition sample_metadata (paymentType : string) : Obj :=
  object [("memberId", VStr "m1"); ("organizationId", VStr "o1");
          ("paymentType", VStr paymentType); ("memberName", VStr "Test")].

(** A payment intent of 15000 minor units. *)
Definition sample_intent (metadata : option Obj) : StripeObject := {|
  so_id := VStr "pi_1";
  so_amount := 15000;
  so_description := VStr "Spring dues";
  so_latest_charge := VStr "ch_1";
  so_metadata := metadata;
  so_last_payment_error := None;
  so_payment_intent := VUndef;
  so_amount_refunded := 0;
  so_refunds := None
|}.

(** A fully refunded charge of that intent. *)
Definition sample_charge : StripeObject := {|
  so_id := VStr "ch_1";
  so_amount := 15000;
  so_description := VNull;
  so_latest_charge := VUndef;
  so_metadata := Some ∅;
  so_last_payment_error := None;
  so_payment_intent := VStr "pi_1";
  so_amount_refunded := 15000;
  so_refunds := Some [VStr "re_1"]
|}.

(** The events built from them. *)
Definition succeeded (paymentType : string) : Event :=
  {| ev_type := "payment_intent.succeeded";
     ev_object := sample_intent (Some (sample_metadata paymentType)) |}.

Definition payment_failed : Event :=
  {| ev_type := "payment_intent.payment_failed";
     ev_object := sample_intent (Some (sample_metadata "dues")) |}.


(** A verified intent-failed delivery on a working store. *)
Definition failed_delivery : Delivery :=
  {| dl_env := sample_env true never (inr payment_failed) (inl "");
     dl_raw := "{}"; dl_sig := VStr "t=1,v1=ab" |}.

(** A store in which the Dues record of member m1 is Paid. *)
Definition paid_dues_store : Store :=
  set_merge ("o1", "m1", "dues") "m1" (object [("status", VStr "Paid")]) ∅.

(** Request bodies. *)
Definition sample_intent_body : Obj :=
  object [("amount", VNum 15000); ("currency", VStr "usd"); ("memberId", VStr "m1");
          ("organizationId", VStr "o1"); ("description", VStr "Spring dues")].


(** Two payment-intent records of member m1, the older one first by id. *)
Definition two_intents_store : Store :=
  {[ ("o1", "m1", "payment_intents") :=
       {[ "a" := object [("paymentIntentId", VStr "pi_1"); ("createdAt", VTime 10)];
          "b" := object [("paymentIntentId", VStr "pi_2"); ("createdAt", VTime 20)] ]} ]}.

(** * Vocabulary of the further properties *)

(** ** Customer resolution, as a function of the provider's answers *)

(** The metadata of a created customer. *)
Definition customer_metadata (memberId organizationId : Value) : Obj :=
  object [("memberId", memberId); ("organizationId", organizationId)].

(** The customer that [resolve_customer] ends with, or the message of the
    rejection it stops at. *)
Definition customer_answer (env : Env) (memberData : Obj) (memberId organizationId : Value)
    : string + Customer :=
  match customers_list env (prop memberData "email") with
  | inl msg => inl msg
  | inr (c :: _) => inr c
  | inr [] =>
      customers_create env (prop memberData "email") (prop memberData "name")
        (customer_metadata memberId organizationId)
  end.

(** The provider calls it makes on the way. *)
Definition customer_calls (env : Env) (memberData : Obj) (memberId organizationId : Value)
    : list Effect :=
  Stripe (CustomersList (prop memberData "email")) ::
  match customers_list env (prop memberData "email") with
  | inr [] =>
      [Stripe (CustomersCreate (prop memberData "email") (prop memberData "name")
                 (customer_metadata memberId organizationId))]
  | _ => []
  end.

(** ** What the issuing routes send and store *)

(** The argument of [paymentIntents.create] in the dues route. *)
Definition dues_intent_params (b memberData : Obj) (customer : Customer) : IntentParams := {|
  ip_amount := prop b "amount";
  ip_currency := prop b "currency";
  ip_customer := customer_id customer;
  ip_description := prop b "description";
  ip_metadata := object [
    ("memberId", prop b "memberId");
    ("organizationId", prop b "organizationId");
    ("paymentType", VStr "dues");
    ("memberName", prop memberData "name")];
  ip_automatic_payment_methods := true |}.

(** The PaymentIntent record the dues route stores. *)
Definition intent_record (env : Env) (b memberData : Obj) (paymentIntent : CreatedIntent) : Obj :=
  object [
    ("paymentIntentId", VStr (ci_id paymentIntent));
    ("amount", prop b "amount");
    ("currency", prop b "currency");
    ("status", VStr (ci_status paymentIntent));
    ("description", prop b "description");
    ("createdAt", VTime (server_time env));
    ("memberId", prop b "memberId");
    ("memberName", prop memberData "name")].

(** What the provider answers to the dues route: the resolved customer
    and the created intent, or the message of the first rejection. *)
Definition intent_answer (env : Env) (b memberData : Obj) : string + Customer * CreatedIntent :=
  match customer_answer env memberData (prop b "memberId") (prop b "organizationId") with
  | inl msg => inl msg
  | inr customer =>
      match paymentIntents_create env (dues_intent_params b memberData customer) with
      | inl msg => inl msg
      | inr paymentIntent => inr (customer, paymentIntent)
      end
  end.

(** The provider calls of the dues route. *)
Definition intent_calls (env : Env) (b memberData : Obj) : list Effect :=
  customer_calls env memberData (prop b "memberId") (prop b "organizationId") ++
  match customer_answer env memberData (prop b "memberId") (prop b "organizationId") with
  | inl _ => []
  | inr customer => [Stripe (PaymentIntentsCreate (dues_intent_params b memberData customer))]
  end.

(** The member the dues route uses when the store is not configured. *)
Definition demo_member : Obj :=
  object [("name", VStr "Demo Member"); ("email", VStr "demo@example.com")].

(** The 500 of a route's catch block. *)
Definition failure (error message : string) : Response :=
  respond 500 (JsonErrorMessage error message).

(** An environment whose validators accept exactly the truthy values,
    with the provider's answers to [paymentIntents.create] and
    [transfers.create] as given. *)
Definition strict_env (db : bool) (fails : nat → bool)
    (intent : string + CreatedIntent) (transfer : string + Transfer) : Env := {|
  db_configured := db;
  STRIPE_SECRET_KEY := VStr "sk_live_1";
  STRIPE_WEBHOOK_SECRET := VStr "whsec_1";
  today := "2024-05-01";
  now_iso := "2024-05-01T10:00:00.000Z";
  Date_now := 1714557600000;
  server_time := 1714557600;
  store_fails := fails;
  constructEvent := λ _ _ _, inl "No signatures found";
  customers_list := λ _, inr [];
  customers_create := λ _ _ _, inr {| customer_id := VStr "cus_1" |};
  paymentIntents_create := λ _, intent;
  paymentIntents_retrieve := λ _, inl "No such payment_intent";
  transfers_create := λ _, transfer;
  isInt_min50 := truthy;
  isIn_usd := λ v, strict_eq_str v "usd";
  notEmpty := truthy;
  isFloat_min001 := truthy;
  isURL := truthy;
  parseFloat := λ v, match v with VNum x => x | _ => 0%float end;
  ToNumber := λ v, match v with VNum x => x | _ => 0%float end;
  ToString := λ v, match v with VStr s => s | _ => "" end;
  Math_round := λ x, x
|}.

(** An intent and a transfer as the provider answers them. *)
Definition sample_created : CreatedIntent :=
  {| ci_id := "pi_1"; ci_client_secret := "pi_1_secret";
     ci_status := "requires_payment_method" |}.

Definition sample_transfer : Transfer := {| transfer_id := "tr_1" |}.

(** The environment in which store and provider work. *)
Definition working_env : Env := strict_env true never (inr sample_created) (inr sample_transfer).

(** The member record of m1, and a store that holds it. *)
Definition sample_member : Obj :=
  object [("name", VStr "Test"); ("email", VStr "test@example.com")].

(** A store with the member record of m1. *)
Definition member_store : Store :=
  {[ ("o1", "m1", "members") :=
       {[ "m1" := sample_member ]} ]}.

(** A member record without a name, and a store that holds it for m1. *)
Definition nameless_member : Obj :=
  object [("email", VStr "test@example.com")].

Definition nameless_store : Store :=
  {[ ("o1", "m1", "members") :=
       {[ "m1" := nameless_member ]} ]}.

(** ** What the expense routes send and store *)

(** The expense record that the submission route stores. *)
Definition expense_record (env : Env) (b : Obj) : Obj :=
  object [
    ("submitterName", prop b "submitterName");
    ("amount", VNum (parseFloat env (prop b "amount")));
    ("category", prop b "category");
    ("description", prop b "description");
    ("date", VStr (today env));
    ("status", VStr "Pending");
    ("receiptUrl", js_or (prop b "receiptUrl") (VStr ""));
    ("submittedAt", VStr (now_iso env));
    ("memberId", prop b "memberId");
    ("organizationId", prop b "organizationId")].

(** The member the submission route uses when it finds no member record. *)
Definition submitter_member (b : Obj) : Obj :=
  object [("name", prop b "submitterName"); ("email", VStr "demo@example.com")].

(** The first test of the provider key in the submission route. *)
Definition key_missing (env : Env) : bool :=
  negb (truthy (STRIPE_SECRET_KEY env))
  || strict_eq_str (STRIPE_SECRET_KEY env) "sk_test_your_stripe_secret_key_here".

(** The argument of [paymentIntents.create] in the submission route. *)
Definition expense_intent_params (env : Env) (b memberData : Obj) (customer : Customer)
    : IntentParams := {|
  ip_amount := VNum (Math_round env (parseFloat env (prop b "amount") * 100));
  ip_currency := VStr "usd";
  ip_customer := customer_id customer;
  ip_description := VStr ("Expense: " +:+ ToString env (prop b "description"));
  ip_metadata := object [
    ("memberId", prop b "memberId");
    ("organizationId", prop b "organizationId");
    ("paymentType", VStr "expense");
    ("memberName", prop memberData "name");
    ("category", prop b "category");
    ("expenseId", VStr (date_now env))];
  ip_automatic_payment_methods := true |}.

(** What the provider answers to the submission route. *)
Definition expense_answer (env : Env) (b memberData : Obj) : string + Customer * CreatedIntent :=
  match customer_answer env memberData (prop b "memberId") (prop b "organizationId") with
  | inl msg => inl msg
  | inr customer =>
      match paymentIntents_create env (expense_intent_params env b memberData customer) with
      | inl msg => inl msg
      | inr paymentIntent => inr (customer, paymentIntent)
      end
  end.

(** The response of the submission route once the expense is stored. *)
Definition expense_response (env : Env) (b memberData : Obj) : Response :=
  if key_missing env then
    demo_expense env "Expense submitted successfully! (Demo mode - no payment required)"
  else
    match expense_answer env b memberData with
    | inl _ => demo_expense env "Expense submitted successfully! (Demo mode - Stripe error handled)"
    | inr (_, paymentIntent) =>
        respond 200 (JsonExpense (date_now env) (ci_id paymentIntent)
          (ci_client_secret paymentIntent) false
          "Expense submitted successfully. Payment required to complete submission.")
    end.

(** The effects of the submission route. *)
Definition expense_trace (env : Env) (b memberData : Obj) : list Effect :=
  if key_missing env then
    [ConsoleLog "Running in demo mode - returning mock payment intent for expense"]
  else
    customer_calls env memberData (prop b "memberId") (prop b "organizationId") ++
    match customer_answer env memberData (prop b "memberId") (prop b "organizationId") with
    | inl _ => [ConsoleError "Stripe error:"]
    | inr customer =>
        Stripe (PaymentIntentsCreate (expense_intent_params env b memberData customer)) ::
        match paymentIntents_create env (expense_intent_params env b memberData customer) with
        | inl _ => [ConsoleError "Stripe error:"]
        | inr _ => []
        end
    end.

(** The [expenseId] of a response of the submission route. *)
Definition response_expenseId (resp : Response) : Value :=
  match body resp with
  | JsonExpense expenseId _ _ _ _ => VStr expenseId
  | _ => VUndef
  end.

(** The argument of [transfers.create]. *)
Definition reimbursement_params (env : Env) (b memberData : Obj) (customer : Customer)
    : TransferParams := {|
  tp_amount := VNum (Math_round env (ToNumber env (prop b "amount") * 100));
  tp_currency := VStr "usd";
  tp_destination := customer_id customer;
  tp_description := VStr ("Reimbursement: " +:+ ToString env (prop b "description"));
  tp_metadata := object [
    ("memberId", prop b "memberId");
    ("organizationId", prop b "organizationId");
    ("memberName", prop memberData "name");
    ("expenseType", VStr "reimbursement")] |}.

(** What the provider answers to the reimbursement route. *)
Definition reimbursement_answer (env : Env) (b memberData : Obj) : string + Customer * Transfer :=
  match customer_answer env memberData (prop b "memberId") (prop b "organizationId") with
  | inl msg => inl msg
  | inr customer =>
      match transfers_create env (reimbursement_params env b memberData customer) with
      | inl msg => inl msg
      | inr transfer => inr (customer, transfer)
      end
  end.

(** The provider calls of the reimbursement route. *)
Definition reimbursement_calls (env : Env) (b memberData : Obj) : list Effect :=
  customer_calls env memberData (prop b "memberId") (prop b "organizationId") ++
  match customer_answer env memberData (prop b "memberId") (prop b "organizationId") with
  | inl _ => []
  | inr customer => [Stripe (TransfersCreate (reimbursement_params env b memberData customer))]
  end.

(** The fields the reimbursement route writes into the expense record. *)
Definition reimbursed_fields (env : Env) (b : Obj) (transfer : Transfer) : Obj :=
  object [
    ("status", VStr "Reimbursed");
    ("reimbursementDate", VStr (today env));
    ("transferId", VStr (transfer_id transfer));
    ("receiptUrl", js_or (prop b "receiptUrl") (VStr ""))].

(** Request bodies of the expense routes. *)
Definition sample_expense_body : Obj :=
  object [("submitterName", VStr "Test"); ("amount", VNum 42); ("category", VStr "Food");
          ("description", VStr "Pizza"); ("memberId", VStr "m1"); ("organizationId", VStr "o1")].

Definition sample_reimbursement (expenseId : Value) : Obj :=
  object [("amount", VNum 42); ("memberId", VStr "m1"); ("organizationId", VStr "o1");
          ("description", VStr "Pizza"); ("expenseId", expenseId)].

(** ** What event reconciliation leaves alone *)

(** The name of a collection. *)
Definition collection_name (p : CollPath) : string := p.2.

(** From [s] to [s'] no record and no field of a record is lost, only
    Dues records are rewritten, and only the dues and donations
    collections gain records. *)
Definition kept (s s' : Store) : Prop :=
  (∀ p id d, doc_at s p id = Some d →
     ∃ d', doc_at s' p id = Some d' ∧ dom d ⊆ dom d' ∧
           (collection_name p ≠ "dues" → d' = d)) ∧
  (∀ p, collection_name p ≠ "dues" → collection_name p ≠ "donations" →
        coll_at s' p = coll_at s p).

(** [kept], between the stores of two states. *)
Definition store_kept : relation State := λ st st', kept (store st) (store st').

(** The fields [handlePaymentFailure] writes. *)
Definition failed_keys : list string :=
  ["memberName"; "amount"; "status"; "dueDate"; "paymentIntentId"; "failureReason"].

(** A Dues record as an earlier payment and refund left it. *)
Definition settled_dues_store : Store :=
  set_merge ("o1", "m1", "dues") "m1"
    (object [("status", VStr "Paid"); ("paidDate", VStr "2024-04-01");
             ("stripeChargeId", VStr "ch_0")]) ∅.

(** An event of a type the route does not handle. *)
Definition customer_created : Event :=
  {| ev_type := "customer.created"; ev_object := sample_charge |}.

(** A refunded charge without refund entries. *)
Definition refunded_without_entries : Event :=
  {| ev_type := "charge.refunded";
     ev_object := {|
       so_id := VStr "ch_1"; so_amount := 15000; so_description := VNull;
       so_latest_charge := VUndef; so_metadata := Some ∅; so_last_payment_error := None;
       so_payment_intent := VStr "pi_1"; so_amount_refunded := 15000;
       so_refunds := Some [] |} |}.

(** ** Issuance followed by the history query *)

(** Every record of the collection that has a [createdAt] has a
    timestamp there, earlier than [t]. *)
Definition created_before (t : Z) (c : gmap string Obj) : Prop :=
  ∀ id d v, c !! id = Some d → d !! "createdAt" = Some v →
            ∃ t', v = VTime t' ∧ (t' < t)%Z.

(** The member record of m1 with two earlier payment intents. *)
Definition member_with_intents : Store := two_intents_store ∪ member_store.

(** ** Issued intents that succeed *)

(** The intent-succeeded event of an intent that the submission route
    issued for m1. *)
Definition expense_intent_succeeded : Event :=
  {| ev_type := "payment_intent.succeeded";
     ev_object := sample_intent (Some (ip_metadata
       (expense_intent_params working_env sample_expense_body sample_member
          {| customer_id := VStr "cus_1" |}))) |}.

(** * Properties *)

Example div100_15000 : div100 15000 = 150%float.
Proof. reflexivity. Qed.

Arguments set_merge : simpl never.
Arguments add_doc : simpl never.
Arguments object : simpl never.
Arguments coll_at : simpl never.
Arguments doc_at : simpl never.
Arguments auto_id : simpl never.
Arguments order_desc : simpl never.
Arguments try_catch : simpl never.

(** ** Document paths *)

Lemma string_app_assoc (a b c : string) : (a +:+ b) +:+ c = a +:+ (b +:+ c).
Proof.
  induction a as [|x a IH]; [done|].
  change (String x ((a +:+ b) +:+ c) = String x (a +:+ (b +:+ c))). by f_equal.
Qed.

Lemma string_app_nil_r (a : string) : a +:+ "" = a.
Proof.
  induction a as [|x a IH]; [done|]. change (String x (a +:+ "") = String x a). by f_equal.
Qed.

Lemma split_slash_no_slash id cur :
  no_slash id = true → split_slash cur id = [cur +:+ id].
Proof.
  revert cur. induction id as [|c id IH]; intros cur Hid; simpl.
  - by rewrite string_app_nil_r.
  - simpl in Hid. apply andb_prop in Hid as [Hc Hid].
    apply negb_true_iff in Hc. rewrite Hc, IH by done.
    by rewrite string_app_assoc.
Qed.

Lemma has_double_slash_no_slash id : no_slash id = true → has_double_slash id = false.
Proof.
  induction id as [|c id IH]; [done|]. simpl. intros [Hc Hid]%andb_prop.
  apply negb_true_iff in Hc. rewrite Hc. simpl. destruct id; [done|]. by apply IH.
Qed.

Lemma plain_id_names_document id : plain_id id → names_document id.
Proof.
  intros [Hne Hid]. unfold names_document, doc_path, segments.
  rewrite decide_False, has_double_slash_no_slash, split_slash_no_slash by done.
  simpl. rewrite filter_cons_True, filter_nil by done. done.
Qed.

(** Decimal numerals are plain ids. *)
Lemma pretty_N_char_no_slash x : is_slash (pretty_N_char x) = false.
Proof. unfold pretty_N_char. by repeat case_match. Qed.

Lemma pretty_N_go_no_slash x s : no_slash s = true → no_slash (pretty_N_go x s) = true.
Proof.
  revert s. induction (N.lt_wf_0 x) as [x _ IH]; intros s Hs.
  assert (x = 0 ∨ 0 < x)%N as [->|?] by lia.
  - by rewrite pretty_N_go_0.
  - rewrite pretty_N_go_step by done. apply IH; [by apply N.div_lt|].
    simpl. by rewrite pretty_N_char_no_slash.
Qed.

Lemma pretty_N_go_nonempty x s : s ≠ "" → pretty_N_go x s ≠ "".
Proof.
  revert s. induction (N.lt_wf_0 x) as [x _ IH]; intros s Hs.
  assert (x = 0 ∨ 0 < x)%N as [->|?] by lia.
  - by rewrite pretty_N_go_0.
  - rewrite pretty_N_go_step by done. apply IH; [by apply N.div_lt|done].
Qed.

Lemma pretty_N_plain (x : N) : plain_id (pretty x).
Proof.
  unfold pretty, pretty_N. case_decide; [done|]. split.
  - rewrite pretty_N_go_step by lia. by apply pretty_N_go_nonempty.
  - by apply pretty_N_go_no_slash.
Qed.

Lemma fresh_string_pretty (X : gset string) : ∃ n : nat, fresh X = pretty n.
Proof.
  assert (H : ∀ xs n (acc : Acc (λ n1 n2 : nat, n2 < n1 ∧ pretty (n1 - 1) ∈ xs) n),
            ∃ k : nat, Fix_F _ (search_infinite_go pretty xs) acc = pretty k).
  { intros xs. fix FIX 2. intros n [acc]. simpl. unfold search_infinite_go at 1.
    destruct (decide _); [apply FIX|by exists n]. }
  apply H.
Qed.

Lemma auto_id_plain (c : gmap string Obj) : plain_id (auto_id c).
Proof.
  unfold auto_id. destruct (fresh_string_pretty (dom c)) as [n ->]. apply pretty_N_plain.
Qed.

Lemma date_now_plain env : plain_id (date_now env).
Proof. apply pretty_N_plain. Qed.

Global Hint Immediate plain_id_names_document : core.
Global Hint Resolve auto_id_plain date_now_plain : core.

Lemma plain_reference o m name id :
  plain_id o → plain_id m → plain_id id → reference (o, m, name) id.
Proof. intros. repeat split; by apply plain_id_names_document. Qed.

Global Hint Resolve plain_reference : core.

(** ** The store operations *)

Lemma coll_at_insert (s : Store) p q c :
  coll_at (<[p := c]> s) q = if decide (p = q) then c else coll_at s q.
Proof.
  unfold coll_at. rewrite lookup_insert. by case_decide.
Qed.

Lemma doc_at_reference (s : Store) p id :
  reference p id → doc_at s p id = coll_at s p !! id.
Proof. intros. unfold doc_at. by rewrite decide_True. Qed.

(** Documents are found only behind references. *)
Lemma doc_at_Some_reference (s : Store) p id d :
  doc_at s p id = Some d → reference p id.
Proof. unfold doc_at. by case_decide. Qed.

Lemma doc_at_set_merge_eq (s : Store) p id data :
  reference p id →
  doc_at (set_merge p id data s) p id = Some (data ∪ default ∅ (doc_at s p id)).
Proof.
  intros. rewrite doc_at_reference by done.
  unfold set_merge. rewrite coll_at_insert, decide_True by done.
  apply lookup_insert_eq.
Qed.

Lemma doc_at_set_merge_ne (s : Store) p id q id' data :
  (p, id) ≠ (q, id') →
  doc_at (set_merge p id data s) q id' = doc_at s q id'.
Proof.
  intros Hne. unfold doc_at. case_decide; [|done].
  unfold set_merge. rewrite coll_at_insert.
  case_decide as Hp; [|done]. subst q.
  rewrite lookup_insert_ne by congruence. done.
Qed.


Lemma coll_at_set_merge_ne (s : Store) p id q data :
  p ≠ q → coll_at (set_merge p id data s) q = coll_at s q.
Proof.
  intros Hne. unfold set_merge. by rewrite coll_at_insert, decide_False.
Qed.

Lemma auto_id_fresh (c : gmap string Obj) : c !! auto_id c = None.
Proof.
  apply (not_elem_of_dom (D := gset string)). unfold auto_id. apply is_fresh.
Qed.

Lemma coll_at_add_doc_eq (s : Store) p data :
  coll_at (add_doc p data s) p = <[auto_id (coll_at s p) := data]> (coll_at s p).
Proof. unfold add_doc. by rewrite coll_at_insert, decide_True. Qed.

Lemma coll_at_add_doc_ne (s : Store) p q data :
  p ≠ q → coll_at (add_doc p data s) q = coll_at s q.
Proof. intros Hne. unfold add_doc. by rewrite coll_at_insert, decide_False. Qed.

Lemma doc_at_add_doc_ne (s : Store) p q id data :
  p ≠ q → doc_at (add_doc p data s) q id = doc_at s q id.
Proof. intros Hne. unfold doc_at. by rewrite coll_at_add_doc_ne. Qed.

(** The document that [add] has stored, under its new id. *)
Lemma doc_at_add_doc_new (s : Store) o m name data :
  names_document o → names_document m →
  doc_at (add_doc (o, m, name) data s) (o, m, name) (auto_id (coll_at s (o, m, name)))
    = Some data.
Proof.
  intros. rewrite doc_at_reference by (repeat split; auto).
  rewrite coll_at_add_doc_eq. apply lookup_insert_eq.
Qed.



Lemma prop_lookup (o : Obj) k v : o !! k = Some v → prop o k = v.
Proof. unfold prop. by intros ->. Qed.

Lemma doc_id_ok id st : names_document id → doc_id (VStr id) st = (Return id, st).
Proof. intros Hid. unfold doc_id. by rewrite Hid. Qed.

Lemma users_coll_ok env o m name st :
  db_configured env = true → names_document o → names_document m →
  users_coll env (VStr o) (VStr m) name st = (Return (o, m, name), st).
Proof.
  intros Hdb Ho Hm. unfold users_coll. rewrite Hdb.
  unfold mbind, M_bind. by rewrite !doc_id_ok.
Qed.

(** ** Data that a write accepts *)

Lemma defined_object (fields : list (string * Value)) :
  Forall (λ f, f.2 ≠ VUndef) fields → defined (object fields).
Proof.
  intros Hall k v Hk. unfold object in Hk.
  apply elem_of_list_to_map_2 in Hk. rewrite Forall_forall in Hall.
  by apply (Hall (k, v)).
Qed.

Lemma defined_lookup (data : Obj) k v : defined data → data !! k = Some v → v ≠ VUndef.
Proof. intros Hd Hk. by apply (Hd k). Qed.

Lemma validated_ok data st : defined data → validated data st = (Return (), st).
Proof. intros. unfold validated. by rewrite decide_True. Qed.

Lemma validated_throws data st :
  ¬ defined data →
  validated data st = (Throw (Rejected "Cannot use undefined as a Firestore value"), st).
Proof. intros. unfold validated. by rewrite decide_False. Qed.

Lemma js_or_defined a b : b ≠ VUndef → js_or a b ≠ VUndef.
Proof. intros Hb. unfold js_or. destruct (truthy a) eqn:Ha; [|done]. by destruct a. Qed.

(** ** What a passed validation chain tells *)

Lemma check_app_nil ok msg rest : check ok msg ++ rest = [] → ok = true ∧ rest = [].
Proof. destruct ok; simpl; [done|discriminate]. Qed.

Lemma supplied_defined ok v : supplied ok v = true → v ≠ VUndef.
Proof. by destruct v. Qed.

Lemma valid_intent_supplied env b :
  validatePaymentIntent env b = [] →
  prop b "amount" ≠ VUndef ∧ prop b "currency" ≠ VUndef ∧ prop b "memberId" ≠ VUndef ∧
  prop b "organizationId" ≠ VUndef ∧ prop b "description" ≠ VUndef.
Proof.
  unfold validatePaymentIntent.
  intros [H1 [H2 [H3 [H4 H5]%check_app_nil]%check_app_nil]%check_app_nil]%check_app_nil.
  rewrite <- (app_nil_r (check _ _)) in H5. apply check_app_nil in H5 as [H5 _].
  eauto 10 using supplied_defined.
Qed.

Lemma valid_submission_supplied env b :
  validateExpenseSubmit env b = [] →
  prop b "submitterName" ≠ VUndef ∧ prop b "category" ≠ VUndef ∧
  prop b "description" ≠ VUndef ∧ prop b "memberId" ≠ VUndef ∧
  prop b "organizationId" ≠ VUndef.
Proof.
  unfold validateExpenseSubmit.
  intros [H1 [H2 [H3 [H4 [H5 H6]%check_app_nil]%check_app_nil]%check_app_nil]%check_app_nil]%check_app_nil.
  rewrite <- (app_nil_r (check _ _)) in H6. apply check_app_nil in H6 as [H6 _].
  eauto 10 using supplied_defined.
Qed.

(** ** Running a handler *)

Ltac trace_norm := repeat (rewrite <- app_assoc; simpl).

Ltac run_monad :=
  unfold serve, webhook, dispatch, handlePaymentSuccess, handlePaymentFailure,
    handleRefund, stripe, destructure, first_refund_id, ref_set_merge, ref_get,
    coll_add, coll_orderBy_desc_get, store_call, try_catch, emit, throw,
    mbind, M_bind, mret, M_ret.

(** ** Calls that change nothing *)

Lemma doc_id_pure v : pure (doc_id v).
Proof. intros st. unfold doc_id. destruct v; try done. by destruct (doc_path _). Qed.

Lemma users_coll_pure env org member name : pure (users_coll env org member name).
Proof.
  intros st. unfold users_coll, mbind, M_bind. destruct (db_configured env); [|done].
  pose proof (doc_id_pure org st) as Ho. destruct (doc_id org st) as [[o|e] st1]; simpl in *; subst; [|done].
  pose proof (doc_id_pure member st) as Hm. by destruct (doc_id member st) as [[m|e] st1].
Qed.

Lemma destructure_pure o : pure (destructure o).
Proof. intros st. by destruct o. Qed.

Lemma first_refund_id_pure refunds : pure (first_refund_id refunds).
Proof. intros st. by destruct refunds as [[|]|]. Qed.

Lemma bind_pure {A B} (m : M A) (k : A → M B) st :
  pure m →
  (m ≫= k) st = match (m st).1 with Return a => k a st | Throw e => (Throw e, st) end.
Proof.
  intros Hm. unfold mbind, M_bind. specialize (Hm st).
  destruct (m st) as [[a|e] st1]; simpl in *; by subst.
Qed.

Lemma bind_ret {A B} (a : A) (k : A → M B) st : (mret a ≫= k) st = k a st.
Proof. done. Qed.

Lemma bind_stripe {A B} c (answer : string + A) (k : A → M B) st :
  (stripe c answer ≫= k) st =
    let st' := {| store := store st; ops := ops st; trace := trace st ++ [Stripe c] |} in
    match answer with
    | inl msg => (Throw (Rejected msg), st')
    | inr a => k a st'
    end.
Proof. by destruct answer. Qed.

Lemma bind_emit {B} e (k : () → M B) st :
  (emit e ≫= k) st = k () {| store := store st; ops := ops st; trace := trace st ++ [e] |}.
Proof. done. Qed.

Arguments resolve_customer : simpl never.

(** ** Customer resolution *)

Lemma resolve_customer_run env memberData memberId organizationId st :
  resolve_customer env memberData memberId organizationId st =
    (match customer_answer env memberData memberId organizationId with
     | inl msg => Throw (Rejected msg)
     | inr c => Return c
     end,
     {| store := store st; ops := ops st;
        trace := trace st ++ customer_calls env memberData memberId organizationId |}).
Proof.
  unfold resolve_customer, customer_answer, customer_calls, customer_metadata.
  rewrite bind_stripe. simpl.
  destruct (customers_list env (prop memberData "email")) as [msg|[|c cs]]; simpl; try done.
  unfold stripe. rewrite bind_emit. simpl.
  destruct (customers_create _ _ _ _); simpl; by rewrite <- app_assoc.
Qed.

Lemma bind_resolve_customer {B} env memberData memberId organizationId (k : Customer → M B) st :
  (resolve_customer env memberData memberId organizationId ≫= k) st =
    let st' := {| store := store st; ops := ops st;
                  trace := trace st ++ customer_calls env memberData memberId organizationId |} in
    match customer_answer env memberData memberId organizationId with
    | inl msg => (Throw (Rejected msg), st')
    | inr c => k c st'
    end.
Proof.
  unfold mbind, M_bind. rewrite resolve_customer_run.
  by destruct (customer_answer _ _ _ _).
Qed.

(** ** Running a route step by step *)

Lemma bind_assoc {A B C} (m : M A) (k1 : A → M B) (k2 : B → M C) st :
  ((m ≫= k1) ≫= k2) st = (m ≫= λ a, k1 a ≫= k2) st.
Proof. unfold mbind, M_bind. by destruct (m st) as [[a|e] st']. Qed.

Lemma bind_users_coll_ok {B} env o m name (k : CollPath → M B) st :
  db_configured env = true → names_document o → names_document m →
  (users_coll env (VStr o) (VStr m) name ≫= k) st = k (o, m, name) st.
Proof. intros. unfold mbind, M_bind. by rewrite users_coll_ok. Qed.

Lemma bind_doc_id_ok {B} id (k : string → M B) st :
  names_document id → (doc_id (VStr id) ≫= k) st = k id st.
Proof. intros. unfold mbind, M_bind. by rewrite doc_id_ok. Qed.

Lemma bind_store_call {A B : Type} (env : Env) (f : Store → A * Store) (k : A → M B)
    (s : Store) (n : nat) (tr : list Effect) :
  (store_call env f ≫= k) {| store := s; ops := n; trace := tr |} =
    if store_fails env n
    then (Throw (Rejected "record store call failed"),
          {| store := s; ops := S n; trace := tr |})
    else k (f s).1 {| store := (f s).2; ops := S n; trace := tr |}.
Proof.
  unfold mbind, M_bind, store_call. simpl.
  destruct (store_fails env n); [done|]. by destruct (f s).
Qed.

Lemma bind_ref_get {B} env p id (k : option Obj → M B) s n tr :
  (ref_get env p id ≫= k) {| store := s; ops := n; trace := tr |} =
    if store_fails env n
    then (Throw (Rejected "record store call failed"),
          {| store := s; ops := S n; trace := tr |})
    else k (doc_at s p id) {| store := s; ops := S n; trace := tr |}.
Proof. unfold ref_get. by rewrite bind_store_call. Qed.

Lemma bind_ref_set_merge {B} env p id data (k : () → M B) s n tr :
  defined data →
  (ref_set_merge env p id data ≫= k) {| store := s; ops := n; trace := tr |} =
    if store_fails env n
    then (Throw (Rejected "record store call failed"),
          {| store := s; ops := S n; trace := tr |})
    else k () {| store := set_merge p id data s; ops := S n; trace := tr |}.
Proof.
  intros. unfold ref_set_merge. rewrite bind_assoc.
  unfold mbind at 1, M_bind at 1. rewrite validated_ok by done.
  by rewrite bind_store_call.
Qed.

Lemma bind_coll_add {B} env p data (k : string → M B) s n tr :
  defined data →
  (coll_add env p data ≫= k) {| store := s; ops := n; trace := tr |} =
    if store_fails env n
    then (Throw (Rejected "record store call failed"),
          {| store := s; ops := S n; trace := tr |})
    else k (auto_id (coll_at s p)) {| store := add_doc p data s; ops := S n; trace := tr |}.
Proof.
  intros. unfold coll_add. rewrite bind_assoc.
  unfold mbind at 1, M_bind at 1. rewrite validated_ok by done.
  by rewrite bind_store_call.
Qed.

(** A write whose data holds [undefined] throws in the call. *)
Lemma bind_ref_set_merge_undefined {B} env p id data (k : () → M B) st :
  ¬ defined data →
  (ref_set_merge env p id data ≫= k) st
    = (Throw (Rejected "Cannot use undefined as a Firestore value"), st).
Proof.
  intros. unfold ref_set_merge. rewrite bind_assoc.
  unfold mbind at 1, M_bind at 1. by rewrite validated_throws.
Qed.

Lemma bind_coll_add_undefined {B} env p data (k : string → M B) st :
  ¬ defined data →
  (coll_add env p data ≫= k) st
    = (Throw (Rejected "Cannot use undefined as a Firestore value"), st).
Proof.
  intros. unfold coll_add. rewrite bind_assoc.
  unfold mbind at 1, M_bind at 1. by rewrite validated_throws.
Qed.

Lemma bind_throw {A B} e (k : A → M B) st : (throw e ≫= k) st = (Throw e, st).
Proof. done. Qed.

Lemma run_ret {A} (a : A) st : mret (M := M) a st = (Return a, st).
Proof. done. Qed.

Lemma run_emit e s n tr :
  emit e {| store := s; ops := n; trace := tr |}
    = (Return (), {| store := s; ops := n; trace := tr ++ [e] |}).
Proof. done. Qed.

Lemma try_catch_run {A} (m : M A) (h : Error → M A) st :
  try_catch m h st =
    match m st with
    | (Return a, st') => (Return a, st')
    | (Throw e, st') => h e st'
    end.
Proof. done. Qed.

Lemma bind_try_catch {A B} (m : M A) (h : Error → M A) (k : A → M B) st :
  (try_catch m h ≫= k) st =
    match m st with
    | (Return a, st') => k a st'
    | (Throw e, st') => (h e ≫= k) st'
    end.
Proof. unfold mbind, M_bind, try_catch. by destruct (m st) as [[a|e] st']. Qed.

Lemma isEmpty_nil_negb (errors : list string) : errors = [] → negb (isEmpty errors) = false.
Proof. by intros ->. Qed.

(** The data of a write is an object literal whose values are there. *)
Ltac solve_defined :=
  first
    [ assumption
    | apply defined_object; repeat constructor; simpl;
      first [ done | by apply js_or_defined | eauto using supplied_defined ] ].

(** The ids of a request name documents. *)
Ltac solve_document :=
  first [ assumption | by apply plain_id_names_document | by auto ].

(** One step of a run from an explicit state. *)
Ltac step :=
  first
    [ rewrite bind_assoc
    | rewrite bind_emit
    | rewrite bind_ret
    | rewrite bind_throw
    | rewrite bind_stripe
    | rewrite bind_resolve_customer
    | rewrite bind_users_coll_ok by solve_document
    | rewrite bind_doc_id_ok by solve_document
    | rewrite bind_ref_get
    | rewrite bind_ref_set_merge by solve_defined
    | rewrite bind_coll_add by solve_defined
    | rewrite run_emit
    | rewrite run_ret ];
  cbv beta iota zeta; cbn [store ops trace fst snd].



(** ** Intent succeeded *)



(** ** Invariants of a run *)

Section steps.
Context (R : relation State) `{!PreOrder R}.

Lemma steps_ret {A} (a : A) : steps R (mret a).
Proof. intros st. reflexivity. Qed.

Lemma steps_throw {A} e : steps R (throw (A := A) e).
Proof. intros st. reflexivity. Qed.

Lemma steps_bind {A B} (m : M A) (k : A → M B) :
  steps R m → (∀ a, steps R (k a)) → steps R (m ≫= k).
Proof.
  intros Hm Hk st. unfold mbind, M_bind.
  specialize (Hm st). destruct (m st) as [[a|e] st1]; simpl in *; [|done].
  etrans; [exact Hm|]. apply Hk.
Qed.

Lemma steps_bind_ret {A B} (a : A) (k : A → M B) :
  steps R (k a) → steps R (mret a ≫= k).
Proof. intros Hk st. apply Hk. Qed.

Lemma steps_try {A} (m : M A) (h : Error → M A) :
  steps R m → (∀ e, steps R (h e)) → steps R (try_catch m h).
Proof.
  intros Hm Hh st. unfold try_catch.
  specialize (Hm st). destruct (m st) as [[a|e] st1]; simpl in *; [done|].
  etrans; [exact Hm|]. apply Hh.
Qed.

Lemma steps_doc_id v : steps R (doc_id v).
Proof.
  unfold doc_id. destruct v; try apply steps_throw.
  destruct (doc_path _); [apply steps_ret | apply steps_throw].
Qed.

Lemma steps_validated data : steps R (validated data).
Proof. unfold validated. case_decide; [apply steps_ret | apply steps_throw]. Qed.

Lemma steps_users_coll env org member name : steps R (users_coll env org member name).
Proof.
  unfold users_coll. destruct (db_configured env); [|apply steps_throw].
  apply steps_bind; [apply steps_doc_id|intros o].
  apply steps_bind; [apply steps_doc_id|intros m]. apply steps_ret.
Qed.

Lemma steps_destructure o : steps R (destructure o).
Proof. destruct o; [apply steps_ret | apply steps_throw]. Qed.

Lemma steps_first_refund_id refunds : steps R (first_refund_id refunds).
Proof. destruct refunds as [[|]|]; (apply steps_ret || apply steps_throw). Qed.

Lemma steps_stripe {A} c (answer : string + A) :
  steps R (emit (Stripe c)) → steps R (stripe c answer).
Proof.
  intros He. unfold stripe. apply steps_bind; [done|intros _].
  destruct answer; [apply steps_throw | apply steps_ret].
Qed.
End steps.

(** The structural rules; [prim] settles the effects and the store calls. *)
Ltac steps_with prim :=
  repeat first
    [ apply steps_ret; apply _
    | apply steps_throw; apply _
    | apply steps_doc_id; apply _
    | apply steps_validated; apply _
    | apply steps_users_coll; apply _
    | apply steps_destructure; apply _
    | apply steps_first_refund_id; apply _
    | apply steps_bind_ret
    | apply steps_bind; [apply _| |intros ?]
    | apply steps_try; [apply _| |intros ?]
    | apply steps_stripe; [apply _|]
    | prim
    | case_match ].

(** *** The trace only grows *)

Global Instance appends_preorder ok : PreOrder (appends ok).
Proof.
  split.
  - intros st. exists []. by rewrite app_nil_r.
  - intros st1 st2 st3 (tr1 & H1 & Hok1) (tr2 & H2 & Hok2).
    exists (tr1 ++ tr2). rewrite H2, H1, app_assoc. split; [done|].
    by apply Forall_app.
Qed.

Lemma appends_emit ok e : ok e → steps (appends ok) (emit e).
Proof. intros He st. exists [e]. simpl. split; [done|]. by constructor. Qed.

Lemma appends_store_call (ok : Effect → Prop) {A} (env : Env) (f : Store → A * Store) :
  steps (appends ok) (store_call env f).
Proof.
  intros st. exists []. rewrite app_nil_r. unfold store_call.
  destruct (store_fails env (ops st)); [done|]. by destruct (f (store st)).
Qed.

Ltac appends_prim :=
  first [ apply appends_store_call
        | apply appends_emit; try done ].

Lemma dispatch_appends env ev :
  steps (appends (λ _, True)) (dispatch env ev).
Proof.
  unfold dispatch, handlePaymentSuccess, handlePaymentFailure, handleRefund,
    ref_set_merge, coll_add.
  steps_with appends_prim.
Qed.

(** ** Signature verification *)

(** C2: verification against the signing secret is the first thing every
    inbound webhook request does; when it fails the endpoint answers 400,
    the store is left as it was and nothing but the failure log follows the
    verification: no handler is entered. *)
Theorem webhook_rejects_unverified env raw sig s msg :
  constructEvent env raw sig (STRIPE_WEBHOOK_SECRET env) = inl msg →
  (∃ resp tr,
     serve (webhook env raw sig) s = (Return resp, s, tr) ∧
     status resp = 400 ∧
     tr = [Stripe WebhooksConstructEvent;
           ConsoleError "Webhook signature verification failed:"] ∧
     ∀ h, Enter h ∉ tr) ∧
  (∀ env' raw' sig' s0, ∃ r s' tr,
     serve (webhook env' raw' sig') s0 = (r, s', Stripe WebhooksConstructEvent :: tr)).
Proof.
  intros Hsig. split.
  - unfold serve, webhook. run_monad. rewrite Hsig. simpl.
    eexists _, _. split; [reflexivity|]. split; [done|]. split; [done|].
    intros h Hin.
    repeat (apply elem_of_cons in Hin as [Hin|Hin]; [discriminate|]).
    by apply elem_of_nil in Hin.
  - clear. intros env raw sig s. unfold serve, webhook.
    unfold mbind at 1, M_bind at 1. simpl.
    destruct (constructEvent env raw sig (STRIPE_WEBHOOK_SECRET env)) as [msg|ev].
    + run_monad. simpl. eauto.
    + unfold try_catch, mbind, M_bind.
      destruct (dispatch_appends env ev
                  {| store := s; ops := 0; trace := [Stripe WebhooksConstructEvent] |})
        as (tr & Htr & _).
      destruct (dispatch env ev _) as [[[]|e] st1]; simpl in *.
      * rewrite Htr. eauto.
      * rewrite Htr. eauto.
Qed.

Lemma webhook_rejects_unverified_witness :
  ∃ resp tr,
    serve (webhook (sample_env true never (inl "No signatures found") (inl "")) "{}" VUndef) ∅
      = (Return resp, ∅, tr) ∧
    status resp = 400 ∧
    tr = [Stripe WebhooksConstructEvent;
          ConsoleError "Webhook signature verification failed:"] ∧
    ∀ h, Enter h ∉ tr.
Proof.
  apply (webhook_rejects_unverified
           (sample_env true never (inl "No signatures found") (inl "")) "{}" VUndef ∅
           "No signatures found").
  reflexivity.
Defined.

(** ** Events without metadata *)

(** C10: a verified payment_intent.succeeded or
    payment_intent.payment_failed event whose payload has no metadata
    object makes the handler throw before its own try block; the route's
    catch logs it, the endpoint answers 500 instead of {received: true},
    and nothing is written. *)
Theorem webhook_without_metadata_500 env raw sig ev s :
  constructEvent env raw sig (STRIPE_WEBHOOK_SECRET env) = inr ev →
  ev_type ev = "payment_intent.succeeded" ∨ ev_type ev = "payment_intent.payment_failed" →
  so_metadata (ev_object ev) = None →
  serve (webhook env raw sig) s =
    (Return (respond 500 (JsonError "Webhook processing failed")), s,
     [Stripe WebhooksConstructEvent; Enter (handler_of (ev_type ev));
      ConsoleError "Error processing webhook:"]).
Proof.
  intros Hev Hty Hmd. unfold serve, webhook, dispatch. run_monad.
  rewrite Hev. simpl. destruct Hty as [-> | ->]; simpl; by rewrite Hmd.
Qed.

Lemma webhook_without_metadata_500_witness :
  serve (webhook (sample_env true never
                    (inr {| ev_type := "payment_intent.payment_failed";
                            ev_object := sample_intent None |}) (inl ""))
           "{}" (VStr "t=1,v1=ab")) ∅ =
    (Return (respond 500 (JsonError "Webhook processing failed")), ∅,
     [Stripe WebhooksConstructEvent; Enter "handlePaymentFailure";
      ConsoleError "Error processing webhook:"]).
Proof.
  apply (webhook_without_metadata_500
           (sample_env true never
              (inr {| ev_type := "payment_intent.payment_failed";
                      ev_object := sample_intent None |}) (inl ""))
           "{}" (VStr "t=1,v1=ab")
           {| ev_type := "payment_intent.payment_failed"; ev_object := sample_intent None |} ∅).
  - reflexivity.
  - right. reflexivity.
  - reflexivity.
Defined.

(** ** Redelivery *)




(** ** Charge refunded *)



(** ** Failures inside a handler *)

Lemma blocked_pure_bind {A B} (m : M A) (k : A → M B) st :
  pure m → (∀ a, blocked (k a) st) → blocked (m ≫= k) st.
Proof.
  intros Hm Hk. unfold blocked. rewrite bind_pure by done.
  destruct (m st).1 as [a|e]; [apply Hk | by eexists _, _].
Qed.

Lemma blocked_set_merge {B} env p id data (k : () → M B) st :
  store_fails env (ops st) = true → blocked (ref_set_merge env p id data ≫= k) st.
Proof.
  intros Hf. unfold blocked, ref_set_merge, validated, store_call, mbind, M_bind.
  case_decide; simpl; [rewrite Hf|]; by eexists _, _.
Qed.

Lemma try_blocked {A} (m : M A) (h : Error → M A) st :
  blocked m st → ∃ e st', try_catch m h st = h e st' ∧ store st' = store st ∧ trace st' = trace st.
Proof. intros (e & st' & Hm & ?). unfold try_catch. rewrite Hm. eauto. Qed.

(** When the first record-store call of the request fails, a handler that
    was entered ends in its own catch block, with the store as it was. *)
Lemma dispatch_first_call_fails env ev st :
  store_fails env (ops st) = true →
  store (dispatch env ev st).2 = store st ∧
  ∀ msg, handler_error_log (ev_type ev) = Some msg →
         (dispatch env ev st).1 = Return () →
         last (trace (dispatch env ev st).2) = Some (ConsoleError msg).
Proof.
  intros Hf. unfold dispatch, handler_error_log.
  destruct (String.eqb (ev_type ev) "payment_intent.succeeded").
  { unfold handlePaymentSuccess. rewrite bind_emit.
    destruct (so_metadata (ev_object ev)) as [md|]; [|done]. simpl.
    rewrite bind_ret.
    match goal with |- context [try_catch ?m ?h ?st1] =>
      destruct (try_blocked m h st1) as (e & st2 & -> & Hs & Ht) end.
    { apply blocked_pure_bind; [apply users_coll_pure|intros dues].
      apply blocked_pure_bind; [apply doc_id_pure|intros duesRef].
      by apply blocked_set_merge. }
    simpl. rewrite Hs, Ht. split; [done|]. intros msg [= <-] _. by rewrite last_snoc. }
  destruct (String.eqb (ev_type ev) "payment_intent.payment_failed").
  { unfold handlePaymentFailure. rewrite bind_emit.
    destruct (so_metadata (ev_object ev)) as [md|]; [|done]. simpl.
    rewrite bind_ret.
    match goal with |- context [try_catch ?m ?h ?st1] =>
      destruct (try_blocked m h st1) as (e & st2 & -> & Hs & Ht) end.
    { apply blocked_pure_bind; [apply users_coll_pure|intros dues].
      apply blocked_pure_bind; [apply doc_id_pure|intros duesRef].
      by apply blocked_set_merge. }
    simpl. rewrite Hs, Ht. split; [done|]. intros msg [= <-] _. by rewrite last_snoc. }
  destruct (String.eqb (ev_type ev) "charge.refunded"); [|done].
  unfold handleRefund. rewrite bind_emit.
  match goal with |- context [try_catch ?m ?h ?st1] =>
    assert (∃ e st2, m st1 = (Throw e, st2) ∧ store st2 = store st) as (e & st2 & Hm & Hs) end.
  { rewrite bind_stripe. simpl.
    destruct (paymentIntents_retrieve env _) as [msg|paymentIntent]; [by eexists _, _|].
    match goal with |- context [?m ?st1 = _] =>
      assert (blocked m st1) as (e & st2 & Hm & Hs & _); [|by eauto] end.
    apply blocked_pure_bind; [apply destructure_pure|intros md].
    apply blocked_pure_bind; [apply users_coll_pure|intros dues].
    apply blocked_pure_bind; [apply doc_id_pure|intros duesRef].
    apply blocked_pure_bind; [apply first_refund_id_pure|intros refundId].
    by apply blocked_set_merge. }
  unfold try_catch. rewrite Hm. simpl. split; [done|].
  intros msg [= <-] _. by rewrite last_snoc.
Qed.

Lemma ends_with_emit e : ends_with e (emit e).
Proof. intros st [] st' [= <-]. simpl. by rewrite last_snoc. Qed.

Lemma ends_with_bind {A B} e (m : M A) (k : A → M B) :
  (∀ a, ends_with e (k a)) → ends_with e (m ≫= k).
Proof.
  intros Hk st b st'. unfold mbind, M_bind.
  destruct (m st) as [[a|err] st1]; [apply Hk|discriminate].
Qed.

(** A [try] that ends with a log, and whose [catch] only logs, ends with
    one of the two logs. *)
Lemma try_log_last (m : M ()) ok msg st :
  ends_with (ConsoleLog ok) m →
  ∃ st', try_catch m (λ _, emit (ConsoleError msg)) st = (Return (), st') ∧
         (last (trace st') = Some (ConsoleError msg) ∨ last (trace st') = Some (ConsoleLog ok)).
Proof.
  intros Hm. unfold try_catch. destruct (m st) as [[[]|e] st1] eqn:Hrun.
  - eexists. split; [done|]. right. by eapply Hm.
  - eexists. split; [done|]. left. simpl. by rewrite last_snoc.
Qed.

(** With metadata at hand, a handler ends with the log of its success or
    with the error log of its own catch block. *)
Lemma dispatch_logs env ev st :
  (intent_event (ev_type ev) = true → is_Some (so_metadata (ev_object ev))) →
  ∃ st', dispatch env ev st = (Return (), st') ∧
    ∀ msg, handler_error_log (ev_type ev) = Some msg →
           last (trace st') = Some (ConsoleError msg)
           ∨ ∃ ok, last (trace st') = Some (ConsoleLog ok).
Proof.
  intros Hmd. unfold dispatch, intent_event, handler_error_log in *.
  destruct (String.eqb (ev_type ev) "payment_intent.succeeded").
  { destruct Hmd as [md Hmd]; [done|].
    unfold handlePaymentSuccess. rewrite bind_emit, Hmd. simpl. rewrite bind_ret.
    match goal with |- context [try_catch ?m (λ _, emit (ConsoleError ?msg)) ?st1] =>
      destruct (try_log_last m "Payment succeeded" msg st1) as (st' & -> & Hlast) end.
    { do 4 (apply ends_with_bind; intros ?). apply ends_with_emit. }
    exists st'. split; [done|]. intros msg [= <-]. destruct Hlast; eauto. }
  destruct (String.eqb (ev_type ev) "payment_intent.payment_failed").
  { destruct Hmd as [md Hmd]; [done|].
    unfold handlePaymentFailure. rewrite bind_emit, Hmd. simpl. rewrite bind_ret.
    match goal with |- context [try_catch ?m (λ _, emit (ConsoleError ?msg)) ?st1] =>
      destruct (try_log_last m "Payment failed" msg st1) as (st' & -> & Hlast) end.
    { do 3 (apply ends_with_bind; intros ?). apply ends_with_emit. }
    exists st'. split; [done|]. intros msg [= <-]. destruct Hlast; eauto. }
  destruct (String.eqb (ev_type ev) "charge.refunded").
  { unfold handleRefund. rewrite bind_emit.
    match goal with |- context [try_catch ?m (λ _, emit (ConsoleError ?msg)) ?st1] =>
      destruct (try_log_last m "Refund processed" msg st1) as (st' & -> & Hlast) end.
    { do 6 (apply ends_with_bind; intros ?). apply ends_with_emit. }
    exists st'. split; [done|]. intros msg [= <-]. destruct Hlast; eauto. }
  eexists. split; [done|]. discriminate.
Qed.

(** The Dues upsert succeeds and the donation append fails. *)
Lemma webhook_donation_append_fails env raw sig ev md m o s :
  constructEvent env raw sig (STRIPE_WEBHOOK_SECRET env) = inr ev →
  ev_type ev = "payment_intent.succeeded" →
  so_metadata (ev_object ev) = Some md →
  md !! "memberId" = Some (VStr m) → plain_id m →
  md !! "organizationId" = Some (VStr o) → plain_id o →
  prop md "memberName" ≠ VUndef →
  so_id (ev_object ev) ≠ VUndef →
  so_latest_charge (ev_object ev) ≠ VUndef →
  prop md "paymentType" = VStr "donation" →
  db_configured env = true →
  store_fails env 0 = false →
  store_fails env 1 = true →
  serve (webhook env raw sig) s =
    (Return (respond 200 JsonReceived),
     set_merge (o, m, "dues") m (paid_fields env (ev_object ev) (prop md "memberName")) s,
     [Stripe WebhooksConstructEvent; Enter "handlePaymentSuccess";
      ConsoleError "Error updating payment success:"]).
Proof.
  intros Hev Hty Hmd Hm Hm' Ho Ho' Hname Hid Hcharge Hdon Hdb Hf0 Hf1.
  apply prop_lookup in Hm, Ho.
  unfold serve, webhook, paid_fields.
  repeat step. rewrite Hev. cbv iota. rewrite try_catch_run.
  unfold dispatch. rewrite Hty. cbv iota beta delta [String.eqb Ascii.eqb Bool.eqb].
  unfold handlePaymentSuccess. repeat step. rewrite Hmd. cbn [destructure].
  repeat step. rewrite Hm, Ho, Hdon. rewrite bind_try_catch. repeat step.
  rewrite Hf0. cbn [strict_eq_str String.eqb Ascii.eqb Bool.eqb]. repeat step.
  match goal with
  | |- context [coll_add _ _ ?data] => destruct (decide (defined data)) as [Hd|Hd]
  end.
  - rewrite bind_coll_add by done. rewrite Hf1. by repeat step.
  - rewrite bind_coll_add_undefined by done. by repeat step.
Qed.

(** C5 (as the code has it): for a verified event that carries a metadata
    object, whatever fails inside the handler is caught there and the
    endpoint answers {received: true}; a handler that does not reach the
    log of its success has logged the error in its own catch block.  When
    the first record-store call of the request is rejected, the store is
    left as it was.  When the Dues upsert succeeds (the metadata names
    member and organization by document ids, the payload holds the values
    written) and the donation append fails, the Dues record stays
    written. *)
Theorem handler_failure_acknowledged env raw sig ev s :
  constructEvent env raw sig (STRIPE_WEBHOOK_SECRET env) = inr ev →
  (intent_event (ev_type ev) = true → is_Some (so_metadata (ev_object ev))) →
  ∃ s' tr,
    serve (webhook env raw sig) s = (Return (respond 200 JsonReceived), s', tr) ∧
    (∀ msg, handler_error_log (ev_type ev) = Some msg →
       last tr = Some (ConsoleError msg) ∨ ∃ ok, last tr = Some (ConsoleLog ok)) ∧
    (store_fails env 0 = true →
       s' = s ∧
       ∀ msg, handler_error_log (ev_type ev) = Some msg → last tr = Some (ConsoleError msg)) ∧
    (∀ md m o,
       ev_type ev = "payment_intent.succeeded" →
       so_metadata (ev_object ev) = Some md →
       md !! "memberId" = Some (VStr m) → plain_id m →
       md !! "organizationId" = Some (VStr o) → plain_id o →
       prop md "memberName" ≠ VUndef →
       so_id (ev_object ev) ≠ VUndef →
       so_latest_charge (ev_object ev) ≠ VUndef →
       prop md "paymentType" = VStr "donation" →
       db_configured env = true →
       store_fails env 0 = false →
       store_fails env 1 = true →
       s' = set_merge (o, m, "dues") m
              (paid_fields env (ev_object ev) (prop md "memberName")) s ∧
       last tr = Some (ConsoleError "Error updating payment success:")).
Proof.
  intros Hev Hmd.
  set (st1 := {| store := s; ops := 0; trace := [Stripe WebhooksConstructEvent] |}).
  destruct (dispatch_logs env ev st1 Hmd) as (st2 & Hrun & Hlast).
  assert (Hserve : serve (webhook env raw sig) s
                   = (Return (respond 200 JsonReceived), store st2, trace st2)).
  { unfold serve, webhook. rewrite bind_emit, Hev. simpl. fold st1.
    unfold try_catch, mbind, M_bind. by rewrite Hrun. }
  exists (store st2), (trace st2). split; [done|]. split; [done|]. split.
  - intros Hf. destruct (dispatch_first_call_fails env ev st1 Hf) as [Hs Hlog].
    rewrite Hrun in Hs, Hlog. simpl in *. split; [done|].
    intros msg Hmsg. by apply Hlog.
  - intros md m o Hty Hmd' Hm Hm' Ho Ho' Hname Hid Hcharge Hdon Hdb Hf0 Hf1.
    rewrite (webhook_donation_append_fails env raw sig ev md m o s) in Hserve by done.
    injection Hserve as Hs Ht. by rewrite <- Hs, <- Ht.
Qed.

Lemma handler_failure_acknowledged_witness :
  ∃ tr,
    serve (webhook (sample_env true first_call_fails (inr (succeeded "donation")) (inl ""))
             "{}" (VStr "t=1,v1=ab")) ∅
      = (Return (respond 200 JsonReceived), ∅, tr) ∧
    last tr = Some (ConsoleError "Error updating payment success:").
Proof.
  destruct (handler_failure_acknowledged
              (sample_env true first_call_fails (inr (succeeded "donation")) (inl ""))
              "{}" (VStr "t=1,v1=ab") (succeeded "donation") ∅)
    as (s' & tr & Hrun & _ & Hfirst & _).
  - reflexivity.
  - intros _. eexists. reflexivity.
  - destruct Hfirst as [-> Hlog]; [reflexivity|].
    exists tr. split; [exact Hrun|]. apply Hlog. reflexivity.
Defined.

(** The run behind the counterexample below: the second record-store
    call, the donation append, fails. *)
Example donation_append_failure_run :
  serve (webhook (sample_env true second_call_fails (inr (succeeded "donation")) (inl ""))
           "{}" (VStr "t=1,v1=ab")) ∅
    = (Return (respond 200 JsonReceived),
       set_merge ("o1", "m1", "dues") "m1"
         (object [("memberName", VStr "Test"); ("amount", VNum 150); ("status", VStr "Paid");
                  ("dueDate", VStr "2024-05-01"); ("paidDate", VStr "2024-05-01");
                  ("paymentIntentId", VStr "pi_1"); ("stripeChargeId", VStr "ch_1")]) ∅,
       [Stripe WebhooksConstructEvent; Enter "handlePaymentSuccess";
        ConsoleError "Error updating payment success:"]).
Proof.
  by rewrite (webhook_donation_append_fails _ _ _ (succeeded "donation")
                (sample_metadata "donation") "m1" "o1")
    by first [by split | discriminate].
Qed.

(** C5 (as stated) fails: the donation append of a verified donation
    event fails after the Dues upsert; the handler catches and logs the
    failure and the endpoint acknowledges, yet the store has changed: the
    member's Dues record is now there, Paid. *)
Lemma failed_handler_changes_store : ¬ failed_handler_leaves_store.
Proof.
  intros Hclaim.
  pose (env := sample_env true second_call_fails (inr (succeeded "donation")) (inl "")).
  destruct (Hclaim env "{}" (VStr "t=1,v1=ab") (succeeded "donation") ∅ _ _ _
              "Error updating payment success:" eq_refl
              (webhook_donation_append_fails env "{}" (VStr "t=1,v1=ab") (succeeded "donation")
                 (sample_metadata "donation") "m1" "o1" ∅
                 eq_refl eq_refl eq_refl eq_refl ltac:(by split) eq_refl
                 ltac:(by split) ltac:(discriminate) ltac:(discriminate) ltac:(discriminate)
                 eq_refl eq_refl eq_refl eq_refl)
              eq_refl) as [_ Hstore].
  { apply list_elem_of_lookup. by exists 2. }
  assert (Hdoc : doc_at (set_merge ("o1", "m1", "dues") "m1"
                           (paid_fields env (ev_object (succeeded "donation"))
                              (prop (sample_metadata "donation") "memberName")) ∅)
                   ("o1", "m1", "dues") "m1" ≫= (.!! "status") = Some (VStr "Paid")).
  { rewrite doc_at_set_merge_eq by (by repeat split). done. }
  rewrite Hstore in Hdoc. discriminate.
Qed.

(** ** The status of a record over a sequence of events *)

Global Instance forward_preorder : PreOrder forward.
Proof.
  split.
  - intros s p id. by left.
  - intros s1 s2 s3 H12 H23 p id.
    destruct (H23 p id) as [Heq|?]; [|by right].
    rewrite Heq. apply H12.
Qed.

Global Instance store_forward_preorder : PreOrder store_forward.
Proof.
  split.
  - intros st. unfold store_forward. reflexivity.
  - intros st1 st2 st3. unfold store_forward. apply transitivity.
Qed.

Lemma forward_set_merge (s : Store) p id data :
  terminal (data !! "status") → forward s (set_merge p id data s).
Proof.
  intros Hterm q id'.
  destruct (decide ((p, id) = (q, id'))) as [[= <- <-]|Hne].
  - destruct (decide (reference p id)) as [Hr|Hr].
    + right. rewrite doc_at_set_merge_eq by done. simpl.
      destruct Hterm as [H|[H|H]]; rewrite (lookup_union_Some_l _ _ _ _ H);
        unfold terminal; eauto.
    + left. unfold doc_at. by rewrite !decide_False.
  - left. by rewrite doc_at_set_merge_ne.
Qed.

Lemma forward_add_doc (s : Store) p data :
  data !! "status" = None → forward s (add_doc p data s).
Proof.
  intros Hnone q id'. left.
  destruct (decide (p = q)) as [<-|Hne]; [|by rewrite doc_at_add_doc_ne].
  unfold doc_at. case_decide; [|done]. rewrite coll_at_add_doc_eq.
  destruct (decide (auto_id (coll_at s p) = id')) as [<-|Hid].
  - rewrite lookup_insert_eq, auto_id_fresh. done.
  - by rewrite lookup_insert_ne.
Qed.

Lemma store_forward_emit e : steps store_forward (emit e).
Proof. intros st. unfold store_forward. simpl. reflexivity. Qed.

Lemma store_forward_call {A} (env : Env) (f : Store → A * Store) :
  (∀ s, forward s (f s).2) → steps store_forward (store_call env f).
Proof.
  intros Hf st. unfold store_forward, store_call.
  destruct (store_fails env (ops st)); simpl; [reflexivity|].
  specialize (Hf (store st)). by destruct (f (store st)).
Qed.

Ltac store_forward_prim :=
  first
    [ apply store_forward_emit
    | apply store_forward_call; intros ?; simpl;
      lazymatch goal with
      | |- forward _ (set_merge _ _ _ _) => apply forward_set_merge; vm_compute; eauto
      | |- forward _ (add_doc _ _ _) => apply forward_add_doc; vm_compute; done
      end ].

Lemma webhook_store_forward env raw sig : steps store_forward (webhook env raw sig).
Proof.
  unfold webhook, dispatch, handlePaymentSuccess, handlePaymentFailure, handleRefund,
    ref_set_merge, coll_add.
  steps_with store_forward_prim.
Qed.

Lemma deliver_forward d s : forward s (deliver d s).1.2.
Proof.
  unfold deliver, serve.
  pose proof (webhook_store_forward (dl_env d) (dl_raw d) (dl_sig d)
                {| store := s; ops := 0; trace := [] |}) as H.
  unfold store_forward in H. simpl in H. by destruct (webhook _ _ _ _).
Qed.

Lemma deliver_all_forward ds s : forward s (deliver_all ds s).
Proof.
  revert s. induction ds as [|d ds IH]; intros s; [reflexivity|].
  unfold deliver_all. simpl. etrans; [apply deliver_forward|apply IH].
Qed.

(** A verified [payment_intent.payment_failed] event with usable metadata,
    on a store that accepts the write. *)
Lemma webhook_failed_run env raw sig ev md m o s :
  constructEvent env raw sig (STRIPE_WEBHOOK_SECRET env) = inr ev →
  ev_type ev = "payment_intent.payment_failed" →
  so_metadata (ev_object ev) = Some md →
  md !! "memberId" = Some (VStr m) → plain_id m →
  md !! "organizationId" = Some (VStr o) → plain_id o →
  prop md "memberName" ≠ VUndef →
  so_id (ev_object ev) ≠ VUndef →
  db_configured env = true →
  store_fails env 0 = false →
  serve (webhook env raw sig) s =
    (Return (respond 200 JsonReceived),
     set_merge (o, m, "dues") m (failed_fields env (ev_object ev) (prop md "memberName")) s,
     [Stripe WebhooksConstructEvent; Enter "handlePaymentFailure";
      ConsoleLog "Payment failed"]).
Proof.
  intros Hev Hty Hmd Hm Hm' Ho Ho' Hname Hid Hdb Hf0.
  apply prop_lookup in Hm, Ho.
  unfold serve, webhook, failed_fields.
  repeat step. rewrite Hev. cbv iota. rewrite try_catch_run.
  unfold dispatch. rewrite Hty. cbv iota beta delta [String.eqb Ascii.eqb Bool.eqb].
  unfold handlePaymentFailure. repeat step. rewrite Hmd. cbn [destructure].
  repeat step. rewrite Hm, Ho. rewrite bind_try_catch. repeat step.
  rewrite Hf0. by repeat step.
Qed.

Lemma deliver_all_snoc ds d s :
  deliver_all (ds ++ [d]) s = (deliver d (deliver_all ds s)).1.2.
Proof. unfold deliver_all. by rewrite foldl_app. Qed.

(** C4 (as the code has it): over any sequence of inbound events, a record
    whose status is Paid, Failed or Refunded keeps a status among these
    three: it never goes back to Pending.  The three are not final,
    though: an applied event writes its own status over the stored one, so
    an intent-failed event that is applied after any earlier events (its
    metadata names member and organization by document ids, its payload
    holds the member's name and the intent's id) leaves the member's Dues
    record Failed, whatever it was. *)
Theorem terminal_status_stays_terminal ds s p id :
  terminal (status_of (doc_at s p id)) →
  terminal (status_of (doc_at (deliver_all ds s) p id)) ∧
  ∀ env raw sig ev md m o,
    constructEvent env raw sig (STRIPE_WEBHOOK_SECRET env) = inr ev →
    ev_type ev = "payment_intent.payment_failed" →
    so_metadata (ev_object ev) = Some md →
    md !! "memberId" = Some (VStr m) → plain_id m →
    md !! "organizationId" = Some (VStr o) → plain_id o →
    prop md "memberName" ≠ VUndef →
    so_id (ev_object ev) ≠ VUndef →
    db_configured env = true →
    store_fails env 0 = false →
    status_of (doc_at (deliver_all (ds ++ [{| dl_env := env; dl_raw := raw; dl_sig := sig |}]) s)
                 (o, m, "dues") m)
      = Some (VStr "Failed").
Proof.
  intros Hterm. split.
  - destruct (deliver_all_forward ds s p id) as [Heq|?]; [|done]. by rewrite Heq.
  - intros env raw sig ev md m o Hev Hty Hmd Hm Hm' Ho Ho' Hname Hid Hdb Hf0.
    rewrite deliver_all_snoc. unfold deliver. simpl.
    rewrite (webhook_failed_run env raw sig ev md m o) by done. simpl.
    rewrite doc_at_set_merge_eq by auto. simpl.
    by apply lookup_union_Some_l.
Qed.

Lemma terminal_status_stays_terminal_witness :
  terminal (status_of (doc_at (deliver_all [failed_delivery] paid_dues_store)
                         ("o1", "m1", "dues") "m1")).
Proof.
  apply (terminal_status_stays_terminal [failed_delivery] paid_dues_store
           ("o1", "m1", "dues") "m1").
  left. reflexivity.
Defined.

(** The run behind the counterexample below. *)
Example failed_after_paid_run :
  status_of (doc_at paid_dues_store ("o1", "m1", "dues") "m1") = Some (VStr "Paid") ∧
  deliver failed_delivery paid_dues_store
    = (Return (respond 200 JsonReceived),
       set_merge ("o1", "m1", "dues") "m1"
         (object [("memberName", VStr "Test"); ("amount", VNum 150); ("status", VStr "Failed");
                  ("dueDate", VStr "2024-05-01"); ("paymentIntentId", VStr "pi_1");
                  ("failureReason", VStr "Payment failed")]) paid_dues_store,
       [Stripe WebhooksConstructEvent; Enter "handlePaymentFailure";
        ConsoleLog "Payment failed"]).
Proof.
  split.
  - unfold paid_dues_store. by rewrite doc_at_set_merge_eq by (by repeat split).
  - unfold deliver, failed_delivery. simpl.
    by rewrite (webhook_failed_run _ _ _ payment_failed (sample_metadata "dues") "m1" "o1")
      by first [by split | discriminate].
Qed.

(** C4 (as stated) fails: an intent-failed event delivered when the
    member's Dues record is Paid moves it to Failed. *)
Lemma failed_event_overwrites_paid : ¬ terminal_status_is_final.
Proof.
  intros Hclaim.
  specialize (Hclaim [failed_delivery] paid_dues_store ("o1", "m1", "dues") "m1").
  assert (Hpaid : status_of (doc_at paid_dues_store ("o1", "m1", "dues") "m1")
                  = Some (VStr "Paid")).
  { unfold paid_dues_store. by rewrite doc_at_set_merge_eq by (by repeat split). }
  assert (Hfailed : status_of (doc_at (deliver_all [failed_delivery] paid_dues_store)
                                 ("o1", "m1", "dues") "m1")
                    = Some (VStr "Failed")).
  { unfold deliver_all, deliver, failed_delivery. simpl.
    rewrite (webhook_failed_run _ _ _ payment_failed (sample_metadata "dues") "m1" "o1")
      by first [by split | discriminate].
    simpl. by rewrite doc_at_set_merge_eq by (by repeat split). }
  rewrite Hpaid, Hfailed in Hclaim.
  discriminate Hclaim.
  - constructor; [|constructor]. by exists payment_failed.
  - by left.
Qed.

(** ** Reimbursement for an unknown member *)


Lemma doc_id_document v id st : document_of v = Some id → doc_id v st = (Return id, st).
Proof.
  unfold doc_id, document_of. destruct v as [| |path| |]; try discriminate. by intros ->.
Qed.

Lemma doc_id_rejects v : document_of v = None → ∃ e, ∀ st, doc_id v st = (Throw e, st).
Proof.
  unfold doc_id, document_of. destruct v as [| |path| |]; try (by eexists).
  intros ->. by eexists.
Qed.

Lemma doc_id_throws v st : document_of v = None → ∃ e, doc_id v st = (Throw e, st).
Proof. intros Hv. destruct (doc_id_rejects v Hv) as [e He]. by exists e. Qed.


Lemma users_coll_document env org member name o m st :
  db_configured env = true →
  document_of org = Some o → document_of member = Some m →
  users_coll env org member name st = (Return (o, m, name), st).
Proof.
  intros Hdb Ho Hm. unfold users_coll. rewrite Hdb.
  unfold mbind, M_bind. by rewrite (doc_id_document _ _ _ Ho), (doc_id_document _ _ _ Hm).
Qed.

Lemma users_coll_throws env org member name st :
  db_configured env = true →
  document_of org = None ∨ document_of member = None →
  ∃ e, users_coll env org member name st = (Throw e, st).
Proof.
  intros Hdb Hbad. unfold users_coll. rewrite Hdb.
  rewrite bind_pure by apply doc_id_pure.
  destruct (document_of org) as [o|] eqn:Ho.
  - rewrite (doc_id_document _ _ _ Ho). simpl.
    destruct Hbad as [?|Hm]; [done|].
    destruct (doc_id_throws member st Hm) as [e He].
    unfold mbind, M_bind. rewrite He. by eexists.
  - destruct (doc_id_throws org st Ho) as [e ->]. by eexists.
Qed.

Lemma users_coll_rejects env org member name :
  db_configured env = true →
  document_of org = None ∨ document_of member = None →
  ∃ e, ∀ st, users_coll env org member name st = (Throw e, st).
Proof.
  intros Hdb Hbad. unfold users_coll. rewrite Hdb.
  destruct (document_of org) as [o|] eqn:Ho.
  - destruct Hbad as [?|Hm]; [done|].
    destruct (doc_id_rejects member Hm) as [e He]. exists e. intros st.
    unfold mbind, M_bind. by rewrite (doc_id_document _ _ _ Ho), He.
  - destruct (doc_id_rejects org Ho) as [e He]. exists e. intros st.
    unfold mbind, M_bind. by rewrite He.
Qed.

Lemma bind_users_coll_document {B} env org member name o m (k : CollPath → M B) st :
  db_configured env = true →
  document_of org = Some o → document_of member = Some m →
  (users_coll env org member name ≫= k) st = k (o, m, name) st.
Proof.
  intros Hdb Ho Hm. unfold mbind, M_bind.
  by rewrite (users_coll_document _ _ _ _ _ _ _ Hdb Ho Hm).
Qed.



(** ** Payment history *)

Global Instance key_le_total : Total key_le.
Proof. intros [a1 a2] [b1 b2]. unfold key_le. simpl. lia. Qed.

Global Instance key_le_transitive : Transitive key_le.
Proof. intros [a1 a2] [b1 b2] [c1 c2]. unfold key_le. simpl. lia. Qed.

Global Instance desc_by_total field : Total (desc_by field).
Proof. intros a b. unfold desc_by. apply total, _. Qed.

Global Instance desc_by_transitive field : Transitive (desc_by field).
Proof. intros a b c Hab Hbc. unfold desc_by in *. by etrans. Qed.



Lemma payments_history_run env o m s :
  names_document o → names_document m →
  db_configured env = true →
  store_fails env 0 = false →
  serve (payments_history env o m) s
    = (Return (respond 200 (JsonPayments
                 (payment_of <$> order_desc "createdAt" (coll_at s (o, m, "payment_intents"))))),
       s, []).
Proof.
  intros Ho Hm Hdb Hf0. unfold serve, payments_history.
  rewrite try_catch_run. repeat step.
  unfold coll_orderBy_desc_get. rewrite bind_store_call, Hf0. cbn [fst snd].
  by repeat step.
Qed.



(** * Further properties *)

(** ** Issuing a payment intent *)

Lemma create_payment_intent_run env b m o memberData customer paymentIntent s :
  validatePaymentIntent env b = [] →
  prop b "memberId" = VStr m →
  prop b "organizationId" = VStr o →
  db_configured env = true →
  store_fails env 0 = false →
  store_fails env 1 = false →
  doc_at s (o, m, "members") m = Some memberData →
  prop memberData "name" ≠ VUndef →
  customer_answer env memberData (VStr m) (VStr o) = inr customer →
  paymentIntents_create env (dues_intent_params b memberData customer) = inr paymentIntent →
  serve (create_payment_intent env b) s =
    (Return (respond 200 (JsonIntent (ci_client_secret paymentIntent) (ci_id paymentIntent))),
     add_doc (o, m, "payment_intents") (intent_record env b memberData paymentIntent) s,
     customer_calls env memberData (VStr m) (VStr o)
       ++ [Stripe (PaymentIntentsCreate (dues_intent_params b memberData customer))]).
Proof.
  intros Hval Hm Ho Hdb Hf0 Hf1 Hdoc Hname Hcust Hpi.
  destruct (doc_at_Some_reference _ _ _ _ Hdoc) as (Hon & Hmn & _). simpl in Hon, Hmn.
  destruct (valid_intent_supplied _ _ Hval) as (Hamount & Hcurrency & _ & _ & Hdescription).
  unfold serve, create_payment_intent. cbv zeta.
  rewrite try_catch_run, (isEmpty_nil_negb _ Hval), Hdb, Hm, Ho. cbv iota.
  repeat step. rewrite Hf0, Hdoc. cbv iota.
  repeat step. rewrite Hcust. cbv iota.
  unfold dues_intent_params in *. rewrite Hm, Ho in *.
  repeat step. rewrite Hpi. cbv iota.
  repeat step. rewrite Hf1. repeat step.
  unfold intent_record. rewrite Hm. by rewrite <- app_assoc.
Qed.

(** X3: when the member exists and has a name and the provider accepts,
    the dues route answers with the provider's client secret and intent
    id and adds one PaymentIntent record for the member: the requested
    amount as it came in, the provider's initial status and id, and the
    server timestamp. *)
Theorem create_intent_mirrors_provider env b m o memberData customer paymentIntent s :
  validatePaymentIntent env b = [] →
  prop b "memberId" = VStr m →
  prop b "organizationId" = VStr o →
  db_configured env = true →
  store_fails env 0 = false →
  store_fails env 1 = false →
  doc_at s (o, m, "members") m = Some memberData →
  prop memberData "name" ≠ VUndef →
  customer_answer env memberData (VStr m) (VStr o) = inr customer →
  paymentIntents_create env (dues_intent_params b memberData customer) = inr paymentIntent →
  let intents := coll_at s (o, m, "payment_intents") in
  let record := intent_record env b memberData paymentIntent in
  ∃ s',
    serve (create_payment_intent env b) s =
      (Return (respond 200 (JsonIntent (ci_client_secret paymentIntent) (ci_id paymentIntent))),
       s',
       customer_calls env memberData (VStr m) (VStr o)
         ++ [Stripe (PaymentIntentsCreate (dues_intent_params b memberData customer))]) ∧
    s' = add_doc (o, m, "payment_intents") record s ∧
    intents !! auto_id intents = None ∧
    coll_at s' (o, m, "payment_intents") = <[auto_id intents := record]> intents ∧
    doc_at s' (o, m, "payment_intents") (auto_id intents) = Some record ∧
    record !! "amount" = Some (prop b "amount") ∧
    record !! "status" = Some (VStr (ci_status paymentIntent)) ∧
    record !! "paymentIntentId" = Some (VStr (ci_id paymentIntent)) ∧
    record !! "memberName" = Some (prop memberData "name") ∧
    record !! "createdAt" = Some (VTime (server_time env)).
Proof.
  intros Hval Hm Ho Hdb Hf0 Hf1 Hdoc Hname Hcust Hpi intents record.
  destruct (doc_at_Some_reference _ _ _ _ Hdoc) as (Hon & Hmn & _). simpl in Hon, Hmn.
  eexists. split; [|split; [reflexivity|]].
  - by apply create_payment_intent_run.
  - split; [apply auto_id_fresh|]. split; [apply coll_at_add_doc_eq|].
    split; [|by repeat split].
    rewrite doc_at_reference by (repeat split; auto).
    rewrite coll_at_add_doc_eq. apply lookup_insert_eq.
Qed.

Lemma create_intent_mirrors_provider_witness :
  ∃ s',
    (serve (create_payment_intent working_env sample_intent_body) member_store).1
      = (Return (respond 200 (JsonIntent "pi_1_secret" "pi_1")), s') ∧
    size (coll_at s' ("o1", "m1", "payment_intents")) = 1.
Proof.
  destruct (create_intent_mirrors_provider working_env sample_intent_body "m1" "o1"
              sample_member {| customer_id := VStr "cus_1" |} sample_created member_store)
    as (s' & Hrun & _ & Hfresh & Hcoll & _);
    [reflexivity | reflexivity | reflexivity | reflexivity | reflexivity | reflexivity
    | reflexivity | discriminate | reflexivity | reflexivity |].
  exists s'. rewrite Hrun. split; [reflexivity|].
  rewrite Hcoll. by rewrite map_size_insert_None.
Defined.

(** X1: a body that fails its validation chain is answered 400 with the
    messages of the failed checks, in the order of the chain, before the
    store or the provider is touched; this holds for the three POST
    routes. *)
Theorem invalid_body_400 env b s :
  (validatePaymentIntent env b ≠ [] →
   serve (create_payment_intent env b) s
     = (Return (respond 400 (JsonValidation (validatePaymentIntent env b))), s, [])) ∧
  (validateExpenseSubmit env b ≠ [] →
   serve (expenses_submit env b) s
     = (Return (respond 400 (JsonValidation (validateExpenseSubmit env b))), s, [])) ∧
  (validateExpenseReimbursement env b ≠ [] →
   serve (process_reimbursement env b) s
     = (Return (respond 400 (JsonValidation (validateExpenseReimbursement env b))), s, [])).
Proof.
  split; [|split]; intros Hval.
  - unfold serve, create_payment_intent. cbv zeta. rewrite try_catch_run.
    by destruct (validatePaymentIntent env b).
  - unfold serve, expenses_submit. cbv zeta. rewrite try_catch_run.
    by destruct (validateExpenseSubmit env b).
  - unfold serve, process_reimbursement. cbv zeta. rewrite try_catch_run.
    by destruct (validateExpenseReimbursement env b).
Qed.

Lemma invalid_body_400_witness :
  serve (create_payment_intent working_env
           (object [("amount", VNum 15000); ("currency", VStr "eur"); ("memberId", VStr "m1")]))
    member_store
    = (Return (respond 400 (JsonValidation
         ["Currency must be USD"; "Organization ID is required"; "Description is required"])),
       member_store, []).
Proof.
  apply (invalid_body_400 working_env
           (object [("amount", VNum 15000); ("currency", VStr "eur"); ("memberId", VStr "m1")])
           member_store).
  discriminate.
Defined.

(** X2: the dues route answers 404 for a member id without a member
    record, and then makes no provider call and writes nothing; the ids
    of member and organization are document ids. *)
Theorem create_intent_unknown_member env b m o s :
  validatePaymentIntent env b = [] →
  prop b "memberId" = VStr m → plain_id m →
  prop b "organizationId" = VStr o → plain_id o →
  db_configured env = true →
  store_fails env 0 = false →
  doc_at s (o, m, "members") m = None →
  serve (create_payment_intent env b) s
    = (Return (respond 404 (JsonError "Member not found")), s, []).
Proof.
  intros Hval Hm Hm' Ho Ho' Hdb Hf0 Hdoc.
  unfold serve, create_payment_intent. cbv zeta.
  rewrite try_catch_run, (isEmpty_nil_negb _ Hval), Hdb, Hm, Ho. cbv iota.
  repeat step. by rewrite Hf0, Hdoc.
Qed.

Lemma create_intent_unknown_member_witness :
  serve (create_payment_intent working_env sample_intent_body) ∅
    = (Return (respond 404 (JsonError "Member not found")), ∅, []).
Proof.
  apply (create_intent_unknown_member working_env sample_intent_body "m1" "o1" ∅);
    first [by split | by unfold doc_at; case_decide].
Defined.

(** X4: when the provider rejects the customer look-up, the customer
    creation or the intent creation, the dues route answers 500 with the
    provider's message and stores no PaymentIntent record. *)
Theorem create_intent_provider_rejection env b m o memberData msg s :
  validatePaymentIntent env b = [] →
  prop b "memberId" = VStr m → m ≠ "" →
  prop b "organizationId" = VStr o → o ≠ "" →
  db_configured env = true →
  store_fails env 0 = false →
  doc_at s (o, m, "members") m = Some memberData →
  intent_answer env b memberData = inl msg →
  serve (create_payment_intent env b) s
    = (Return (failure "Failed to create payment intent" msg), s,
       intent_calls env b memberData ++ [ConsoleError "Error creating payment intent:"]).
Proof.
  intros Hval Hm Hm' Ho Ho' Hdb Hf0 Hdoc Hans.
  destruct (doc_at_Some_reference _ _ _ _ Hdoc) as (Hon & Hmn & _). simpl in Hon, Hmn.
  unfold intent_answer, intent_calls in *.
  unfold serve, create_payment_intent. cbv zeta.
  rewrite try_catch_run, (isEmpty_nil_negb _ Hval), Hdb. rewrite Hm, Ho in *. cbv iota.
  repeat step. rewrite Hf0, Hdoc. cbv iota. repeat step.
  destruct (customer_answer env memberData (VStr m) (VStr o)) as [msg'|customer].
  - injection Hans as ->. cbv iota. repeat step. by rewrite app_nil_r.
  - unfold dues_intent_params in *. rewrite Hm, Ho in *.
    cbv iota. repeat step.
    destruct (paymentIntents_create env _) as [msg'|paymentIntent]; [|discriminate].
    injection Hans as ->. cbv iota. repeat step. done.
Qed.

(** X5: when the provider has created the intent and the store then
    rejects the PaymentIntent record, the dues route answers 500 and the
    store is as it was, although the intent exists at the provider. *)
Theorem create_intent_store_rejection env b m o memberData customer paymentIntent s :
  validatePaymentIntent env b = [] →
  prop b "memberId" = VStr m → m ≠ "" →
  prop b "organizationId" = VStr o → o ≠ "" →
  db_configured env = true →
  store_fails env 0 = false →
  store_fails env 1 = true →
  doc_at s (o, m, "members") m = Some memberData →
  intent_answer env b memberData = inr (customer, paymentIntent) →
  ∃ resp tr,
    serve (create_payment_intent env b) s = (Return resp, s, tr) ∧
    status resp = 500 ∧
    Stripe (PaymentIntentsCreate (dues_intent_params b memberData customer)) ∈ tr.
Proof.
  intros Hval Hm Hm' Ho Ho' Hdb Hf0 Hf1 Hdoc Hans.
  destruct (doc_at_Some_reference _ _ _ _ Hdoc) as (Hon & Hmn & _). simpl in Hon, Hmn.
  unfold intent_answer in *.
  unfold serve, create_payment_intent. cbv zeta.
  rewrite try_catch_run, (isEmpty_nil_negb _ Hval), Hdb. rewrite Hm, Ho in *. cbv iota.
  repeat step. rewrite Hf0, Hdoc. cbv iota. repeat step.
  destruct (customer_answer env memberData (VStr m) (VStr o)) as [msg'|customer']; [discriminate|].
  unfold dues_intent_params in *. rewrite Hm, Ho in *.
  cbv iota. repeat step.
  destruct (paymentIntents_create env _) as [msg'|paymentIntent']; [discriminate|].
  injection Hans as -> ->. cbv iota. repeat step.
  match goal with
  | |- context [coll_add _ _ ?data] => destruct (decide (defined data)) as [Hd|Hd]
  end.
  - rewrite bind_coll_add by done. rewrite Hf1. repeat step.
    eexists _, _. split; [reflexivity|]. split; [done|].
    rewrite !elem_of_app. left. right. by apply list_elem_of_singleton.
  - rewrite bind_coll_add_undefined by done. repeat step.
    eexists _, _. split; [reflexivity|]. split; [done|].
    rewrite !elem_of_app. left. right. by apply list_elem_of_singleton.
Qed.

Lemma create_intent_provider_rejection_witness :
  (serve (create_payment_intent
            (strict_env true never (inl "Your card was declined.") (inr sample_transfer))
            sample_intent_body) member_store).1
    = (Return (failure "Failed to create payment intent" "Your card was declined."), member_store).
Proof.
  by rewrite (create_intent_provider_rejection
                (strict_env true never (inl "Your card was declined.") (inr sample_transfer))
                sample_intent_body "m1" "o1" sample_member "Your card was declined." member_store)
    by (reflexivity || discriminate).
Defined.

Lemma create_intent_store_rejection_witness :
  ∃ resp tr,
    serve (create_payment_intent
             (strict_env true second_call_fails (inr sample_created) (inr sample_transfer))
             sample_intent_body) member_store
      = (Return resp, member_store, tr) ∧
    status resp = 500 ∧
    Stripe (PaymentIntentsCreate
              (dues_intent_params sample_intent_body sample_member {| customer_id := VStr "cus_1" |}))
      ∈ tr.
Proof.
  apply (create_intent_store_rejection
           (strict_env true second_call_fails (inr sample_created) (inr sample_transfer))
           sample_intent_body "m1" "o1" sample_member {| customer_id := VStr "cus_1" |}
           sample_created member_store);
    (reflexivity || discriminate).
Defined.

(** X6: without a configured store the dues route neither reads nor writes
    records and never answers 404: whatever member id is sent, it resolves
    the customer of demo@example.com, named Demo Member, and answers with
    the provider's intent, or with 500 and the provider's message. *)
Theorem create_intent_demo_mode env b s :
  validatePaymentIntent env b = [] →
  db_configured env = false →
  serve (create_payment_intent env b) s =
    (Return match intent_answer env b demo_member with
            | inl msg => failure "Failed to create payment intent" msg
            | inr (_, paymentIntent) =>
                respond 200 (JsonIntent (ci_client_secret paymentIntent) (ci_id paymentIntent))
            end,
     s,
     ConsoleLog "Running in demo mode - using default member data"
       :: intent_calls env b demo_member
       ++ match intent_answer env b demo_member with
          | inl _ => [ConsoleError "Error creating payment intent:"]
          | inr _ => []
          end).
Proof.
  intros Hval Hdb.
  unfold intent_answer, intent_calls, demo_member, dues_intent_params.
  unfold serve, create_payment_intent. cbv zeta.
  rewrite try_catch_run, (isEmpty_nil_negb _ Hval), Hdb. cbv iota.
  repeat step.
  destruct (customer_answer env _ _ _) as [msg|customer]; cbv iota.
  { repeat step. by rewrite !app_nil_r. }
  repeat step.
  destruct (paymentIntents_create env _) as [msg|paymentIntent]; cbv iota.
  { repeat step. by rewrite <- !app_assoc. }
  repeat step. by rewrite app_nil_r.
Qed.

Lemma create_intent_demo_mode_witness :
  (serve (create_payment_intent (strict_env false never (inr sample_created) (inr sample_transfer))
            sample_intent_body) ∅).1
    = (Return (respond 200 (JsonIntent "pi_1_secret" "pi_1")), ∅).
Proof.
  by rewrite (create_intent_demo_mode
                (strict_env false never (inr sample_created) (inr sample_transfer))
                sample_intent_body ∅) by reflexivity.
Defined.

(** ** Submitting an expense *)

Lemma expense_response_200 env b memberData : status (expense_response env b memberData) = 200.
Proof.
  unfold expense_response. destruct (key_missing env); [done|].
  by destruct (expense_answer env b memberData) as [|[]].
Qed.

(** The part of the submission route that follows the member look-up. *)
Ltac run_charge :=
  unfold expense_response, expense_trace, expense_answer, expense_intent_params, key_missing;
  let Hkey := fresh "Hkey" in
  match goal with
  | |- context [negb (truthy (STRIPE_SECRET_KEY ?env)) || strict_eq_str (STRIPE_SECRET_KEY ?env) ?p] =>
      destruct (negb (truthy (STRIPE_SECRET_KEY env)) || strict_eq_str (STRIPE_SECRET_KEY env) p)
        eqn:Hkey
  end;
  [ cbv iota; repeat step; try done
  | apply orb_false_elim in Hkey as [Hkey _]; rewrite Hkey; cbv iota beta delta [negb orb];
    rewrite try_catch_run; repeat step;
    match goal with
    | |- context [customer_answer ?env ?md ?m ?o] => destruct (customer_answer env md m o)
    end; cbv iota;
    [ repeat step; try done
    | repeat step;
      match goal with
      | |- context [paymentIntents_create ?env ?p] => destruct (paymentIntents_create env p)
      end; cbv iota; repeat step; try done ] ].

(** X7: without a configured store, a valid expense submission is always
    answered 200 and never touches the store: with the mock intent when
    the provider key is missing or the placeholder (and then without any
    provider call) or when the provider rejects a call, with the
    provider's intent otherwise. *)
Theorem expense_submit_demo_mode env b s :
  validateExpenseSubmit env b = [] →
  db_configured env = false →
  serve (expenses_submit env b) s
    = (Return (expense_response env b (submitter_member b)), s,
       expense_trace env b (submitter_member b)) ∧
  status (expense_response env b (submitter_member b)) = 200 ∧
  (key_missing env = true → ∀ c, Stripe c ∉ expense_trace env b (submitter_member b)).
Proof.
  intros Hval Hdb. split; [|split; [apply expense_response_200|]].
  - unfold serve, expenses_submit, submitter_member. cbv zeta.
    rewrite try_catch_run, (isEmpty_nil_negb _ Hval), Hdb. cbv iota.
    repeat step.
    run_charge.
    all: by rewrite ?app_nil_r, <- ?app_assoc.
  - intros Hkey c. unfold expense_trace. rewrite Hkey.
    intros Hin%list_elem_of_singleton. discriminate.
Qed.

Lemma expense_submit_demo_mode_witness :
  (serve (expenses_submit (strict_env false never (inl "card_declined") (inr sample_transfer))
            sample_expense_body) ∅).1
    = (Return (demo_expense (strict_env false never (inl "card_declined") (inr sample_transfer))
                 "Expense submitted successfully! (Demo mode - Stripe error handled)"), ∅).
Proof.
  destruct (expense_submit_demo_mode
              (strict_env false never (inl "card_declined") (inr sample_transfer))
              sample_expense_body ∅) as [Hrun _]; [reflexivity | reflexivity |].
  by rewrite Hrun.
Defined.

Lemma expenses_submit_run env b m o s :
  validateExpenseSubmit env b = [] →
  prop b "memberId" = VStr m → names_document m →
  prop b "organizationId" = VStr o → names_document o →
  db_configured env = true →
  store_fails env 0 = false →
  store_fails env 1 = false →
  let memberData := default (submitter_member b) (doc_at s (o, m, "members") m) in
  serve (expenses_submit env b) s
    = (Return (expense_response env b memberData),
       add_doc (o, m, "expenses") (expense_record env b) s,
       expense_trace env b memberData).
Proof.
  intros Hval Hm Hm' Ho Ho' Hdb Hf0 Hf1 memberData.
  destruct (valid_submission_supplied _ _ Hval) as (Hname & Hcategory & Hdescription & _).
  unfold serve, expenses_submit. cbv zeta.
  rewrite try_catch_run, (isEmpty_nil_negb _ Hval), Hdb. cbv iota.
  unfold expense_response, expense_trace, expense_answer, expense_intent_params,
    memberData, submitter_member, expense_record.
  rewrite Hm, Ho.
  repeat step. rewrite Hf0. repeat step. rewrite Hf1. repeat step.
  rewrite doc_at_add_doc_ne by congruence.
  run_charge.
  all: by rewrite ?app_nil_r, <- ?app_assoc.
Qed.

(** X8: with a working store, a valid expense submission whose member
    and organization ids are document ids stores the expense as Pending,
    with the parsed amount, before anything else, and is answered 200
    whether or not a member record exists and whatever the provider
    does; the member record, when there is one, only supplies the
    customer's name and address.  The stored record is found under the
    id the store chose. *)
Theorem expense_submit_stores_pending env b m o s :
  validateExpenseSubmit env b = [] →
  prop b "memberId" = VStr m → plain_id m →
  prop b "organizationId" = VStr o → plain_id o →
  db_configured env = true →
  store_fails env 0 = false →
  store_fails env 1 = false →
  let expenses := coll_at s (o, m, "expenses") in
  let memberData := default (submitter_member b) (doc_at s (o, m, "members") m) in
  ∃ s',
    serve (expenses_submit env b) s
      = (Return (expense_response env b memberData), s', expense_trace env b memberData) ∧
    status (expense_response env b memberData) = 200 ∧
    s' = add_doc (o, m, "expenses") (expense_record env b) s ∧
    expenses !! auto_id expenses = None ∧
    coll_at s' (o, m, "expenses") = <[auto_id expenses := expense_record env b]> expenses ∧
    doc_at s' (o, m, "expenses") (auto_id expenses) = Some (expense_record env b) ∧
    expense_record env b !! "status" = Some (VStr "Pending") ∧
    expense_record env b !! "amount" = Some (VNum (parseFloat env (prop b "amount"))).
Proof.
  intros Hval Hm Hm' Ho Ho' Hdb Hf0 Hf1 expenses memberData.
  eexists. split; [|split; [apply expense_response_200|split; [reflexivity|]]].
  - apply expenses_submit_run; auto.
  - split; [apply auto_id_fresh|]. split; [apply coll_at_add_doc_eq|].
    split; [by apply doc_at_add_doc_new; auto|]. by split.
Qed.

Lemma expense_submit_stores_pending_witness :
  ∃ s',
    (serve (expenses_submit working_env sample_expense_body) ∅).1.2 = s' ∧
    size (coll_at s' ("o1", "m1", "expenses")) = 1.
Proof.
  destruct (expense_submit_stores_pending working_env sample_expense_body "m1" "o1" ∅)
    as (s' & Hrun & _ & _ & Hfresh & Hcoll & _);
    [reflexivity | reflexivity | by split | reflexivity | by split
    | reflexivity | reflexivity | reflexivity |].
  exists s'. rewrite Hrun. split; [reflexivity|].
  rewrite Hcoll. by rewrite map_size_insert_None.
Defined.

(** ** Metadata on issued intents *)

Lemma resolve_customer_appends ok env memberData memberId organizationId :
  (∀ e, (∀ params, e ≠ Stripe (PaymentIntentsCreate params)) → ok e) →
  steps (appends ok) (resolve_customer env memberData memberId organizationId).
Proof.
  intros Hok. unfold resolve_customer.
  steps_with ltac:(apply appends_emit; apply Hok; discriminate).
Qed.

Lemma resolve_customer_creates ok env memberData memberId organizationId :
  steps (appends (creates ok)) (resolve_customer env memberData memberId organizationId).
Proof.
  apply resolve_customer_appends. intros [] Hne; simpl; try done.
  destruct c; try done. by destruct (Hne params).
Qed.

Ltac sent_prim :=
  first [ apply appends_store_call
        | apply resolve_customer_creates
        | apply appends_emit; simpl;
          first [ done
                | unfold identifying, carries_ids, sent; repeat split;
                  first [ assumption | discriminate | reflexivity
                        | by eexists
                        | by eexists; split; [reflexivity|] ] ] ].

Lemma create_payment_intent_appends env b :
  steps (appends (creates (carries_ids (prop b "memberId") (prop b "organizationId")
                             (VStr "dues"))))
    (create_payment_intent env b).
Proof.
  unfold create_payment_intent, ref_get, coll_add. cbv zeta.
  destruct (negb (isEmpty (validatePaymentIntent env b))) eqn:Hneg.
  { steps_with sent_prim. }
  assert (Hval : validatePaymentIntent env b = [])
    by (by destruct (validatePaymentIntent env b)).
  destruct (valid_intent_supplied _ _ Hval) as (_ & _ & Hm & Ho & _).
  steps_with sent_prim.
Qed.

Lemma expenses_submit_appends env b :
  steps (appends (creates (carries_ids (prop b "memberId") (prop b "organizationId")
                             (VStr "expense"))))
    (expenses_submit env b).
Proof.
  unfold expenses_submit, ref_get, coll_add. cbv zeta.
  destruct (negb (isEmpty (validateExpenseSubmit env b))) eqn:Hneg.
  { steps_with sent_prim. }
  assert (Hval : validateExpenseSubmit env b = [])
    by (by destruct (validateExpenseSubmit env b)).
  destruct (valid_submission_supplied _ _ Hval) as (_ & _ & _ & Hm & Ho).
  steps_with sent_prim.
Qed.

(** Without a store the routes use a member of their own, who has a name. *)
Lemma create_payment_intent_appends_demo env b :
  db_configured env = false →
  steps (appends (creates (identifying (prop b "memberId") (prop b "organizationId")
                             (VStr "dues"))))
    (create_payment_intent env b).
Proof.
  intros Hdb. unfold create_payment_intent, ref_get, coll_add. cbv zeta. rewrite Hdb.
  destruct (negb (isEmpty (validatePaymentIntent env b))) eqn:Hneg.
  { steps_with sent_prim. }
  assert (Hval : validatePaymentIntent env b = [])
    by (by destruct (validatePaymentIntent env b)).
  destruct (valid_intent_supplied _ _ Hval) as (_ & _ & Hm & Ho & _).
  steps_with sent_prim.
Qed.

Lemma expenses_submit_appends_demo env b :
  db_configured env = false →
  steps (appends (creates (identifying (prop b "memberId") (prop b "organizationId")
                             (VStr "expense"))))
    (expenses_submit env b).
Proof.
  intros Hdb. unfold expenses_submit, ref_get, coll_add. cbv zeta. rewrite Hdb.
  destruct (negb (isEmpty (validateExpenseSubmit env b))) eqn:Hneg.
  { steps_with sent_prim. }
  assert (Hval : validateExpenseSubmit env b = [])
    by (by destruct (validateExpenseSubmit env b)).
  destruct (valid_submission_supplied _ _ Hval) as (Hname & _ & _ & Hm & Ho).
  steps_with sent_prim.
Qed.

Lemma serve_appends {A} ok (m : M A) s :
  steps (appends ok) m → Forall ok (serve m s).2.
Proof.
  intros Hm. unfold serve.
  destruct (Hm {| store := s; ops := 0; trace := [] |}) as (tr & Htr & Hok).
  destruct (m _) as [r st]. simpl in *. by rewrite Htr.
Qed.

Lemma serve_creates {A} ok (m : M A) s params :
  steps (appends (creates ok)) m →
  Stripe (PaymentIntentsCreate params) ∈ (serve m s).2 → ok params.
Proof.
  intros Hm Hin. pose proof (serve_appends _ _ s Hm) as Hall.
  rewrite Forall_forall in Hall. apply (Hall _ Hin).
Qed.

(** Looking up the customer creates no intent. *)
Lemma customer_calls_create env memberData memberId organizationId params :
  Stripe (PaymentIntentsCreate params) ∉ customer_calls env memberData memberId organizationId.
Proof.
  unfold customer_calls. intros [Hin|Hin]%elem_of_cons; [discriminate|].
  destruct (customers_list env _) as [|[|]]; try by apply elem_of_nil in Hin.
  apply list_elem_of_singleton in Hin. discriminate.
Qed.

(** The [paymentIntents.create] calls of a trace that has been computed. *)
Ltac find_create Hin :=
  repeat first
    [ by apply customer_calls_create in Hin
    | by apply elem_of_nil in Hin
    | apply elem_of_app in Hin as [Hin|Hin]
    | apply elem_of_cons in Hin as [Hin|Hin]
    | discriminate Hin ];
  try (injection Hin as ->).

(** With a member record, the dues route creates intents for that member
    only. *)
Lemma create_payment_intent_creates env b m o memberData params s :
  db_configured env = true →
  prop b "memberId" = VStr m →
  prop b "organizationId" = VStr o →
  doc_at s (o, m, "members") m = Some memberData →
  Stripe (PaymentIntentsCreate params) ∈ (serve (create_payment_intent env b) s).2 →
  ∃ customer, params = dues_intent_params b memberData customer.
Proof.
  intros Hdb Hm Ho Hdoc.
  destruct (doc_at_Some_reference _ _ _ _ Hdoc) as (Hon & Hmn & _). simpl in Hon, Hmn.
  unfold serve, create_payment_intent. cbv zeta. rewrite try_catch_run.
  destruct (negb (isEmpty (validatePaymentIntent env b))) eqn:Hneg.
  { repeat step. intros Hin. find_create Hin. }
  rewrite Hdb, Hm, Ho. cbv iota. repeat step.
  destruct (store_fails env 0) eqn:Hf0.
  { repeat step. intros Hin. find_create Hin. }
  rewrite Hdoc. cbv iota. repeat step.
  destruct (customer_answer env memberData (VStr m) (VStr o)) as [msg|customer] eqn:Hcust;
    cbv iota.
  { repeat step. intros Hin. find_create Hin. }
  repeat step.
  destruct (paymentIntents_create env _) as [msg|paymentIntent] eqn:Hpi; cbv iota.
  { repeat step. intros Hin. find_create Hin.
    exists customer. unfold dues_intent_params. by rewrite Hm, Ho. }
  repeat step.
  match goal with
  | |- context [coll_add _ _ ?data] => destruct (decide (defined data)) as [Hd|Hd]
  end.
  - rewrite bind_coll_add by done.
    destruct (store_fails env 1) eqn:Hf1; repeat step; intros Hin; find_create Hin;
      exists customer; unfold dues_intent_params; by rewrite Hm, Ho.
  - rewrite bind_coll_add_undefined by done. repeat step. intros Hin. find_create Hin.
    exists customer. unfold dues_intent_params. by rewrite Hm, Ho.
Qed.

(** With a store, the expense submission creates intents for the member
    record, or for the submitter when there is no such record. *)
Lemma expenses_submit_creates env b m o params s :
  db_configured env = true →
  prop b "memberId" = VStr m → plain_id m →
  prop b "organizationId" = VStr o → plain_id o →
  Stripe (PaymentIntentsCreate params) ∈ (serve (expenses_submit env b) s).2 →
  ∃ customer,
    params = expense_intent_params env b
               (default (submitter_member b) (doc_at s (o, m, "members") m)) customer.
Proof.
  intros Hdb Hm Hm' Ho Ho'.
  destruct (negb (isEmpty (validateExpenseSubmit env b))) eqn:Hneg.
  { unfold serve, expenses_submit. cbv zeta. rewrite try_catch_run, Hneg.
    repeat step. intros Hin. find_create Hin. }
  assert (Hval : validateExpenseSubmit env b = [])
    by (by destruct (validateExpenseSubmit env b)).
  destruct (valid_submission_supplied _ _ Hval) as (Hname & Hcategory & Hdescription & _).
  destruct (store_fails env 0) eqn:Hf0; [|destruct (store_fails env 1) eqn:Hf1].
  - unfold serve, expenses_submit. cbv zeta. rewrite try_catch_run, Hneg, Hdb, Hm, Ho.
    cbv iota. repeat step. rewrite Hf0. repeat step. intros Hin. find_create Hin.
  - unfold serve, expenses_submit. cbv zeta. rewrite try_catch_run, Hneg, Hdb, Hm, Ho.
    cbv iota. repeat step. rewrite Hf0. repeat step. rewrite Hf1. repeat step.
    intros Hin. find_create Hin.
  - rewrite (expenses_submit_run env b m o) by auto. cbn [snd].
    unfold expense_trace. destruct (key_missing env); intros Hin; [find_create Hin|].
    apply elem_of_app in Hin as [Hin|Hin]; [by apply customer_calls_create in Hin|].
    destruct (customer_answer env _ _ _) as [msg|customer]; [find_create Hin|].
    apply elem_of_cons in Hin as [Hin|Hin]; [injection Hin as ->; by exists customer|].
    destruct (paymentIntents_create env _); find_create Hin.
Qed.

Lemma identifying_named memberId organizationId paymentType params name :
  carries_ids memberId organizationId paymentType params →
  ip_metadata params !! "memberName" = Some name →
  identifying memberId organizationId paymentType params ↔ name ≠ VUndef.
Proof.
  intros (Hm & Ho & Ht & _) Hname. split.
  - intros (_ & _ & _ & name' & Hname' & Hdef). congruence.
  - intros Hdef. repeat split; try apply Hm; try apply Ho; try apply Ht.
    by exists name.
Qed.

(** C7 (as the code has it): every intent that the dues route or the
    expense submission creates at the provider is sent the request's
    memberId and organizationId and the paymentType (dues, expense), and
    its metadata literal has a memberName.  The memberName is the name of
    the member the route uses: without a store the routes use the demo
    member or the submitter, and the name is sent; with a store it is the
    name field of the member record (for the expense submission, the
    submitter's name when there is no record), and it is sent exactly
    when that field is there. *)
Theorem issued_intents_carry_join_key env b s :
  let dues := (serve (create_payment_intent env b) s).2 in
  let expense := (serve (expenses_submit env b) s).2 in
  (∀ params,
     Stripe (PaymentIntentsCreate params) ∈ dues →
     carries_ids (prop b "memberId") (prop b "organizationId") (VStr "dues") params) ∧
  (∀ params,
     Stripe (PaymentIntentsCreate params) ∈ expense →
     carries_ids (prop b "memberId") (prop b "organizationId") (VStr "expense") params) ∧
  (db_configured env = false →
   (∀ params,
      Stripe (PaymentIntentsCreate params) ∈ dues →
      identifying (prop b "memberId") (prop b "organizationId") (VStr "dues") params) ∧
   (∀ params,
      Stripe (PaymentIntentsCreate params) ∈ expense →
      identifying (prop b "memberId") (prop b "organizationId") (VStr "expense") params)) ∧
  (∀ m o memberData params,
     db_configured env = true →
     prop b "memberId" = VStr m →
     prop b "organizationId" = VStr o →
     doc_at s (o, m, "members") m = Some memberData →
     Stripe (PaymentIntentsCreate params) ∈ dues →
     ip_metadata params !! "memberName" = Some (prop memberData "name") ∧
     (identifying (prop b "memberId") (prop b "organizationId") (VStr "dues") params
      ↔ prop memberData "name" ≠ VUndef)) ∧
  (∀ m o params,
     db_configured env = true →
     prop b "memberId" = VStr m → plain_id m →
     prop b "organizationId" = VStr o → plain_id o →
     Stripe (PaymentIntentsCreate params) ∈ expense →
     let memberData := default (submitter_member b) (doc_at s (o, m, "members") m) in
     ip_metadata params !! "memberName" = Some (prop memberData "name") ∧
     (identifying (prop b "memberId") (prop b "organizationId") (VStr "expense") params
      ↔ prop memberData "name" ≠ VUndef)).
Proof.
  intros dues expense.
  assert (Hdues : ∀ params,
            Stripe (PaymentIntentsCreate params) ∈ dues →
            carries_ids (prop b "memberId") (prop b "organizationId") (VStr "dues") params).
  { intros params. apply serve_creates, create_payment_intent_appends. }
  assert (Hexpense : ∀ params,
            Stripe (PaymentIntentsCreate params) ∈ expense →
            carries_ids (prop b "memberId") (prop b "organizationId") (VStr "expense") params).
  { intros params. apply serve_creates, expenses_submit_appends. }
  split; [exact Hdues|]. split; [exact Hexpense|]. split; [|split].
  - intros Hdb. split; intros params.
    + by apply serve_creates, create_payment_intent_appends_demo.
    + by apply serve_creates, expenses_submit_appends_demo.
  - intros m o memberData params Hdb Hm Ho Hdoc Hin.
    destruct (create_payment_intent_creates env b m o memberData params s)
      as [customer ->]; try done.
    assert (Hname : ip_metadata (dues_intent_params b memberData customer) !! "memberName"
                    = Some (prop memberData "name")) by reflexivity.
    split; [exact Hname|]. apply identifying_named; [by apply Hdues|exact Hname].
  - intros m o params Hdb Hm Hm' Ho Ho' Hin memberData.
    destruct (expenses_submit_creates env b m o params s) as [customer ->]; try done.
    assert (Hname : ip_metadata (expense_intent_params env b memberData customer) !! "memberName"
                    = Some (prop memberData "name")) by reflexivity.
    split; [exact Hname|]. apply identifying_named; [by apply Hexpense|exact Hname].
Qed.

Lemma issued_intents_carry_join_key_witness :
  ∃ params,
    (serve (create_payment_intent working_env sample_intent_body) member_store).2
      !! 2 = Some (Stripe (PaymentIntentsCreate params)) ∧
    ip_metadata params !! "memberName" = Some (VStr "Test") ∧
    identifying (VStr "m1") (VStr "o1") (VStr "dues") params.
Proof.
  eexists. split; [reflexivity|].
  destruct (issued_intents_carry_join_key working_env sample_intent_body member_store)
    as (_ & _ & _ & Hmember & _).
  destruct (Hmember "m1" "o1" sample_member
              (dues_intent_params sample_intent_body sample_member
                 {| customer_id := VStr "cus_1" |}))
    as [Hname Hiff];
    [reflexivity | reflexivity | reflexivity | reflexivity
    | apply list_elem_of_lookup; exists 2; reflexivity |].
  split; [exact Hname|]. by apply Hiff.
Defined.

(** C7 (as stated) fails: for a member record without a name the dues
    route creates an intent whose memberName is [undefined], which is not
    sent; the intent exists at the provider without a member name (the
    append of its PaymentIntent record is then rejected, and the route
    answers 500). *)
Lemma nameless_member_intent_unidentified : ¬ issued_intents_identified.
Proof.
  intros Hall.
  destruct (Hall working_env sample_intent_body nameless_store
              (dues_intent_params sample_intent_body nameless_member
                 {| customer_id := VStr "cus_1" |})) as [Hdues _].
  destruct Hdues as (_ & _ & _ & name & Hname & Hdef).
  { apply list_elem_of_lookup. exists 2. reflexivity. }
  assert (Hundef : ip_metadata (dues_intent_params sample_intent_body nameless_member
                                  {| customer_id := VStr "cus_1" |}) !! "memberName"
                   = Some VUndef) by reflexivity.
  rewrite Hundef in Hname. injection Hname as <-. done.
Qed.

(** ** Reimbursing an expense *)

(** The run of the reimbursement route up to the answer of the provider. *)
Ltac run_reimbursement Hval Hm Ho Hdb Hf0 Hdoc :=
  unfold serve, process_reimbursement; cbv zeta;
  rewrite try_catch_run, (isEmpty_nil_negb _ Hval); rewrite ?Hm, ?Ho in *; cbv iota;
  repeat step; rewrite Hf0, Hdoc; cbv iota; repeat step.

Lemma process_reimbursement_run env b m o e memberData customer transfer s :
  validateExpenseReimbursement env b = [] →
  prop b "memberId" = VStr m → names_document m →
  prop b "organizationId" = VStr o → names_document o →
  prop b "expenseId" = VStr e → names_document e →
  db_configured env = true →
  store_fails env 0 = false →
  store_fails env 1 = false →
  doc_at s (o, m, "members") m = Some memberData →
  reimbursement_answer env b memberData = inr (customer, transfer) →
  serve (process_reimbursement env b) s
    = (Return (respond 200 (JsonTransfer (transfer_id transfer)
                              "Reimbursement processed successfully")),
       set_merge (o, m, "expenses") e (reimbursed_fields env b transfer) s,
       reimbursement_calls env b memberData).
Proof.
  intros Hval Hm Hm' Ho Ho' He He' Hdb Hf0 Hf1 Hdoc Hans.
  unfold reimbursement_answer, reimbursement_calls in *.
  run_reimbursement Hval Hm Ho Hdb Hf0 Hdoc.
  destruct (customer_answer env memberData (VStr m) (VStr o)) as [msg|customer']; [discriminate|].
  unfold reimbursement_params in *. rewrite ?Hm, ?Ho in *. cbv iota. repeat step.
  destruct (transfers_create env _) as [msg|transfer']; [discriminate|].
  injection Hans as -> ->. cbv iota. rewrite He. repeat step. rewrite Hf1. repeat step.
  done.
Qed.

(** X9: when the member exists, the provider accepts the transfer and
    expenseId is a document id, the reimbursement route merges status
    Reimbursed, the reimbursement date, the transfer id and the receipt
    URL into the expense record named by expenseId, creating that record
    when there is none, and answers with the transfer id. *)
Theorem reimbursement_marks_expense env b m o e memberData customer transfer s :
  validateExpenseReimbursement env b = [] →
  prop b "memberId" = VStr m → plain_id m →
  prop b "organizationId" = VStr o → plain_id o →
  prop b "expenseId" = VStr e → plain_id e →
  db_configured env = true →
  store_fails env 0 = false →
  store_fails env 1 = false →
  doc_at s (o, m, "members") m = Some memberData →
  reimbursement_answer env b memberData = inr (customer, transfer) →
  ∃ s' expense,
    serve (process_reimbursement env b) s
      = (Return (respond 200 (JsonTransfer (transfer_id transfer)
                                "Reimbursement processed successfully")),
         s', reimbursement_calls env b memberData) ∧
    s' = set_merge (o, m, "expenses") e (reimbursed_fields env b transfer) s ∧
    doc_at s' (o, m, "expenses") e = Some expense ∧
    expense = reimbursed_fields env b transfer ∪ default ∅ (doc_at s (o, m, "expenses") e) ∧
    expense !! "status" = Some (VStr "Reimbursed") ∧
    expense !! "transferId" = Some (VStr (transfer_id transfer)) ∧
    expense !! "reimbursementDate" = Some (VStr (today env)).
Proof.
  intros Hval Hm Hm' Ho Ho' He He' Hdb Hf0 Hf1 Hdoc Hans.
  eexists _, _. split; [|split; [reflexivity|split; [by apply doc_at_set_merge_eq; auto|]]].
  - eapply process_reimbursement_run; eauto.
  - split; [done|]. repeat split; by apply lookup_union_Some_l.
Qed.

Lemma reimbursement_marks_expense_witness :
  ∃ s' expense,
    (serve (process_reimbursement working_env (sample_reimbursement (VStr "e1"))) member_store).1
      = (Return (respond 200 (JsonTransfer "tr_1" "Reimbursement processed successfully")),
         s') ∧
    doc_at s' ("o1", "m1", "expenses") "e1" = Some expense ∧
    expense !! "status" = Some (VStr "Reimbursed").
Proof.
  destruct (reimbursement_marks_expense working_env (sample_reimbursement (VStr "e1"))
              "m1" "o1" "e1" sample_member {| customer_id := VStr "cus_1" |} sample_transfer
              member_store)
    as (s' & expense & Hrun & _ & Hdoc & _ & Hstatus & _);
    [reflexivity | reflexivity | by split | reflexivity | by split
    | reflexivity | by split | reflexivity | reflexivity | reflexivity | reflexivity
    | reflexivity |].
  exists s', expense. rewrite Hrun. by repeat split.
Defined.

(** X10: when the provider rejects the customer look-up, the customer
    creation or the transfer, the reimbursement route answers 500 with the
    provider's message and leaves the expense records as they were. *)
Theorem reimbursement_provider_rejection env b m o memberData msg s :
  validateExpenseReimbursement env b = [] →
  prop b "memberId" = VStr m → m ≠ "" →
  prop b "organizationId" = VStr o → o ≠ "" →
  db_configured env = true →
  store_fails env 0 = false →
  doc_at s (o, m, "members") m = Some memberData →
  reimbursement_answer env b memberData = inl msg →
  serve (process_reimbursement env b) s
    = (Return (failure "Failed to process reimbursement" msg), s,
       reimbursement_calls env b memberData ++ [ConsoleError "Error processing reimbursement:"]).
Proof.
  intros Hval Hm Hm' Ho Ho' Hdb Hf0 Hdoc Hans.
  destruct (doc_at_Some_reference _ _ _ _ Hdoc) as (Hon & Hmn & _). simpl in Hon, Hmn.
  unfold reimbursement_answer, reimbursement_calls in *.
  run_reimbursement Hval Hm Ho Hdb Hf0 Hdoc.
  destruct (customer_answer env memberData (VStr m) (VStr o)) as [msg'|customer].
  - injection Hans as ->. cbv iota. repeat step. by rewrite app_nil_r.
  - unfold reimbursement_params in *. rewrite ?Hm, ?Ho in *. cbv iota. repeat step.
    destruct (transfers_create env _) as [msg'|transfer]; [|discriminate].
    injection Hans as ->. cbv iota. repeat step. done.
Qed.

Lemma reimbursement_provider_rejection_witness :
  (serve (process_reimbursement
            (strict_env true never (inr sample_created) (inl "Insufficient funds"))
            (sample_reimbursement (VStr "e1"))) member_store).1
    = (Return (failure "Failed to process reimbursement" "Insufficient funds"), member_store).
Proof.
  by rewrite (reimbursement_provider_rejection
                (strict_env true never (inr sample_created) (inl "Insufficient funds"))
                (sample_reimbursement (VStr "e1")) "m1" "o1" sample_member "Insufficient funds"
                member_store)
    by (reflexivity || discriminate).
Defined.

(** X11: the transfer comes before the expense record is addressed: when
    the request names no usable expenseId (the chain does not check it) or
    the store rejects the write, the route answers 500 and marks no
    expense although the transfer has been made; nothing undoes it. *)
Theorem reimbursement_not_rolled_back env b m o memberData customer transfer s :
  validateExpenseReimbursement env b = [] →
  prop b "memberId" = VStr m → m ≠ "" →
  prop b "organizationId" = VStr o → o ≠ "" →
  db_configured env = true →
  store_fails env 0 = false →
  doc_at s (o, m, "members") m = Some memberData →
  reimbursement_answer env b memberData = inr (customer, transfer) →
  (prop b "expenseId" = VUndef ∨ prop b "expenseId" = VStr "" ∨ store_fails env 1 = true) →
  ∃ resp,
    serve (process_reimbursement env b) s
      = (Return resp, s,
         reimbursement_calls env b memberData ++ [ConsoleError "Error processing reimbursement:"]) ∧
    status resp = 500 ∧
    Stripe (TransfersCreate (reimbursement_params env b memberData customer))
      ∈ reimbursement_calls env b memberData.
Proof.
  intros Hval Hm Hm' Ho Ho' Hdb Hf0 Hdoc Hans Hbad.
  destruct (doc_at_Some_reference _ _ _ _ Hdoc) as (Hon & Hmn & _). simpl in Hon, Hmn.
  unfold reimbursement_answer, reimbursement_calls in *.
  assert (Hin : Stripe (TransfersCreate (reimbursement_params env b memberData customer))
                ∈ customer_calls env memberData (prop b "memberId") (prop b "organizationId") ++
                  match customer_answer env memberData (prop b "memberId")
                          (prop b "organizationId") with
                  | inl _ => []
                  | inr customer0 =>
                      [Stripe (TransfersCreate (reimbursement_params env b memberData customer0))]
                  end).
  { destruct (customer_answer env memberData _ _) as [|customer']; [discriminate|].
    destruct (transfers_create env _); [discriminate|]. injection Hans as -> ->.
    apply elem_of_app. right. by apply list_elem_of_singleton. }
  cut (∃ resp,
         serve (process_reimbursement env b) s
           = (Return resp, s,
              (customer_calls env memberData (prop b "memberId") (prop b "organizationId") ++
               match customer_answer env memberData (prop b "memberId")
                       (prop b "organizationId") with
               | inl _ => []
               | inr customer0 =>
                   [Stripe (TransfersCreate (reimbursement_params env b memberData customer0))]
               end) ++ [ConsoleError "Error processing reimbursement:"]) ∧
         status resp = 500).
  { intros (resp & Hrun & Hstatus). by exists resp. }
  clear Hin.
  run_reimbursement Hval Hm Ho Hdb Hf0 Hdoc.
  destruct (customer_answer env memberData (VStr m) (VStr o)) as [msg|customer']; [discriminate|].
  unfold reimbursement_params in *. rewrite ?Hm, ?Ho in *. cbv iota. repeat step.
  destruct (transfers_create env _) as [msg|transfer']; [discriminate|].
  injection Hans as -> ->. cbv iota.
  repeat step.
  rewrite bind_pure by apply doc_id_pure.
  destruct (document_of (prop b "expenseId")) as [e|] eqn:He.
  - rewrite (doc_id_document _ _ _ He). cbn [fst]. cbv iota.
    assert (Hf1 : store_fails env 1 = true).
    { destruct Hbad as [Hu|[Hu|Hf1]]; [by rewrite Hu in He|by rewrite Hu in He|done]. }
    repeat step. rewrite Hf1. repeat step. by eexists.
  - destruct (doc_id_rejects _ He) as [err Herr]. rewrite Herr. cbn [fst]. cbv iota.
    repeat step. by eexists.
Qed.

Lemma reimbursement_not_rolled_back_witness :
  ∃ resp,
    (serve (process_reimbursement working_env (sample_reimbursement VUndef)) member_store).1
      = (Return resp, member_store) ∧
    status resp = 500 ∧
    Stripe (TransfersCreate
              (reimbursement_params working_env (sample_reimbursement VUndef) sample_member
                 {| customer_id := VStr "cus_1" |}))
      ∈ (serve (process_reimbursement working_env (sample_reimbursement VUndef)) member_store).2.
Proof.
  destruct (reimbursement_not_rolled_back working_env (sample_reimbursement VUndef)
              "m1" "o1" sample_member {| customer_id := VStr "cus_1" |} sample_transfer
              member_store)
    as (resp & Hrun & Hstatus & Hin);
    [reflexivity | reflexivity | discriminate | reflexivity | discriminate
    | reflexivity | reflexivity | reflexivity | reflexivity | by left |].
  exists resp. rewrite Hrun. split; [reflexivity|]. split; [exact Hstatus|].
  apply elem_of_app. by left.
Defined.

(** ** Events that write nothing *)

(** X12: a verified event of any type other than the three handled ones is
    acknowledged with {received: true}; no handler is entered and nothing
    is written. *)
Theorem webhook_unhandled_event env raw sig ev s :
  constructEvent env raw sig (STRIPE_WEBHOOK_SECRET env) = inr ev →
  ev_type ev ≠ "payment_intent.succeeded" →
  ev_type ev ≠ "payment_intent.payment_failed" →
  ev_type ev ≠ "charge.refunded" →
  serve (webhook env raw sig) s
    = (Return (respond 200 JsonReceived), s,
       [Stripe WebhooksConstructEvent; ConsoleLog "Unhandled event type"]).
Proof.
  intros Hev H1%String.eqb_neq H2%String.eqb_neq H3%String.eqb_neq.
  unfold serve, webhook.
  repeat step. rewrite Hev. cbv iota. rewrite try_catch_run.
  unfold dispatch. rewrite H1, H2, H3. by repeat step.
Qed.

Lemma webhook_unhandled_event_witness :
  serve (webhook (sample_env true never (inr customer_created) (inl "")) "{}" (VStr "t=1,v1=ab"))
    member_store
    = (Return (respond 200 JsonReceived), member_store,
       [Stripe WebhooksConstructEvent; ConsoleLog "Unhandled event type"]).
Proof.
  apply (webhook_unhandled_event (sample_env true never (inr customer_created) (inl ""))
           "{}" (VStr "t=1,v1=ab") customer_created member_store);
    (reflexivity || discriminate).
Defined.

(** X13: a verified charge-refunded event is acknowledged and writes
    nothing when the provider rejects the retrieval of the payment intent,
    when the retrieved intent has no metadata object, or when the charge
    carries no refund entry; each time the handler's own catch block logs
    the failure (its destructuring is inside the try, unlike that of the
    two intent handlers). *)
Theorem refund_not_applied env raw sig ev s :
  constructEvent env raw sig (STRIPE_WEBHOOK_SECRET env) = inr ev →
  ev_type ev = "charge.refunded" →
  (∃ msg, paymentIntents_retrieve env (so_payment_intent (ev_object ev)) = inl msg)
  ∨ (∃ paymentIntent,
       paymentIntents_retrieve env (so_payment_intent (ev_object ev)) = inr paymentIntent ∧
       so_metadata paymentIntent = None)
  ∨ so_refunds (ev_object ev) = None
  ∨ so_refunds (ev_object ev) = Some [] →
  serve (webhook env raw sig) s
    = (Return (respond 200 JsonReceived), s,
       [Stripe WebhooksConstructEvent; Enter "handleRefund";
        Stripe (PaymentIntentsRetrieve (so_payment_intent (ev_object ev)));
        ConsoleError "Error updating refund:"]).
Proof.
  intros Hev Hty Hbad.
  unfold serve, webhook.
  repeat step. rewrite Hev. cbv iota. rewrite try_catch_run.
  unfold dispatch. rewrite Hty. cbv iota beta delta [String.eqb Ascii.eqb Bool.eqb].
  unfold handleRefund. repeat step.
  rewrite bind_try_catch. repeat step.
  destruct (paymentIntents_retrieve env _) as [msg|paymentIntent] eqn:Hpi; cbv iota.
  { by repeat step. }
  destruct (so_metadata paymentIntent) as [md|] eqn:Hmd; cbn [destructure].
  2: { by repeat step. }
  assert (Hre : ∀ st, first_refund_id (so_refunds (ev_object ev)) st
                      = (Throw (TypeError "Cannot read properties of undefined"), st)).
  { destruct Hbad as [[msg ?]|[(pi' & Hpi' & Hmd')|[Hre|Hre]]];
      [congruence|congruence|by rewrite Hre..]. }
  repeat step.
  rewrite bind_pure by apply users_coll_pure.
  destruct (users_coll env _ _ _ _).1; cbv iota; [|by repeat step].
  rewrite bind_pure by apply doc_id_pure.
  destruct (doc_id _ _).1; cbv iota; [|by repeat step].
  rewrite bind_pure by apply first_refund_id_pure. rewrite Hre. cbn [fst]. cbv iota.
  by repeat step.
Qed.

Lemma refund_not_applied_witness :
  serve (webhook (sample_env true never (inr refunded_without_entries)
                    (inr (sample_intent (Some (sample_metadata "dues")))))
           "{}" (VStr "t=1,v1=ab")) member_store
    = (Return (respond 200 JsonReceived), member_store,
       [Stripe WebhooksConstructEvent; Enter "handleRefund";
        Stripe (PaymentIntentsRetrieve (VStr "pi_1"));
        ConsoleError "Error updating refund:"]).
Proof.
  apply (refund_not_applied
           (sample_env true never (inr refunded_without_entries)
              (inr (sample_intent (Some (sample_metadata "dues")))))
           "{}" (VStr "t=1,v1=ab") refunded_without_entries member_store);
    [reflexivity | reflexivity | by right; right; right].
Defined.

(** ** Intent failed *)

(** X14: a verified intent-failed event whose metadata names member and
    organization by document ids and carries a member name, and whose
    payload has an id, upserts the member's Dues record with status
    Failed and, as failureReason, the message of the payload's last
    payment error when it has a non-empty one and "Payment failed"
    otherwise; every stored field outside the six written ones, such as
    the paidDate and stripeChargeId of an earlier payment, stays in the
    record. *)
Theorem payment_failure_upserts_dues env raw sig ev md m o s :
  constructEvent env raw sig (STRIPE_WEBHOOK_SECRET env) = inr ev →
  ev_type ev = "payment_intent.payment_failed" →
  so_metadata (ev_object ev) = Some md →
  md !! "memberId" = Some (VStr m) → plain_id m →
  md !! "organizationId" = Some (VStr o) → plain_id o →
  prop md "memberName" ≠ VUndef →
  so_id (ev_object ev) ≠ VUndef →
  db_configured env = true →
  store_fails env 0 = false →
  let stored := default ∅ (doc_at s (o, m, "dues") m) in
  let message := default VUndef (so_last_payment_error (ev_object ev)) in
  ∃ s' dues,
    serve (webhook env raw sig) s
      = (Return (respond 200 JsonReceived), s',
         [Stripe WebhooksConstructEvent; Enter "handlePaymentFailure";
          ConsoleLog "Payment failed"]) ∧
    doc_at s' (o, m, "dues") m = Some dues ∧
    dues !! "status" = Some (VStr "Failed") ∧
    dues !! "failureReason"
      = Some (if truthy message then message else VStr "Payment failed") ∧
    dues !! "amount" = Some (VNum (so_amount (ev_object ev) / 100)) ∧
    (∀ k, k ∉ failed_keys → dues !! k = stored !! k).
Proof.
  intros Hev Hty Hmd Hm Hm' Ho Ho' Hname Hid Hdb Hf0 stored message.
  eexists _, _. split; [by apply (webhook_failed_run env raw sig ev md m o)|].
  split; [by apply doc_at_set_merge_eq; auto|].
  split; [by apply lookup_union_Some_l|].
  split; [by apply lookup_union_Some_l|].
  split; [by apply lookup_union_Some_l|].
  intros k Hk. apply lookup_union_r.
  unfold failed_keys in Hk. unfold failed_fields, object.
  apply not_elem_of_list_to_map_1. simpl.
  intros Hin. apply Hk. exact Hin.
Qed.

Lemma payment_failure_upserts_dues_witness :
  ∃ s' dues,
    (serve (webhook (sample_env true never (inr payment_failed) (inl "")) "{}" (VStr "t=1,v1=ab"))
       settled_dues_store).1.2 = s' ∧
    doc_at s' ("o1", "m1", "dues") "m1" = Some dues ∧
    dues !! "status" = Some (VStr "Failed") ∧
    dues !! "failureReason" = Some (VStr "Payment failed") ∧
    dues !! "paidDate" = Some (VStr "2024-04-01") ∧
    dues !! "stripeChargeId" = Some (VStr "ch_0").
Proof.
  destruct (payment_failure_upserts_dues (sample_env true never (inr payment_failed) (inl ""))
              "{}" (VStr "t=1,v1=ab") payment_failed (sample_metadata "dues") "m1" "o1"
              settled_dues_store)
    as (s' & dues & Hrun & Hdues & Hstatus & Hreason & _ & Hkept);
    [reflexivity | reflexivity | reflexivity | reflexivity | by split
    | reflexivity | by split | discriminate | discriminate | reflexivity | reflexivity |].
  exists s', dues. rewrite Hrun.
  split; [reflexivity|]. split; [exact Hdues|]. split; [exact Hstatus|].
  split; [exact Hreason|].
  split.
  - rewrite Hkept; [reflexivity|]. unfold failed_keys. intros Hin.
    repeat (apply elem_of_cons in Hin as [Hin|Hin]; [discriminate|]).
    by apply elem_of_nil in Hin.
  - rewrite Hkept; [reflexivity|]. unfold failed_keys. intros Hin.
    repeat (apply elem_of_cons in Hin as [Hin|Hin]; [discriminate|]).
    by apply elem_of_nil in Hin.
Defined.

(** ** What event reconciliation leaves alone *)

Global Instance kept_preorder : PreOrder kept.
Proof.
  split.
  - intros s. split; [|done]. intros p id d Hd. exists d. by split.
  - intros s1 s2 s3 [H12 H12'] [H23 H23']. split.
    + intros p id d Hd. destruct (H12 p id d Hd) as (d2 & Hd2 & Hdom2 & Heq2).
      destruct (H23 p id d2 Hd2) as (d3 & Hd3 & Hdom3 & Heq3).
      exists d3. split; [done|]. split; [set_solver|].
      intros Hne. by rewrite Heq3, Heq2.
    + intros p Hp1 Hp2. by rewrite H23', H12'.
Qed.

Global Instance store_kept_preorder : PreOrder store_kept.
Proof.
  split.
  - intros st. unfold store_kept. reflexivity.
  - intros st1 st2 st3. unfold store_kept. apply transitivity.
Qed.










(** ** Reading the payment history *)

(** X16: the history route never writes and never calls the provider:
    whatever the request and the environment, it leaves the store as it
    was and answers either 200 without any effect or 500 after logging.
    Without a configured store it always answers 500 with the message of
    the null dereference.  With a configured store it answers 500
    whenever the query is rejected, with the message of the rejection
    when both ids are document paths, and 500 as well when one of the ids
    is no document path, such as the empty string or an id with a single
    slash. *)
Theorem history_never_writes env organizationId memberId s :
  ∃ resp tr,
    serve (payments_history env organizationId memberId) s = (Return resp, s, tr) ∧
    (∀ c, Stripe c ∉ tr) ∧
    (status resp = 200 ∧ tr = [] ∨
     status resp = 500 ∧ tr = [ConsoleError "Error fetching payment history:"]) ∧
    (db_configured env = false →
     resp = failure "Failed to fetch payment history"
              "Cannot read properties of null (reading 'collection')") ∧
    (db_configured env = true → store_fails env 0 = true → status resp = 500) ∧
    (db_configured env = true →
     is_Some (doc_path organizationId) → is_Some (doc_path memberId) →
     store_fails env 0 = true →
     resp = failure "Failed to fetch payment history" "record store call failed") ∧
    (db_configured env = true →
     doc_path organizationId = None ∨ doc_path memberId = None →
     status resp = 500).
Proof.
  unfold serve, payments_history, failure. rewrite try_catch_run.
  destruct (db_configured env) eqn:Hdb.
  - destruct (doc_path organizationId) as [o|] eqn:Ho;
      [destruct (doc_path memberId) as [m|] eqn:Hm|].
    + rewrite (bind_users_coll_document _ _ _ _ o m) by done.
      unfold coll_orderBy_desc_get. rewrite bind_store_call. cbn [fst snd].
      destruct (store_fails env 0) eqn:Hf0; repeat step.
      * eexists _, _. split; [reflexivity|].
        split; [intros c Hin%list_elem_of_singleton; discriminate|].
        split; [by right|]. by repeat split.
      * eexists _, _. split; [reflexivity|].
        split; [intros c Hin%elem_of_nil; done|].
        split; [by left|]. repeat split; try done; try by intros _ [|].
    + destruct (users_coll_rejects env (VStr organizationId) (VStr memberId) "payment_intents"
                  Hdb (or_intror Hm)) as [e He].
      rewrite bind_pure by apply users_coll_pure. rewrite He. cbn [fst]. cbv iota.
      repeat step. eexists _, _. split; [reflexivity|].
      split; [intros c Hin%list_elem_of_singleton; discriminate|].
      split; [by right|]. repeat split; try done; try by intros _ _ [? ?].
    + destruct (users_coll_rejects env (VStr organizationId) (VStr memberId) "payment_intents"
                  Hdb (or_introl Ho)) as [e He].
      rewrite bind_pure by apply users_coll_pure. rewrite He. cbn [fst]. cbv iota.
      repeat step. eexists _, _. split; [reflexivity|].
      split; [intros c Hin%list_elem_of_singleton; discriminate|].
      split; [by right|]. repeat split; try done; try by intros _ [? ?].
  - unfold users_coll. rewrite Hdb. repeat step.
    eexists _, _. split; [reflexivity|].
    split; [intros c Hin%list_elem_of_singleton; discriminate|].
    split; [by right|]. by repeat split.
Qed.

Lemma history_never_writes_witness :
  serve (payments_history (strict_env false never (inl "") (inl "")) "o1" "m1") member_store
    = (Return (failure "Failed to fetch payment history"
                 "Cannot read properties of null (reading 'collection')"),
       member_store, [ConsoleError "Error fetching payment history:"]).
Proof.
  destruct (history_never_writes (strict_env false never (inl "") (inl "")) "o1" "m1" member_store)
    as (resp & tr & Hrun & _ & [[H200 _]|[_ ->]] & Hdemo & _).
  - rewrite Hdemo in H200 by reflexivity. discriminate.
  - rewrite Hrun, Hdemo by reflexivity. reflexivity.
Defined.

(** An id with a single slash is no document path: the route stops at
    the reference, before the query, so the 500 it answers is not the one
    of a rejected query. *)
Lemma history_single_slash env memberId s :
  db_configured env = true →
  ∃ resp,
    serve (payments_history env "a/b" memberId) s
      = (Return resp, s, [ConsoleError "Error fetching payment history:"]) ∧
    status resp = 500 ∧
    resp ≠ failure "Failed to fetch payment history" "record store call failed".
Proof.
  intros Hdb. unfold serve, payments_history, users_coll. rewrite try_catch_run, Hdb.
  eexists. split; [reflexivity|]. by split.
Qed.

(** ** Issuance followed by the history query *)

(** A record newer than all the others is the first one the query
    returns; the others follow as before, up to the order of ties. *)
Lemma order_desc_insert_newest (c : gmap string Obj) k r t :
  c !! k = None →
  plain_id k →
  r !! "createdAt" = Some (VTime t) →
  created_before t c →
  ∃ older, order_desc "createdAt" (<[k := r]> c) = (k, r) :: older ∧
           older ≡ₚ order_desc "createdAt" c.
Proof.
  intros Hk Hplain Hr Hold.
  assert (Hperm : order_desc "createdAt" (<[k := r]> c) ≡ₚ (k, r) :: order_desc "createdAt" c).
  { unfold order_desc. rewrite !merge_sort_Permutation, map_to_list_insert by done.
    rewrite (filter_cons_True own_document) by exact Hplain.
    rewrite filter_cons_True; [done|]. unfold has_field. simpl. eauto. }
  assert (Hsorted : StronglySorted (desc_by "createdAt") (order_desc "createdAt" (<[k := r]> c))).
  { apply StronglySorted_merge_sort; apply _. }
  destruct (order_desc "createdAt" (<[k := r]> c)) as [|x older] eqn:HL.
  { by apply Permutation_nil_cons in Hperm. }
  assert (Hx : x ∈ (k, r) :: order_desc "createdAt" c).
  { rewrite <- Hperm. left. }
  destruct x as [xk xd]. apply elem_of_cons in Hx as [[= -> ->]|Hx].
  { exists older. split; [done|]. by apply Permutation_cons_inv in Hperm. }
  exfalso.
  assert (Hin : (k, r) ∈ older).
  { assert (Hin : (k, r) ∈ (xk, xd) :: older) by (rewrite Hperm; left).
    apply elem_of_cons in Hin as [[= <- <-]|Hin]; [|done].
    unfold order_desc in Hx. rewrite merge_sort_Permutation in Hx.
    apply list_elem_of_filter in Hx as [_ [_ Hx%elem_of_map_to_list]%list_elem_of_filter].
    simpl in Hx. congruence. }
  apply StronglySorted_inv in Hsorted as [_ Hall].
  rewrite Forall_forall in Hall. specialize (Hall _ Hin).
  unfold order_desc in Hx. rewrite merge_sort_Permutation in Hx.
  apply list_elem_of_filter in Hx as [[v Hv] [_ Hx%elem_of_map_to_list]%list_elem_of_filter].
  simpl in Hv.
  destruct (Hold _ _ _ Hx Hv) as (t' & -> & Hlt).
  unfold desc_by, key_le, prop in Hall. simpl in Hall. rewrite Hr, Hv in Hall.
  simpl in Hall. lia.
Qed.

(** X17: an intent the dues route has just issued for a member who has
    a name is the first entry of the member's payment history when the
    stored records were created before it: the entry has the fields of
    the stored record and, as id, the id the store chose for it; the
    entries of the earlier history follow it. *)
Theorem issued_intent_heads_history env env' b m o memberData customer paymentIntent s :
  validatePaymentIntent env b = [] →
  prop b "memberId" = VStr m →
  prop b "organizationId" = VStr o →
  db_configured env = true →
  store_fails env 0 = false →
  store_fails env 1 = false →
  doc_at s (o, m, "members") m = Some memberData →
  prop memberData "name" ≠ VUndef →
  customer_answer env memberData (VStr m) (VStr o) = inr customer →
  paymentIntents_create env (dues_intent_params b memberData customer) = inr paymentIntent →
  db_configured env' = true →
  store_fails env' 0 = false →
  let intents := coll_at s (o, m, "payment_intents") in
  created_before (server_time env) intents →
  ∃ resp s' tr before entry older,
    serve (payments_history env' o m) s = (Return (respond 200 (JsonPayments before)), s, []) ∧
    serve (create_payment_intent env b) s = (Return resp, s', tr) ∧
    doc_at s' (o, m, "payment_intents") (auto_id intents)
      = Some (intent_record env b memberData paymentIntent) ∧
    serve (payments_history env' o m) s'
      = (Return (respond 200 (JsonPayments (entry :: older))), s', []) ∧
    entry = intent_record env b memberData paymentIntent ∪ {["id" := VStr (auto_id intents)]} ∧
    entry !! "id" = Some (VStr (auto_id intents)) ∧
    entry !! "paymentIntentId" = Some (VStr (ci_id paymentIntent)) ∧
    entry !! "status" = Some (VStr (ci_status paymentIntent)) ∧
    entry !! "memberName" = Some (prop memberData "name") ∧
    entry !! "createdAt" = Some (VTime (server_time env)) ∧
    older ≡ₚ before.
Proof.
  intros Hval Hm Ho Hdb Hf0 Hf1 Hdoc Hname Hcust Hpi Hdb' Hf0' intents Hold.
  destruct (doc_at_Some_reference _ _ _ _ Hdoc) as (Hon & Hmn & _). simpl in Hon, Hmn.
  destruct (order_desc_insert_newest intents (auto_id intents)
              (intent_record env b memberData paymentIntent) (server_time env))
    as (older & Hhead & Hperm); [apply auto_id_fresh|apply auto_id_plain|done|done|].
  eexists _, _, _, _, _, (payment_of <$> older).
  split; [by apply payments_history_run|].
  split; [by eapply create_payment_intent_run|].
  split; [by apply doc_at_add_doc_new|].
  split.
  { rewrite payments_history_run, coll_at_add_doc_eq by done.
    fold intents. by rewrite Hhead. }
  split; [done|]. repeat split; try done. by rewrite Hperm.
Qed.

Lemma issued_intent_heads_history_witness :
  ∃ s' id older,
    (serve (create_payment_intent working_env sample_intent_body) member_with_intents).1.2 = s' ∧
    serve (payments_history working_env "o1" "m1") s'
      = (Return (respond 200 (JsonPayments
           (intent_record working_env sample_intent_body sample_member sample_created
              ∪ {["id" := VStr id]} :: older))),
         s', []) ∧
    length older = 2.
Proof.
  destruct (issued_intent_heads_history working_env working_env sample_intent_body "m1" "o1"
              sample_member {| customer_id := VStr "cus_1" |} sample_created member_with_intents)
    as (resp & s' & tr & before & entry & older & Hbefore & Hrun & _ & Hafter & -> & _ & _ & _
        & _ & _ & Hperm);
    [reflexivity | reflexivity | reflexivity | reflexivity
    | reflexivity | reflexivity | reflexivity | discriminate | reflexivity | reflexivity
    | reflexivity | reflexivity | |].
  - intros id d v Hd Hv.
    change (coll_at member_with_intents ("o1", "m1", "payment_intents"))
      with (<["a" := object [("paymentIntentId", VStr "pi_1"); ("createdAt", VTime 10)] ]>
              (<["b" := object [("paymentIntentId", VStr "pi_2"); ("createdAt", VTime 20)] ]>
                 (∅ : gmap string Obj))) in Hd.
    apply lookup_insert_Some in Hd as [[_ <-]|[_ Hd]].
    { injection Hv as <-. exists 10%Z. split; reflexivity. }
    apply lookup_insert_Some in Hd as [[_ <-]|[_ Hd]].
    { injection Hv as <-. exists 20%Z. split; reflexivity. }
    rewrite lookup_empty in Hd. discriminate.
  - exists s', (auto_id (coll_at member_with_intents ("o1", "m1", "payment_intents"))), older.
    rewrite Hrun. split; [reflexivity|]. split; [exact Hafter|].
    rewrite Hperm. rewrite payments_history_run in Hbefore by done.
    injection Hbefore as <-. rewrite length_fmap. unfold order_desc.
    rewrite merge_sort_Permutation. reflexivity.
Defined.

(** ** Submission followed by reimbursement *)

(** X18: the expenseId a submission returns is the clock's reading, not
    the id under which the expense was stored.  A reimbursement that
    names the returned id therefore leaves the submitted expense Pending
    and writes its fields into a record of that other id, which holds
    nothing else when no record was there. *)
Theorem returned_expenseId_names_no_expense
    env env' b b' m o memberData customer transfer s :
  validateExpenseSubmit env b = [] →
  prop b "memberId" = VStr m → m ≠ "" →
  prop b "organizationId" = VStr o → o ≠ "" →
  db_configured env = true →
  store_fails env 0 = false →
  store_fails env 1 = false →
  validateExpenseReimbursement env' b' = [] →
  prop b' "memberId" = VStr m →
  prop b' "organizationId" = VStr o →
  db_configured env' = true →
  store_fails env' 0 = false →
  store_fails env' 1 = false →
  doc_at s (o, m, "members") m = Some memberData →
  reimbursement_answer env' b' memberData = inr (customer, transfer) →
  let expenses := coll_at s (o, m, "expenses") in
  date_now env ≠ "" →
  auto_id expenses ≠ date_now env →
  ∃ resp s1 tr1,
    serve (expenses_submit env b) s = (Return resp, s1, tr1) ∧
    status resp = 200 ∧
    response_expenseId resp = VStr (date_now env) ∧
    doc_at s1 (o, m, "expenses") (auto_id expenses) = Some (expense_record env b) ∧
    (prop b' "expenseId" = response_expenseId resp →
     ∃ s2,
       serve (process_reimbursement env' b') s1
         = (Return (respond 200 (JsonTransfer (transfer_id transfer)
                                   "Reimbursement processed successfully")),
            s2, reimbursement_calls env' b' memberData) ∧
       doc_at s2 (o, m, "expenses") (auto_id expenses) = Some (expense_record env b) ∧
       expense_record env b !! "status" = Some (VStr "Pending") ∧
       doc_at s2 (o, m, "expenses") (date_now env)
         = Some (reimbursed_fields env' b' transfer
                   ∪ default ∅ (doc_at s (o, m, "expenses") (date_now env)))).
Proof.
  intros Hval Hm Hm' Ho Ho' Hdb Hf0 Hf1 Hval' Hbm Hbo Hdb' Hf0' Hf1' Hdoc Hans expenses
    Hnow Hne.
  destruct (doc_at_Some_reference _ _ _ _ Hdoc) as (Hon & Hmn & _). simpl in Hon, Hmn.
  assert (Hid : response_expenseId
                  (expense_response env b
                     (default (submitter_member b) (doc_at s (o, m, "members") m)))
                = VStr (date_now env)).
  { unfold expense_response, demo_expense. destruct (key_missing env); [done|].
    by destruct (expense_answer env b _) as [|[]]. }
  assert (Hstored : doc_at (add_doc (o, m, "expenses") (expense_record env b) s)
                      (o, m, "expenses") (auto_id expenses) = Some (expense_record env b)).
  { by apply doc_at_add_doc_new. }
  eexists _, _, _. split; [by apply expenses_submit_run|].
  split; [apply expense_response_200|]. split; [exact Hid|]. split; [exact Hstored|].
  rewrite Hid. intros He. eexists. split.
  { eapply process_reimbursement_run; try done; [by auto|].
    by rewrite doc_at_add_doc_ne. }
  split; [|split; [done|]].
  - rewrite doc_at_set_merge_ne; [done|]. intros [= ?]. by apply Hne.
  - rewrite doc_at_set_merge_eq by (repeat split; auto). do 2 f_equal.
    unfold doc_at. case_decide; [|done].
    rewrite coll_at_add_doc_eq, lookup_insert_ne by done. done.
Qed.

Lemma returned_expenseId_names_no_expense_witness :
  ∃ s1 s2 id,
    (serve (expenses_submit working_env sample_expense_body) member_store).1.2 = s1 ∧
    (serve (process_reimbursement working_env (sample_reimbursement (VStr "1714557600000")))
       s1).1.2 = s2 ∧
    doc_at s2 ("o1", "m1", "expenses") id = Some (expense_record working_env sample_expense_body) ∧
    expense_record working_env sample_expense_body !! "status" = Some (VStr "Pending") ∧
    id ≠ "1714557600000" ∧
    is_Some (doc_at s2 ("o1", "m1", "expenses") "1714557600000").
Proof.
  destruct (returned_expenseId_names_no_expense working_env working_env sample_expense_body
              (sample_reimbursement (VStr "1714557600000")) "m1" "o1" sample_member
              {| customer_id := VStr "cus_1" |} sample_transfer member_store)
    as (resp & s1 & tr1 & Hrun & _ & Hid & _ & Hnext);
    [reflexivity | reflexivity | discriminate | reflexivity | discriminate | reflexivity
    | reflexivity | reflexivity | reflexivity | reflexivity | reflexivity | reflexivity
    | reflexivity | reflexivity | reflexivity | reflexivity | discriminate | discriminate |].
  destruct Hnext as (s2 & Hrun2 & Hkept & Hpending & Hnew); [by rewrite Hid|].
  exists s1, s2, (auto_id (coll_at member_store ("o1", "m1", "expenses"))).
  rewrite Hrun, Hrun2. split; [reflexivity|]. split; [reflexivity|]. split; [exact Hkept|].
  split; [exact Hpending|]. split; [discriminate|].
  change (date_now working_env) with "1714557600000" in Hnew. by rewrite Hnew.
Defined.

(** ** Issued intents that succeed *)

(** X19: the metadata that the two issuing routes attach leads an
    intent-succeeded event back to the member's Dues record.  Whether the
    intent was issued for dues or for an expense, for a member with a
    name and ids that are document ids, an event that carries this
    metadata, an intent id and a charge id marks the Dues record of the
    issuing request's member as Paid, under the name the intent was
    issued with; the payment type is never [donation], so no Donation
    record is appended and no other record changes. *)
Theorem issued_intents_settle_dues env issuer b memberData customer name raw sig ev md m o s :
  prop b "memberId" = VStr m → plain_id m →
  prop b "organizationId" = VStr o → plain_id o →
  prop memberData "name" = VStr name →
  md = ip_metadata (dues_intent_params b memberData customer) ∨
  md = ip_metadata (expense_intent_params issuer b memberData customer) →
  constructEvent env raw sig (STRIPE_WEBHOOK_SECRET env) = inr ev →
  ev_type ev = "payment_intent.succeeded" →
  so_metadata (ev_object ev) = Some md →
  so_id (ev_object ev) ≠ VUndef →
  so_latest_charge (ev_object ev) ≠ VUndef →
  db_configured env = true →
  store_fails env 0 = false →
  ∃ s' dues,
    serve (webhook env raw sig) s
      = (Return (respond 200 JsonReceived), s',
         [Stripe WebhooksConstructEvent; Enter "handlePaymentSuccess";
          ConsoleLog "Payment succeeded"]) ∧
    s' = set_merge (o, m, "dues") m (paid_fields env (ev_object ev) (VStr name)) s ∧
    doc_at s' (o, m, "dues") m = Some dues ∧
    dues !! "status" = Some (VStr "Paid") ∧
    dues !! "memberName" = Some (VStr name) ∧
    dues !! "amount" = Some (VNum (so_amount (ev_object ev) / 100)) ∧
    coll_at s' (o, m, "donations") = coll_at s (o, m, "donations") ∧
    (∀ p id, (p, id) ≠ ((o, m, "dues"), m) → doc_at s' p id = doc_at s p id).
Proof.
  intros Hm Hm' Ho Ho' Hname Hmd Hev Hty Hobj Hid Hcharge Hdb Hf0.
  assert (Hprops : prop md "memberId" = VStr m ∧ prop md "organizationId" = VStr o ∧
                   prop md "memberName" = VStr name ∧
                   strict_eq_str (prop md "paymentType") "donation" = false).
  { rewrite <- Hm, <- Ho, <- Hname. by destruct Hmd as [->| ->]. }
  destruct Hprops as (Hpm & Hpo & Hpn & Hpt).
  eexists _, _.
  split; [|split; [reflexivity|split; [by apply doc_at_set_merge_eq; auto|]]].
  - unfold serve, webhook, paid_fields.
    repeat step. rewrite Hev. cbv iota. rewrite try_catch_run.
    unfold dispatch. rewrite Hty. cbv iota beta delta [String.eqb Ascii.eqb Bool.eqb].
    unfold handlePaymentSuccess. repeat step. rewrite Hobj. cbn [destructure].
    repeat step. rewrite Hpm, Hpo, Hpn, Hpt. cbv iota.
    rewrite bind_try_catch. repeat step. rewrite Hf0. by repeat step.
  - split; [by apply lookup_union_Some_l|]. split; [by apply lookup_union_Some_l|].
    split; [by apply lookup_union_Some_l|]. split.
    + by apply coll_at_set_merge_ne.
    + intros p id Hne. by apply doc_at_set_merge_ne.
Qed.

Lemma issued_intents_settle_dues_witness :
  ∃ s' dues,
    (serve (webhook (sample_env true second_call_fails (inr expense_intent_succeeded) (inl ""))
              "{}" (VStr "t=1,v1=ab")) member_store).1.2 = s' ∧
    doc_at s' ("o1", "m1", "dues") "m1" = Some dues ∧
    dues !! "status" = Some (VStr "Paid") ∧
    dues !! "memberName" = Some (VStr "Test") ∧
    dues !! "amount" = Some (VNum 150).
Proof.
  destruct (issued_intents_settle_dues
              (sample_env true second_call_fails (inr expense_intent_succeeded) (inl ""))
              working_env sample_expense_body sample_member {| customer_id := VStr "cus_1" |}
              "Test" "{}" (VStr "t=1,v1=ab") expense_intent_succeeded
              (ip_metadata (expense_intent_params working_env sample_expense_body sample_member
                              {| customer_id := VStr "cus_1" |}))
              "m1" "o1" member_store)
    as (s' & dues & Hrun & _ & Hdues & Hstatus & Hname & Hamount & _);
    [reflexivity | by split | reflexivity | by split | reflexivity | by right
    | reflexivity | reflexivity | reflexivity | discriminate | discriminate
    | reflexivity | reflexivity |].
  exists s', dues. rewrite Hrun. by repeat split.
Defined.

(** ** Store failures of the submission route; routes without a store *)

(** X20: when the store rejects a call of the submission route for ids
    that are document ids, the route answers 500 without calling the
    provider.  A rejected append leaves the store as it was; a rejected
    member look-up comes after the append, so the expense stays stored
    although the submission is answered as failed. *)
Theorem expense_submit_store_rejection env b m o s :
  validateExpenseSubmit env b = [] →
  prop b "memberId" = VStr m → plain_id m →
  prop b "organizationId" = VStr o → plain_id o →
  db_configured env = true →
  store_fails env 0 = true ∨ store_fails env 1 = true →
  let expenses := coll_at s (o, m, "expenses") in
  ∃ s',
    serve (expenses_submit env b) s
      = (Return (failure "Failed to submit expense" "record store call failed"), s',
         [ConsoleError "Error submitting expense:"]) ∧
    (store_fails env 0 = true → s' = s) ∧
    (store_fails env 0 = false →
     s' = add_doc (o, m, "expenses") (expense_record env b) s ∧
     coll_at s' (o, m, "expenses") = <[auto_id expenses := expense_record env b]> expenses ∧
     doc_at s' (o, m, "expenses") (auto_id expenses) = Some (expense_record env b) ∧
     expenses !! auto_id expenses = None).
Proof.
  intros Hval Hm Hm' Ho Ho' Hdb Hfail expenses.
  destruct (valid_submission_supplied _ _ Hval) as (Hname & Hcategory & Hdescription & _).
  unfold serve, expenses_submit, failure. cbv zeta.
  rewrite try_catch_run, (isEmpty_nil_negb _ Hval), Hdb. cbv iota.
  unfold expense_record. rewrite Hm, Ho.
  repeat step.
  destruct (store_fails env 0) eqn:Hf0.
  - repeat step. eexists. split; [reflexivity|]. by split.
  - destruct Hfail as [?|Hf1]; [done|].
    repeat step. rewrite Hf1. repeat step.
    eexists. split; [reflexivity|]. split; [done|]. intros _.
    split; [done|]. split; [apply coll_at_add_doc_eq|].
    split; [|apply auto_id_fresh].
    apply doc_at_add_doc_new; auto.
Qed.

Lemma expense_submit_store_rejection_witness :
  ∃ s',
    serve (expenses_submit (strict_env true second_call_fails (inr sample_created)
                              (inr sample_transfer)) sample_expense_body) member_store
      = (Return (failure "Failed to submit expense" "record store call failed"), s',
         [ConsoleError "Error submitting expense:"]) ∧
    size (coll_at s' ("o1", "m1", "expenses")) = 1.
Proof.
  destruct (expense_submit_store_rejection
              (strict_env true second_call_fails (inr sample_created) (inr sample_transfer))
              sample_expense_body "m1" "o1" member_store)
    as (s' & Hrun & _ & Hstored);
    [reflexivity | reflexivity | by split | reflexivity | by split | reflexivity
    | by right |].
  destruct Hstored as (_ & Hcoll & _ & Hfresh); [reflexivity|].
  exists s'. split; [exact Hrun|]. rewrite Hcoll. by rewrite map_size_insert_None.
Defined.

(** X21: the reimbursement route uses the store without testing that it
    is configured: without a store every valid request is answered 500
    with the message of the null dereference, before any provider call,
    so that no transfer is ever made in demo mode. *)
Theorem reimbursement_without_store env b s :
  validateExpenseReimbursement env b = [] →
  db_configured env = false →
  serve (process_reimbursement env b) s
    = (Return (failure "Failed to process reimbursement"
                 "Cannot read properties of null (reading 'collection')"),
       s, [ConsoleError "Error processing reimbursement:"]).
Proof.
  intros Hval Hdb.
  unfold serve, process_reimbursement, users_coll, failure. cbv zeta.
  rewrite try_catch_run, (isEmpty_nil_negb _ Hval), Hdb. by repeat step.
Qed.

Lemma reimbursement_without_store_witness :
  serve (process_reimbursement (strict_env false never (inr sample_created) (inr sample_transfer))
           (sample_reimbursement (VStr "e1"))) member_store
    = (Return (failure "Failed to process reimbursement"
                 "Cannot read properties of null (reading 'collection')"),
       member_store, [ConsoleError "Error processing reimbursement:"]).
Proof.
  apply (reimbursement_without_store
           (strict_env false never (inr sample_created) (inr sample_transfer))
           (sample_reimbursement (VStr "e1")) member_store); reflexivity.
Defined.
